(** * Tuple resolution and event correlation of the fentry network tracer

    A shallow embedding of [pkg/network/ebpf/c/co-re/tracer-fentry.c].

    Conventions.
    - C integers are [Z]; a store into a narrower field, an explicit cast
      and every value read from a kernel structure is truncated to the
      width of its C type with [u16], [u32] or [u64].
    - The target is little-endian (the byte order of the eBPF targets the
      tracer is built for), so [bpf_ntohs] swaps the two bytes of a
      16-bit word.
    - A function that mutates a [conn_tuple_t] through a pointer and
      returns an [int] becomes a function returning the pair of the
      [int] and the tuple as it is left behind.
    - An entry point becomes a function from the tracer state to the
      tracer state, applied to what the hook hands it: its arguments, and
      the result of [bpf_get_current_pid_tgid] as [pid_tgid]. The [int]
      an entry point hands back to the kernel is not kept.
    - Helpers that live in other files of the tracer are parameters of
      the section that needs them, or, where a statement depends on what
      they do to a map of this file, definitions written from the
      specification and marked as such.
    - [log_debug] only prints a trace line in debug builds; it is left
      out of the embedding. *)

From Stdlib Require Import ZArith Lia Bool List.
From stdpp Require Import base option gmap.

Local Open Scope Z_scope.

(** ** Machine integers *)

Definition u16 (x : Z) : Z := x mod 2 ^ 16.
Definition u32 (x : Z) : Z := x mod 2 ^ 32.
Definition u64 (x : Z) : Z := x mod 2 ^ 64.

(** [bpf_ntohs] of libbpf's bpf_endian.h on a little-endian target:
    the byte swap of a 16-bit word. *)
Definition bpf_ntohs (x : Z) : Z :=
  Z.lor (Z.shiftl (Z.land x 255) 8) (Z.land (Z.shiftr x 8) 255).

(** ** The connection tuple *)

(** [conn_tuple_t], with the fields the tracer reads and writes. The two
    128-bit addresses are kept as a high and a low 64-bit word; an IPv4
    address lives in the low word alone. *)
Record conn_tuple_t : Type := mk_conn_tuple {
  saddr_h : Z;
  saddr_l : Z;
  daddr_h : Z;
  daddr_l : Z;
  sport : Z;
  dport : Z;
  netns : Z;
  pid : Z;
  metadata : Z
}.

(** [conn_tuple_t t = {}]. *)
Definition conn_tuple_zero : conn_tuple_t :=
  mk_conn_tuple 0 0 0 0 0 0 0 0 0.

Definition set_saddr_h (v : Z) (t : conn_tuple_t) : conn_tuple_t :=
  mk_conn_tuple v (saddr_l t) (daddr_h t) (daddr_l t) (sport t) (dport t)
    (netns t) (pid t) (metadata t).

Definition set_saddr_l (v : Z) (t : conn_tuple_t) : conn_tuple_t :=
  mk_conn_tuple (saddr_h t) v (daddr_h t) (daddr_l t) (sport t) (dport t)
    (netns t) (pid t) (metadata t).

Definition set_daddr_h (v : Z) (t : conn_tuple_t) : conn_tuple_t :=
  mk_conn_tuple (saddr_h t) (saddr_l t) v (daddr_l t) (sport t) (dport t)
    (netns t) (pid t) (metadata t).

Definition set_daddr_l (v : Z) (t : conn_tuple_t) : conn_tuple_t :=
  mk_conn_tuple (saddr_h t) (saddr_l t) (daddr_h t) v (sport t) (dport t)
    (netns t) (pid t) (metadata t).

Definition set_sport (v : Z) (t : conn_tuple_t) : conn_tuple_t :=
  mk_conn_tuple (saddr_h t) (saddr_l t) (daddr_h t) (daddr_l t) v (dport t)
    (netns t) (pid t) (metadata t).

Definition set_dport (v : Z) (t : conn_tuple_t) : conn_tuple_t :=
  mk_conn_tuple (saddr_h t) (saddr_l t) (daddr_h t) (daddr_l t) (sport t) v
    (netns t) (pid t) (metadata t).

Definition set_pid (v : Z) (t : conn_tuple_t) : conn_tuple_t :=
  mk_conn_tuple (saddr_h t) (saddr_l t) (daddr_h t) (daddr_l t) (sport t)
    (dport t) (netns t) v (metadata t).

Definition set_metadata (v : Z) (t : conn_tuple_t) : conn_tuple_t :=
  mk_conn_tuple (saddr_h t) (saddr_l t) (daddr_h t) (daddr_l t) (sport t)
    (dport t) (netns t) (pid t) v.

(** ** Flow descriptors *)

(** The fields of [struct flowi4] the tracer reads: the two [__be32]
    addresses and the two [__be16] ports, as the words a load yields. *)
Record flowi4 : Type := mk_flowi4 {
  fl4_saddr : Z;
  fl4_daddr : Z;
  fl4_sport : Z;
  fl4_dport : Z
}.

(** [struct in6_addr]: sixteen bytes in network order, held as the two
    64-bit words a load of bytes 0..7 and of bytes 8..15 yields. *)
Record in6_addr : Type := mk_in6_addr {
  in6_h : Z;
  in6_l : Z
}.

Record flowi6 : Type := mk_flowi6 {
  fl6_saddr : in6_addr;
  fl6_daddr : in6_addr;
  fl6_sport : Z;
  fl6_dport : Z
}.

(** Modelled from the spec: [read_in6_addr] of ipv6.h is not part of this
    file. The spec describes an address as 128-bit storage split in a
    high and a low half; the helper stores the first eight bytes of the
    address in the high word and the last eight in the low word. *)
Definition read_in6_addr (a : in6_addr) : Z * Z :=
  (u64 (in6_h a), u64 (in6_l a)).

(** Little-endian load of a byte string, used to write addresses down
    byte by byte in the examples. *)
Fixpoint le_word (bs : list Z) : Z :=
  match bs with
  | nil => 0
  | b :: bs' => Z.lor (Z.land b 255) (Z.shiftl (le_word bs') 8)
  end.

Definition in6_of_bytes (bs : list Z) : in6_addr :=
  mk_in6_addr (le_word (firstn 8 bs)) (le_word (firstn 8 (skipn 8 bs))).

(** Modelled from the spec: what it means for one address to be
    IPv4-mapped ([::ffff:a.b.c.d]): bytes 0..7 are zero, bytes 8..11 are
    [00 00 ff ff]. In words: a zero high word and [0xFFFF0000] in the low
    32 bits of the low word. *)
Definition ipv4_mapped (addr_h addr_l : Z) : bool :=
  (addr_h =? 0) && (u32 addr_l =? 0xFFFF0000).

(** Modelled from the spec: [is_ipv4_mapped_ipv6] of ipv6.h is not part of
    this file. The spec collapses a tuple when both of its addresses are
    IPv4-mapped. *)
Definition is_ipv4_mapped_ipv6_spec (saddr_h saddr_l daddr_h daddr_l : Z) : bool :=
  ipv4_mapped saddr_h saddr_l && ipv4_mapped daddr_h daddr_l.

(** ** Partial resolution from a flow descriptor *)

Definition read_conn_tuple_partial_from_flowi4
    (t : conn_tuple_t) (fl4 : flowi4) (pid_tgid type : Z) : Z * conn_tuple_t :=
  let t := set_pid (u32 (Z.shiftr pid_tgid 32)) t in
  let t := set_metadata type t in
  let t := if saddr_l t =? 0 then set_saddr_l (u32 (fl4_saddr fl4)) t else t in
  let t := if daddr_l t =? 0 then set_daddr_l (u32 (fl4_daddr fl4)) t else t in
  if (saddr_l t =? 0) || (daddr_l t =? 0) then (0, t)
  else
    let t :=
      if sport t =? 0 then set_sport (bpf_ntohs (u16 (fl4_sport fl4))) t else t in
    let t :=
      if dport t =? 0 then set_dport (bpf_ntohs (u16 (fl4_dport fl4))) t else t in
    if (sport t =? 0) || (dport t =? 0) then (0, t) else (1, t).

Section Flowi6.

(** The family bits of [metadata_mask_t] and the helper that recognises
    IPv4-mapped addresses are declared in headers outside this file. *)
Variables CONN_V4 CONN_V6 : Z.
Variable is_ipv4_mapped_ipv6 : Z -> Z -> Z -> Z -> bool.

Definition read_conn_tuple_partial_from_flowi6
    (t : conn_tuple_t) (fl6 : flowi6) (pid_tgid type : Z) : Z * conn_tuple_t :=
  let t := set_pid (u32 (Z.shiftr pid_tgid 32)) t in
  let t := set_metadata type t in
  let addr := fl6_saddr fl6 in
  let t :=
    if (saddr_l t =? 0) || (saddr_h t =? 0)
    then set_saddr_l (snd (read_in6_addr addr))
           (set_saddr_h (fst (read_in6_addr addr)) t)
    else t in
  let t :=
    if (daddr_l t =? 0) || (daddr_h t =? 0)
    then
      let addr := fl6_daddr fl6 in
      set_daddr_l (snd (read_in6_addr addr))
        (set_daddr_h (fst (read_in6_addr addr)) t)
    else t in
  if negb (negb (saddr_h t =? 0) || negb (saddr_l t =? 0)) then (0, t)
  else if negb (negb (daddr_h t =? 0) || negb (daddr_l t =? 0)) then (0, t)
  else
    let t :=
      if is_ipv4_mapped_ipv6 (saddr_h t) (saddr_l t) (daddr_h t) (daddr_l t)
      then
        let t := set_metadata (Z.lor (metadata t) CONN_V4) t in
        let t := set_saddr_h 0 t in
        let t := set_daddr_h 0 t in
        let t := set_saddr_l (u32 (Z.shiftr (saddr_l t) 32)) t in
        set_daddr_l (u32 (Z.shiftr (daddr_l t) 32)) t
      else set_metadata (Z.lor (metadata t) CONN_V6) t in
    let t :=
      if sport t =? 0 then set_sport (bpf_ntohs (u16 (fl6_sport fl6))) t else t in
    let t :=
      if dport t =? 0 then set_dport (bpf_ntohs (u16 (fl6_dport fl6))) t else t in
    if (sport t =? 0) || (dport t =? 0) then (0, t) else (1, t).

End Flowi6.

(** ** The values a partial resolution settles on

    What each address and port of the tuple is once the fallback read
    from the flow descriptor has been applied to it. *)

(** A field that is still zero takes the fallback value. *)
Definition or_else (v fallback : Z) : Z :=
  if v =? 0 then fallback else v.

Definition flow4_saddr (t : conn_tuple_t) (fl4 : flowi4) : Z :=
  or_else (saddr_l t) (u32 (fl4_saddr fl4)).

Definition flow4_daddr (t : conn_tuple_t) (fl4 : flowi4) : Z :=
  or_else (daddr_l t) (u32 (fl4_daddr fl4)).

Definition flow4_sport (t : conn_tuple_t) (fl4 : flowi4) : Z :=
  or_else (sport t) (bpf_ntohs (u16 (fl4_sport fl4))).

Definition flow4_dport (t : conn_tuple_t) (fl4 : flowi4) : Z :=
  or_else (dport t) (bpf_ntohs (u16 (fl4_dport fl4))).

(** An IPv6 address of the tuple counts as unset while either of its
    words is zero, and is then replaced as a whole. *)
Definition addr6_unset (addr_h addr_l : Z) : bool :=
  (addr_l =? 0) || (addr_h =? 0).

Definition addr6_or_else (addr_h addr_l : Z) (fallback : Z * Z) : Z * Z :=
  if addr6_unset addr_h addr_l then fallback else (addr_h, addr_l).

Definition flow6_saddr (t : conn_tuple_t) (fl6 : flowi6) : Z * Z :=
  addr6_or_else (saddr_h t) (saddr_l t) (read_in6_addr (fl6_saddr fl6)).

Definition flow6_daddr (t : conn_tuple_t) (fl6 : flowi6) : Z * Z :=
  addr6_or_else (daddr_h t) (daddr_l t) (read_in6_addr (fl6_daddr fl6)).

Definition flow6_sport (t : conn_tuple_t) (fl6 : flowi6) : Z :=
  or_else (sport t) (bpf_ntohs (u16 (fl6_sport fl6))).

Definition flow6_dport (t : conn_tuple_t) (fl6 : flowi6) : Z :=
  or_else (dport t) (bpf_ntohs (u16 (fl6_dport fl6))).

(** Whether the IPv6 resolution of [t] against [fl6] takes the collapse
    branch of the helper's test. *)
Definition flow6_mapped (is_ipv4_mapped_ipv6 : Z -> Z -> Z -> Z -> bool)
    (t : conn_tuple_t) (fl6 : flowi6) : bool :=
  is_ipv4_mapped_ipv6
    (fst (flow6_saddr t fl6)) (snd (flow6_saddr t fl6))
    (fst (flow6_daddr t fl6)) (snd (flow6_daddr t fl6)).

(** ** Kernel objects handed to the entry points *)

(** Kernel constants (linux/net.h, linux/socket.h) and the flag the file
    defines itself. *)
Definition SOCK_STREAM : Z := 1.
Definition SOCK_DGRAM : Z := 2.
Definition AF_INET : Z := 2.
Definition AF_INET6 : Z := 10.
Definition MSG_PEEK : Z := 2.

(** [struct proto_ops], [struct socket], [struct sk_buff]: the fields the
    entry points read. A [struct sock *] is its address, used only as a
    map key and as an argument of collaborators. A NULL pointer field is
    [None]. *)
Record proto_ops : Type := mk_proto_ops {
  ops_family : Z
}.

Record socket : Type := mk_socket {
  socket_type : Z;
  socket_ops : option proto_ops;
  socket_sk : Z
}.

Record sk_buff : Type := mk_sk_buff {
  skb_sk : Z
}.

(** [struct sockaddr] seen through its two casts: [sockaddr_in] and
    [sockaddr_in6] both keep the port in the 16-bit big-endian word that
    follows the family. *)
Record sockaddr : Type := mk_sockaddr {
  sa_family : Z;
  sa_port_word : Z;
  sa_addr : in6_addr
}.

Definition sockaddr_in_sin_port (a : sockaddr) : Z := u16 (sa_port_word a).
Definition sockaddr_in6_sin6_port (a : sockaddr) : Z := u16 (sa_port_word a).

Record msghdr : Type := mk_msghdr {
  msg_name : option sockaddr
}.

(** ** Map keys and values *)

Record pid_fd_t : Type := mk_pid_fd {
  pf_pid : Z;
  pf_fd : Z
}.

Record port_binding_t : Type := mk_port_binding {
  pb_netns : Z;
  pb_port : Z
}.

#[global] Instance pid_fd_eq_dec : EqDecision pid_fd_t.
Proof. solve_decision. Defined.

#[global] Instance pid_fd_countable : Countable pid_fd_t.
Proof.
  refine (inj_countable' (fun p => (pf_pid p, pf_fd p))
            (fun q => mk_pid_fd (fst q) (snd q)) _).
  intros []; reflexivity.
Defined.

#[global] Instance port_binding_eq_dec : EqDecision port_binding_t.
Proof. solve_decision. Defined.

#[global] Instance port_binding_countable : Countable port_binding_t.
Proof.
  refine (inj_countable' (fun p => (pb_netns p, pb_port p))
            (fun q => mk_port_binding (fst q) (snd q)) _).
  intros []; reflexivity.
Defined.

(** ** Collaborators outside the file *)

Inductive conn_direction_t : Type :=
  | CONN_DIRECTION_UNKNOWN
  | CONN_DIRECTION_INCOMING
  | CONN_DIRECTION_OUTGOING.

Inductive packet_count_increment_t : Type :=
  | PACKET_COUNT_ABSOLUTE
  | PACKET_COUNT_INCREMENT
  | PACKET_COUNT_NONE.

(** Calls that leave this file towards the socket resolver and the
    aggregation backend, recorded in the order they are made. *)
Inductive call : Type :=
  | ReadConnTuple (sk pid_tgid type : Z)
  | ReadConnTuplePartial (t : conn_tuple_t) (sk pid_tgid type : Z)
  | HandleTcpStats (t : conn_tuple_t) (sk state : Z)
  | HandleMessage (t : conn_tuple_t) (sent_bytes recv_bytes : Z)
      (dir : conn_direction_t) (packets_out packets_in : Z)
      (segs_type : packet_count_increment_t) (sk : Z)
  | HandleTcpRecv (pid_tgid sk copied : Z)
  | CleanupConn (t : conn_tuple_t) (sk : Z).

(** ** Tracer state

    The maps this file reads and writes, the telemetry counter it bumps
    and the trace of outbound calls. [udp_send_skb_args] is a per-CPU
    hash map: the field is the instance of the CPU the entry points run
    on. *)
Record tracer_state : Type := mk_state {
  udp_send_skb_args : gmap Z conn_tuple_t;
  tcp_ongoing_connect_pid : gmap Z Z;
  sock_by_pid_fd : gmap pid_fd_t Z;
  pid_fd_by_sock : gmap Z pid_fd_t;
  port_bindings : gset port_binding_t;
  udp_port_bindings : gset port_binding_t;
  udp_send_missed : Z;
  calls : list call
}.

Definition initial_state : tracer_state :=
  mk_state ∅ ∅ ∅ ∅ ∅ ∅ 0 nil.

Definition set_udp_send_skb_args (m : gmap Z conn_tuple_t) (st : tracer_state)
    : tracer_state :=
  mk_state m (tcp_ongoing_connect_pid st) (sock_by_pid_fd st)
    (pid_fd_by_sock st) (port_bindings st) (udp_port_bindings st)
    (udp_send_missed st) (calls st).

Definition set_tcp_ongoing_connect_pid (m : gmap Z Z) (st : tracer_state)
    : tracer_state :=
  mk_state (udp_send_skb_args st) m (sock_by_pid_fd st)
    (pid_fd_by_sock st) (port_bindings st) (udp_port_bindings st)
    (udp_send_missed st) (calls st).

Definition set_sock_by_pid_fd (m : gmap pid_fd_t Z) (st : tracer_state)
    : tracer_state :=
  mk_state (udp_send_skb_args st) (tcp_ongoing_connect_pid st) m
    (pid_fd_by_sock st) (port_bindings st) (udp_port_bindings st)
    (udp_send_missed st) (calls st).

Definition set_pid_fd_by_sock (m : gmap Z pid_fd_t) (st : tracer_state)
    : tracer_state :=
  mk_state (udp_send_skb_args st) (tcp_ongoing_connect_pid st)
    (sock_by_pid_fd st) m (port_bindings st) (udp_port_bindings st)
    (udp_send_missed st) (calls st).

Definition set_udp_port_bindings (s : gset port_binding_t) (st : tracer_state)
    : tracer_state :=
  mk_state (udp_send_skb_args st) (tcp_ongoing_connect_pid st)
    (sock_by_pid_fd st) (pid_fd_by_sock st) (port_bindings st) s
    (udp_send_missed st) (calls st).

Definition set_udp_send_missed (n : Z) (st : tracer_state) : tracer_state :=
  mk_state (udp_send_skb_args st) (tcp_ongoing_connect_pid st)
    (sock_by_pid_fd st) (pid_fd_by_sock st) (port_bindings st)
    (udp_port_bindings st) n (calls st).

(** Appends one outbound call to the trace. *)
Definition emit (c : call) (st : tracer_state) : tracer_state :=
  mk_state (udp_send_skb_args st) (tcp_ongoing_connect_pid st)
    (sock_by_pid_fd st) (pid_fd_by_sock st) (port_bindings st)
    (udp_port_bindings st) (udp_send_missed st) (calls st ++ c :: nil).

(** [increment_telemetry_count(udp_send_missed)]. *)
Definition increment_udp_send_missed (st : tracer_state) : tracer_state :=
  set_udp_send_missed (udp_send_missed st + 1) st.

(** ** Bounded hash maps *)

(** [bpf_map_update_elem] with [BPF_ANY] on a hash map of [max_entries]
    slots: an existing key is replaced, a new key is stored while there
    is room, and dropped otherwise. *)
Definition bpf_map_update_elem `{Countable K} {V : Type}
    (max_entries : nat) (m : gmap K V) (k : K) (v : V) : gmap K V :=
  match m !! k with
  | Some _ => <[k := v]> m
  | None => if (size m <? max_entries)%nat then <[k := v]> m else m
  end.

(** Modelled from the spec: [bpf_map_update_with_telemetry] of
    bpf_telemetry.h is not part of this file. On the map it is the same
    update; the spec has a failed insertion dropped silently, the error
    counter it bumps belongs to the telemetry backend. *)
Definition bpf_map_update_with_telemetry `{Countable K} {V : Type}
    (max_entries : nat) (m : gmap K V) (k : K) (v : V) : gmap K V :=
  bpf_map_update_elem max_entries m k v.

(** Modelled from the spec: [clear_sockfd_maps] of sockfd.h is not part
    of this file. The close path clears the descriptor index entries of
    the socket: the descriptor the socket maps to loses its entry, and so
    does the socket. *)
Definition clear_sockfd_maps (sock : Z) (st : tracer_state) : tracer_state :=
  match pid_fd_by_sock st !! sock with
  | None => st
  | Some pid_fd =>
      let st := set_sock_by_pid_fd (delete pid_fd (sock_by_pid_fd st)) st in
      set_pid_fd_by_sock (delete sock (pid_fd_by_sock st)) st
  end.

(** Modelled from the spec: [add_port_bind] of port.h is not part of this
    file. The spec's [bind(set, binding)] is an idempotent insert into a
    bounded set: a binding that is in the set leaves it as it is, a new
    one is stored while there is room, and dropped silently once the set
    holds [max_entries] bindings. *)
Definition add_port_bind (max_entries : nat) (pb : port_binding_t)
    (s : gset port_binding_t) : gset port_binding_t :=
  if decide (pb ∈ s) then s
  else if (size s <? max_entries)%nat then {[ pb ]} ∪ s else s.

(** ** Entry points *)

Section EntryPoints.

(** Declared in headers outside this file: the protocol and family
    bits of [metadata_mask_t], the sizes of the descriptor index maps
    and of the UDP binding set, and the helpers that read a socket. Each
    helper is a function of what it is given; what it reads from kernel
    memory is part of the function. *)
Variables CONN_TYPE_UDP CONN_TYPE_TCP CONN_V4 CONN_V6 : Z.
Variable is_ipv4_mapped_ipv6 : Z -> Z -> Z -> Z -> bool.
Variables sock_by_pid_fd_entries pid_fd_by_sock_entries : nat.
Variable tcp_ongoing_connect_pid_entries : nat.
Variable udp_port_bindings_entries : nat.
Variable read_conn_tuple : conn_tuple_t -> Z -> Z -> Z -> Z * conn_tuple_t.
Variable read_conn_tuple_partial :
  conn_tuple_t -> Z -> Z -> Z -> Z * conn_tuple_t.
Variable get_tcp_segment_counts : Z -> Z * Z.
Variable read_sport : Z -> Z.
Variable sockaddr_to_addr : sockaddr -> conn_tuple_t -> conn_tuple_t.

(** [BPF_PERCPU_HASH_MAP(udp_send_skb_args, u64, conn_tuple_t, 1024)]. *)
Definition udp_send_skb_args_entries : nat := 1024.

(** [fexit/tcp_sendmsg]. *)
Definition tcp_sendmsg_exit (pid_tgid sk sent : Z) (st : tracer_state)
    : tracer_state :=
  if sent <? 0 then st
  else
    let st := emit (ReadConnTuple sk pid_tgid CONN_TYPE_TCP) st in
    let r := read_conn_tuple conn_tuple_zero sk pid_tgid CONN_TYPE_TCP in
    if fst r =? 0 then st
    else
      let t := snd r in
      let st := emit (HandleTcpStats t sk 0) st in
      let packets_in := fst (get_tcp_segment_counts sk) in
      let packets_out := snd (get_tcp_segment_counts sk) in
      emit (HandleMessage t sent 0 CONN_DIRECTION_UNKNOWN packets_out
              packets_in PACKET_COUNT_ABSOLUTE sk) st.

(** [fexit/tcp_recvmsg]. *)
Definition tcp_recvmsg_exit (pid_tgid sk copied : Z) (st : tracer_state)
    : tracer_state :=
  if copied <? 0 then st
  else emit (HandleTcpRecv pid_tgid sk copied) st.

(** [fentry/tcp_connect]. *)
Definition tcp_connect (pid_tgid sk : Z) (st : tracer_state) : tracer_state :=
  set_tcp_ongoing_connect_pid
    (bpf_map_update_with_telemetry tcp_ongoing_connect_pid_entries
       (tcp_ongoing_connect_pid st) sk pid_tgid) st.

(** [fentry/tcp_close]. *)
Definition tcp_close (pid_tgid sk : Z) (st : tracer_state) : tracer_state :=
  let t := conn_tuple_zero in
  let st :=
    set_tcp_ongoing_connect_pid (delete sk (tcp_ongoing_connect_pid st)) st in
  let st := clear_sockfd_maps sk st in
  let st := emit (ReadConnTuple sk pid_tgid CONN_TYPE_TCP) st in
  let r := read_conn_tuple t sk pid_tgid CONN_TYPE_TCP in
  if fst r =? 0 then st
  else emit (CleanupConn (snd r) sk) st.

Definition handle_udp_send (pid_tgid sk sent : Z) (st : tracer_state)
    : tracer_state :=
  match udp_send_skb_args st !! pid_tgid with
  | None => st
  | Some t =>
      let st :=
        if 0 <? sent
        then emit (HandleMessage t sent 0 CONN_DIRECTION_UNKNOWN 1 0
                     PACKET_COUNT_NONE sk) st
        else st in
      set_udp_send_skb_args (delete pid_tgid (udp_send_skb_args st)) st
  end.

(** [kprobe/udp_v6_send_skb]. The tuple on the stack is not initialised:
    [t0] is whatever it holds. *)
Definition kprobe__udp_v6_send_skb (pid_tgid : Z) (skb : sk_buff)
    (fl6 : flowi6) (t0 : conn_tuple_t) (st : tracer_state) : tracer_state :=
  let sk := skb_sk skb in
  let st := emit (ReadConnTuple sk pid_tgid CONN_TYPE_UDP) st in
  let r := read_conn_tuple t0 sk pid_tgid CONN_TYPE_UDP in
  let r :=
    if fst r =? 0
    then read_conn_tuple_partial_from_flowi6 CONN_V4 CONN_V6
           is_ipv4_mapped_ipv6 (snd r) fl6 pid_tgid CONN_TYPE_UDP
    else r in
  if fst r =? 0 then increment_udp_send_missed st
  else
    set_udp_send_skb_args
      (bpf_map_update_elem udp_send_skb_args_entries (udp_send_skb_args st)
         pid_tgid (snd r)) st.

(** [fexit/udpv6_sendmsg]. *)
Definition udpv6_sendmsg_exit (pid_tgid sk sent : Z) (st : tracer_state)
    : tracer_state :=
  handle_udp_send pid_tgid sk sent st.

(** [kprobe/udp_send_skb]. *)
Definition kprobe__udp_send_skb (pid_tgid : Z) (skb : sk_buff)
    (fl4 : flowi4) (t0 : conn_tuple_t) (st : tracer_state) : tracer_state :=
  let sk := skb_sk skb in
  let st := emit (ReadConnTuple sk pid_tgid CONN_TYPE_UDP) st in
  let r := read_conn_tuple t0 sk pid_tgid CONN_TYPE_UDP in
  let r :=
    if fst r =? 0
    then read_conn_tuple_partial_from_flowi4 (snd r) fl4 pid_tgid CONN_TYPE_UDP
    else r in
  if fst r =? 0 then increment_udp_send_missed st
  else
    set_udp_send_skb_args
      (bpf_map_update_elem udp_send_skb_args_entries (udp_send_skb_args st)
         pid_tgid (snd r)) st.

(** [fexit/udp_sendmsg]. *)
Definition udp_sendmsg_exit (pid_tgid sk sent : Z) (st : tracer_state)
    : tracer_state :=
  handle_udp_send pid_tgid sk sent st.

Definition handle_ret_udp_recvmsg (pid_tgid sk : Z) (msg : option msghdr)
    (copied flags : Z) (st : tracer_state) : tracer_state :=
  if copied <? 0 then st
  else if negb (Z.land flags MSG_PEEK =? 0) then st
  else
    let t := conn_tuple_zero in
    let t :=
      match msg with
      | Some m =>
          match msg_name m with
          | Some name => sockaddr_to_addr name t
          | None => t
          end
      | None => t
      end in
    let st := emit (ReadConnTuplePartial t sk pid_tgid CONN_TYPE_UDP) st in
    let r := read_conn_tuple_partial t sk pid_tgid CONN_TYPE_UDP in
    if fst r =? 0 then st
    else
      emit (HandleMessage (snd r) 0 copied CONN_DIRECTION_UNKNOWN 0 1
              PACKET_COUNT_NONE sk) st.

(** [fexit/udp_recvmsg]. *)
Definition udp_recvmsg_exit (pid_tgid sk : Z) (msg : option msghdr)
    (flags copied : Z) (st : tracer_state) : tracer_state :=
  handle_ret_udp_recvmsg pid_tgid sk msg copied flags st.

(** [fexit/udpv6_recvmsg]. *)
Definition udpv6_recvmsg_exit (pid_tgid sk : Z) (msg : option msghdr)
    (flags copied : Z) (st : tracer_state) : tracer_state :=
  handle_ret_udp_recvmsg pid_tgid sk msg copied flags st.

Definition sys_exit_bind (sock : socket) (addr : option sockaddr) (rc : Z)
    (st : tracer_state) : tracer_state :=
  if negb (rc =? 0) then st
  else
    let type := u16 (socket_type sock) in
    if Z.land type SOCK_DGRAM =? 0 then st
    else
      match addr with
      | None => st
      | Some addr =>
          let sin_port := 0 in
          let family := sa_family addr in
          let sin_port :=
            if family =? AF_INET then sockaddr_in_sin_port addr
            else if family =? AF_INET6 then sockaddr_in6_sin6_port addr
            else sin_port in
          let sin_port := bpf_ntohs sin_port in
          let sin_port :=
            if sin_port =? 0 then u16 (read_sport (socket_sk sock))
            else sin_port in
          if sin_port =? 0 then st
          else
            let pb := mk_port_binding 0 sin_port in
            set_udp_port_bindings
              (add_port_bind udp_port_bindings_entries pb
                 (udp_port_bindings st)) st
      end.

(** [fexit/inet_bind]. *)
Definition inet_bind_exit (sock : socket) (uaddr : option sockaddr) (rc : Z)
    (st : tracer_state) : tracer_state :=
  sys_exit_bind sock uaddr rc st.

(** [fexit/inet6_bind]. *)
Definition inet6_bind_exit (sock : socket) (uaddr : option sockaddr) (rc : Z)
    (st : tracer_state) : tracer_state :=
  sys_exit_bind sock uaddr rc st.

(** [fexit/sockfd_lookup_light]. *)
Definition sockfd_lookup_light_exit (pid_tgid fd : Z) (socket : socket)
    (st : tracer_state) : tracer_state :=
  let key := mk_pid_fd (u32 (Z.shiftr pid_tgid 32)) fd in
  match sock_by_pid_fd st !! key with
  | Some _ => st
  | None =>
      match socket_ops socket with
      | None => st
      | Some proto_ops =>
          let sock_type := socket_type socket in
          let family := ops_family proto_ops in
          if negb (sock_type =? SOCK_STREAM)
             || negb ((family =? AF_INET) || (family =? AF_INET6))
          then st
          else
            let sock := socket_sk socket in
            let pid_fd := mk_pid_fd (u32 (Z.shiftr pid_tgid 32)) fd in
            let st :=
              set_pid_fd_by_sock
                (bpf_map_update_with_telemetry pid_fd_by_sock_entries
                   (pid_fd_by_sock st) sock pid_fd) st in
            set_sock_by_pid_fd
              (bpf_map_update_with_telemetry sock_by_pid_fd_entries
                 (sock_by_pid_fd st) pid_fd sock) st
      end
  end.

End EntryPoints.

(** ** Instances used by the examples

    Values for what the headers outside this file declare, used where a
    statement is evaluated on concrete data. *)

(** Modelled from the spec: the metadata word keeps the protocol
    (TCP or UDP) and the family (IPv4 or IPv6) of a tuple in separate
    bits; the bit values of tracer.h are not part of this file. *)
Definition example_CONN_TYPE_UDP : Z := 0.
Definition example_CONN_TYPE_TCP : Z := 1.
Definition example_CONN_V4 : Z := 0.
Definition example_CONN_V6 : Z := 2.

(** [::ffff:10.0.0.1] and [::ffff:10.0.0.2], byte by byte. *)
Definition mapped_10_0_0_1 : in6_addr :=
  in6_of_bytes (0 :: 0 :: 0 :: 0 :: 0 :: 0 :: 0 :: 0 ::
                0 :: 0 :: 255 :: 255 :: 10 :: 0 :: 0 :: 1 :: nil).

Definition mapped_10_0_0_2 : in6_addr :=
  in6_of_bytes (0 :: 0 :: 0 :: 0 :: 0 :: 0 :: 0 :: 0 ::
                0 :: 0 :: 255 :: 255 :: 10 :: 0 :: 0 :: 2 :: nil).

(** [2001:db8::1] and [2001:db8::2]. *)
Definition global_2001_db8_1 : in6_addr :=
  in6_of_bytes (32 :: 1 :: 13 :: 184 :: 0 :: 0 :: 0 :: 0 ::
                0 :: 0 :: 0 :: 0 :: 0 :: 0 :: 0 :: 1 :: nil).

Definition global_2001_db8_2 : in6_addr :=
  in6_of_bytes (32 :: 1 :: 13 :: 184 :: 0 :: 0 :: 0 :: 0 ::
                0 :: 0 :: 0 :: 0 :: 0 :: 0 :: 0 :: 2 :: nil).

(** [10.0.0.1] and [10.0.0.2] as the [__be32] words a load yields. *)
Definition ipv4_10_0_0_1 : Z := le_word (10 :: 0 :: 0 :: 1 :: nil).
Definition ipv4_10_0_0_2 : Z := le_word (10 :: 0 :: 0 :: 2 :: nil).

(** Port [n] as the [__be16] word a load yields. *)
Definition be16 (n : Z) : Z := bpf_ntohs n.

(** The last four bytes of an IPv6 address held in the low word
    [addr_l]: the [__be32] word an IPv4 address is kept as. *)
Definition in6_low32 (addr_l : Z) : Z := u32 (Z.shiftr addr_l 32).

(** ** Statements about partial resolution *)

(** Every field of [t] that holds a nonzero value holds the same value
    in [t']. *)
Definition keeps_set_fields (t t' : conn_tuple_t) : Prop :=
  (saddr_h t <> 0 -> saddr_h t' = saddr_h t) /\
  (saddr_l t <> 0 -> saddr_l t' = saddr_l t) /\
  (daddr_h t <> 0 -> daddr_h t' = daddr_h t) /\
  (daddr_l t <> 0 -> daddr_l t' = daddr_l t) /\
  (sport t <> 0 -> sport t' = sport t) /\
  (dport t <> 0 -> dport t' = dport t) /\
  (netns t <> 0 -> netns t' = netns t) /\
  (pid t <> 0 -> pid t' = pid t) /\
  (metadata t <> 0 -> metadata t' = metadata t).

(** After the fallback reads, an address or a port of the tuple is
    still zero. An IPv4 address is the low word; an IPv6 address is both
    words. *)
Definition flow4_incomplete (t : conn_tuple_t) (fl4 : flowi4) : Prop :=
  flow4_saddr t fl4 = 0 \/ flow4_daddr t fl4 = 0 \/
  flow4_sport t fl4 = 0 \/ flow4_dport t fl4 = 0.

Definition flow6_incomplete (t : conn_tuple_t) (fl6 : flowi6) : Prop :=
  flow6_saddr t fl6 = (0, 0) \/ flow6_daddr t fl6 = (0, 0) \/
  flow6_sport t fl6 = 0 \/ flow6_dport t fl6 = 0.

(** What the IPv4 partial resolution does to the fields of the tuple:
    the four fields it merges keep a nonzero value, the fields it does
    not know are left alone, and [pid] and [metadata] are always written
    from the arguments. *)
Definition flow4_merged (t : conn_tuple_t) (pid_tgid type : Z)
    (t' : conn_tuple_t) : Prop :=
  (saddr_l t <> 0 -> saddr_l t' = saddr_l t) /\
  (daddr_l t <> 0 -> daddr_l t' = daddr_l t) /\
  (sport t <> 0 -> sport t' = sport t) /\
  (dport t <> 0 -> dport t' = dport t) /\
  saddr_h t' = saddr_h t /\
  daddr_h t' = daddr_h t /\
  netns t' = netns t /\
  pid t' = u32 (Z.shiftr pid_tgid 32) /\
  metadata t' = type.

(** What the IPv6 partial resolution does: a nonzero port is kept, the
    namespace is left alone, [pid] is written from the argument,
    [metadata] is the type argument with at most a family bit added, and
    an address both words of which are nonzero is kept unless the tuple
    is collapsed to IPv4. *)
Definition flow6_merged (CONN_V4 CONN_V6 : Z)
    (is_ipv4_mapped_ipv6 : Z -> Z -> Z -> Z -> bool)
    (t : conn_tuple_t) (fl6 : flowi6) (pid_tgid type : Z) (t' : conn_tuple_t)
    : Prop :=
  (sport t <> 0 -> sport t' = sport t) /\
  (dport t <> 0 -> dport t' = dport t) /\
  netns t' = netns t /\
  pid t' = u32 (Z.shiftr pid_tgid 32) /\
  (metadata t' = type \/ metadata t' = Z.lor type CONN_V4 \/
   metadata t' = Z.lor type CONN_V6) /\
  (flow6_mapped is_ipv4_mapped_ipv6 t fl6 = false ->
   saddr_h t <> 0 -> saddr_l t <> 0 ->
   saddr_h t' = saddr_h t /\ saddr_l t' = saddr_l t) /\
  (flow6_mapped is_ipv4_mapped_ipv6 t fl6 = false ->
   daddr_h t <> 0 -> daddr_l t <> 0 ->
   daddr_h t' = daddr_h t /\ daddr_l t' = daddr_l t).

(** Tuples used as concrete inputs. *)
Definition tuple_with_pid : conn_tuple_t := set_pid 7 conn_tuple_zero.

Definition tuple_with_mapped_addrs : conn_tuple_t :=
  mk_conn_tuple (in6_h mapped_10_0_0_1) (in6_l mapped_10_0_0_1)
    (in6_h mapped_10_0_0_2) (in6_l mapped_10_0_0_2) 5000 53 0 100 0.

Definition flow4_example : flowi4 :=
  mk_flowi4 ipv4_10_0_0_1 ipv4_10_0_0_2 (be16 5000) (be16 53).

Definition flow6_global_example : flowi6 :=
  mk_flowi6 global_2001_db8_1 global_2001_db8_2 (be16 5000) (be16 53).

Definition flow6_mapped_example : flowi6 :=
  mk_flowi6 mapped_10_0_0_1 mapped_10_0_0_2 (be16 5000) (be16 53).

(** The same two hosts in the other direction. *)
Definition flow6_mapped_reverse_example : flowi6 :=
  mk_flowi6 mapped_10_0_0_2 mapped_10_0_0_1 (be16 53) (be16 5000).

(** A helper for the examples that accepts a pair of addresses as soon
    as one of them is IPv4-mapped. *)
Definition is_ipv4_mapped_ipv6_either (saddr_h saddr_l daddr_h daddr_l : Z)
    : bool :=
  ipv4_mapped saddr_h saddr_l || ipv4_mapped daddr_h daddr_l.

Definition pid_tgid_example : Z := Z.shiftl 100 32 + 7.

(** ** Statements about the entry points *)

(** The descriptor index is paired: a descriptor names a socket exactly
    when the socket names that descriptor. *)
Definition index_paired (st : tracer_state) : Prop :=
  forall (pid_fd : pid_fd_t) (sk : Z),
    sock_by_pid_fd st !! pid_fd = Some sk <->
    pid_fd_by_sock st !! sk = Some pid_fd.

(** A socket the descriptor index accepts: its operations table can be
    read, it is a stream socket, and its family is IPv4 or IPv6. *)
Definition indexable (s : socket) : Prop :=
  exists ops : proto_ops,
    socket_ops s = Some ops /\
    socket_type s = SOCK_STREAM /\
    (ops_family ops = AF_INET \/ ops_family ops = AF_INET6).

(** A bounded map has room for key [k]: the key is already there, or a
    slot is free. *)
Definition has_room `{Countable K} {V : Type}
    (max_entries : nat) (m : gmap K V) (k : K) : Prop :=
  is_Some (m !! k) \/ (size m < max_entries)%nat.

(** The port a bind-exit settles on: the port of the supplied address,
    read by family, or else the port [lport] read off the socket. *)
Definition bind_port (addr : sockaddr) (lport : Z) : Z :=
  let from_addr :=
    if sa_family addr =? AF_INET then bpf_ntohs (sockaddr_in_sin_port addr)
    else if sa_family addr =? AF_INET6
         then bpf_ntohs (sockaddr_in6_sin6_port addr)
         else 0 in
  if from_addr =? 0 then u16 lport else from_addr.

(** ** Collaborators used by the examples *)

(** A socket resolver that knows one socket, at address 1, and fails on
    every other, leaving only the pid and the type behind. *)
Definition example_read_conn_tuple
    (t : conn_tuple_t) (sk pid_tgid type : Z) : Z * conn_tuple_t :=
  if sk =? 1
  then (1, mk_conn_tuple 0 ipv4_10_0_0_1 0 ipv4_10_0_0_2 5000 80 7
            (u32 (Z.shiftr pid_tgid 32)) type)
  else (0, set_metadata type (set_pid (u32 (Z.shiftr pid_tgid 32)) conn_tuple_zero)).

Definition example_read_sport (sk : Z) : Z :=
  if sk =? 1 then 5000 else 0.

Definition example_get_tcp_segment_counts (sk : Z) : Z * Z := (3, 4).

Definition example_sockaddr_to_addr (a : sockaddr) (t : conn_tuple_t)
    : conn_tuple_t :=
  set_dport (bpf_ntohs (u16 (sa_port_word a)))
    (set_daddr_l (u64 (in6_l (sa_addr a)))
       (set_daddr_h (u64 (in6_h (sa_addr a))) t)).

Definition tcp_stream_socket (sk : Z) : socket :=
  mk_socket SOCK_STREAM (Some (mk_proto_ops AF_INET)) sk.

Definition udp_socket (sk : Z) : socket :=
  mk_socket SOCK_DGRAM (Some (mk_proto_ops AF_INET)) sk.

Definition sockaddr_in_any (port : Z) : sockaddr :=
  mk_sockaddr AF_INET (be16 port) (mk_in6_addr 0 0).

Definition staged_tuple : conn_tuple_t :=
  mk_conn_tuple 0 ipv4_10_0_0_1 0 ipv4_10_0_0_2 5000 53 0 100 0.

Definition state_with_staged_send : tracer_state :=
  set_udp_send_skb_args {[ pid_tgid_example := staged_tuple ]} initial_state.

(** ** The remaining entry points *)

(** [TCP_ESTABLISHED] of the kernel's tcp_states.h. *)
Definition TCP_ESTABLISHED : Z := 1.

Definition set_port_bindings (s : gset port_binding_t) (st : tracer_state)
    : tracer_state :=
  mk_state (udp_send_skb_args st) (tcp_ongoing_connect_pid st)
    (sock_by_pid_fd st) (pid_fd_by_sock st) s (udp_port_bindings st)
    (udp_send_missed st) (calls st).

(** Modelled from the spec: [remove_port_bind] of port.h is not part of
    this file. The spec's [unbind(set, binding)] is an idempotent
    remove. *)
Definition remove_port_bind (pb : port_binding_t) (s : gset port_binding_t)
    : gset port_binding_t :=
  s ∖ {[ pb ]}.

Section MoreEntryPoints.

(** The size of the TCP binding set is declared outside this file, like
    the sizes of the other maps. *)
Variable port_bindings_entries : nat.
Variables CONN_TYPE_UDP CONN_TYPE_TCP : Z.
Variable read_conn_tuple : conn_tuple_t -> Z -> Z -> Z -> Z * conn_tuple_t.
Variable read_sport : Z -> Z.
Variable get_netns_from_sock : Z -> Z.

(** [fentry/tcp_finish_connect]. The pid is the one [tcp_connect] stored
    for the socket, not the one of the context the callback runs in. *)
Definition tcp_finish_connect (sk : Z) (st : tracer_state) : tracer_state :=
  match tcp_ongoing_connect_pid st !! sk with
  | None => st
  | Some pid_tgid =>
      let st :=
        set_tcp_ongoing_connect_pid (delete sk (tcp_ongoing_connect_pid st))
          st in
      let st := emit (ReadConnTuple sk pid_tgid CONN_TYPE_TCP) st in
      let r := read_conn_tuple conn_tuple_zero sk pid_tgid CONN_TYPE_TCP in
      if fst r =? 0 then st
      else
        let t := snd r in
        let st := emit (HandleTcpStats t sk TCP_ESTABLISHED) st in
        emit (HandleMessage t 0 0 CONN_DIRECTION_OUTGOING 0 0
                PACKET_COUNT_NONE sk) st
  end.

(** [fexit/inet_csk_accept]; [sk] is the socket the call returned. *)
Definition inet_csk_accept_exit (pid_tgid sk : Z) (st : tracer_state)
    : tracer_state :=
  if sk =? 0 then st
  else
    let st := emit (ReadConnTuple sk pid_tgid CONN_TYPE_TCP) st in
    let r := read_conn_tuple conn_tuple_zero sk pid_tgid CONN_TYPE_TCP in
    if fst r =? 0 then st
    else
      let t := snd r in
      let st := emit (HandleTcpStats t sk TCP_ESTABLISHED) st in
      let st :=
        emit (HandleMessage t 0 0 CONN_DIRECTION_INCOMING 0 0
                PACKET_COUNT_NONE sk) st in
      let pb := mk_port_binding (netns t) (sport t) in
      set_port_bindings
        (add_port_bind port_bindings_entries pb (port_bindings st)) st.

(** [fentry/inet_csk_listen_stop]. *)
Definition inet_csk_listen_stop_enter (sk : Z) (st : tracer_state)
    : tracer_state :=
  let lport := u16 (read_sport sk) in
  if lport =? 0 then st
  else
    let pb := mk_port_binding (u32 (get_netns_from_sock sk)) lport in
    set_port_bindings (remove_port_bind pb (port_bindings st)) st.

(** [fentry/udp_destroy_sock]. *)
Definition udp_destroy_sock (pid_tgid sk : Z) (st : tracer_state)
    : tracer_state :=
  let st := emit (ReadConnTuple sk pid_tgid CONN_TYPE_UDP) st in
  let r := read_conn_tuple conn_tuple_zero sk pid_tgid CONN_TYPE_UDP in
  let valid_tuple := fst r in
  let tup := snd r in
  let lport := 0 in
  let branch :=
    if negb (valid_tuple =? 0)
    then (emit (CleanupConn tup sk) st, sport tup)
    else (st, u16 (read_sport sk)) in
  let st := fst branch in
  let lport := snd branch in
  if lport =? 0 then st
  else
    let pb := mk_port_binding 0 lport in
    set_udp_port_bindings (remove_port_bind pb (udp_port_bindings st)) st.

(** [fexit/do_sendfile]. *)
Definition do_sendfile_exit (pid_tgid out_fd sent : Z) (st : tracer_state)
    : tracer_state :=
  if sent <=? 0 then st
  else
    let key := mk_pid_fd (u32 (Z.shiftr pid_tgid 32)) out_fd in
    match sock_by_pid_fd st !! key with
    | None => st
    | Some sock =>
        let st := emit (ReadConnTuple sock pid_tgid CONN_TYPE_TCP) st in
        let r := read_conn_tuple conn_tuple_zero sock pid_tgid CONN_TYPE_TCP in
        if fst r =? 0 then st
        else
          emit (HandleMessage (snd r) sent 0 CONN_DIRECTION_UNKNOWN 0 0
                  PACKET_COUNT_NONE sock) st
    end.

End MoreEntryPoints.

(** ** Well-formed tuples *)

(** Every field of the tuple fits the C type it is declared with. *)
Definition tuple_in_range (t : conn_tuple_t) : Prop :=
  0 <= saddr_h t < 2 ^ 64 /\ 0 <= saddr_l t < 2 ^ 64 /\
  0 <= daddr_h t < 2 ^ 64 /\ 0 <= daddr_l t < 2 ^ 64 /\
  0 <= sport t < 2 ^ 16 /\ 0 <= dport t < 2 ^ 16 /\
  0 <= netns t < 2 ^ 32 /\ 0 <= pid t < 2 ^ 32 /\
  0 <= metadata t < 2 ^ 32.

(** The low word of [::ffff:a]: bytes 8..11 are [00 00 ff ff] and the
    IPv4 word [a] fills bytes 12..15. *)
Definition mapped_low_word (a : Z) : Z := 0xFFFF0000 + 2 ^ 32 * a.

(** ** Statements about the remaining entry points *)

(** The maps, the binding sets and the miss counter of two states agree;
    only the trace of outbound calls may differ. *)
Definition same_tables (st st' : tracer_state) : Prop :=
  udp_send_skb_args st' = udp_send_skb_args st /\
  tcp_ongoing_connect_pid st' = tcp_ongoing_connect_pid st /\
  sock_by_pid_fd st' = sock_by_pid_fd st /\
  pid_fd_by_sock st' = pid_fd_by_sock st /\
  port_bindings st' = port_bindings st /\
  udp_port_bindings st' = udp_port_bindings st /\
  udp_send_missed st' = udp_send_missed st.

(** The tuple the UDP staging hooks settle on: the socket's, or else the
    one completed from the flow descriptor, starting from what the socket
    resolver left behind. *)
Definition udp_send_resolution4
    (read_conn_tuple : conn_tuple_t -> Z -> Z -> Z -> Z * conn_tuple_t)
    (CONN_TYPE_UDP pid_tgid : Z) (skb : sk_buff) (fl4 : flowi4)
    (t0 : conn_tuple_t) : Z * conn_tuple_t :=
  let r := read_conn_tuple t0 (skb_sk skb) pid_tgid CONN_TYPE_UDP in
  if fst r =? 0
  then read_conn_tuple_partial_from_flowi4 (snd r) fl4 pid_tgid CONN_TYPE_UDP
  else r.

Definition udp_send_resolution6
    (read_conn_tuple : conn_tuple_t -> Z -> Z -> Z -> Z * conn_tuple_t)
    (CONN_TYPE_UDP CONN_V4 CONN_V6 : Z)
    (is_ipv4_mapped_ipv6 : Z -> Z -> Z -> Z -> bool)
    (pid_tgid : Z) (skb : sk_buff) (fl6 : flowi6) (t0 : conn_tuple_t)
    : Z * conn_tuple_t :=
  let r := read_conn_tuple t0 (skb_sk skb) pid_tgid CONN_TYPE_UDP in
  if fst r =? 0
  then read_conn_tuple_partial_from_flowi6 CONN_V4 CONN_V6 is_ipv4_mapped_ipv6
         (snd r) fl6 pid_tgid CONN_TYPE_UDP
  else r.

(** The port [udp_destroy_sock] releases: the source port of the tuple
    when the socket resolves, or else the port read off the socket. *)
Definition destroyed_port
    (read_conn_tuple : conn_tuple_t -> Z -> Z -> Z -> Z * conn_tuple_t)
    (read_sport : Z -> Z) (CONN_TYPE_UDP pid_tgid sk : Z) : Z :=
  let r := read_conn_tuple conn_tuple_zero sk pid_tgid CONN_TYPE_UDP in
  if fst r =? 0 then u16 (read_sport sk) else sport (snd r).

(** A pending-send table with every one of its 1024 slots taken, by
    threads 0 to 1023. *)
Definition full_send_table : gmap Z conn_tuple_t :=
  list_to_map
    (map (fun i : nat => (Z.of_nat i, staged_tuple)) (seq 0 1024)).

Definition state_with_full_send_table : tracer_state :=
  set_udp_send_skb_args full_send_table initial_state.

(** * Properties *)

(** ** Partial resolution, step by step *)

(** Reduces setters and projections applied to an explicit tuple, leaving
    every [let] in place. *)
Ltac tuple_norm :=
  cbv beta iota delta
    [set_saddr_h set_saddr_l set_daddr_h set_daddr_l set_sport set_dport
     set_pid set_metadata saddr_h saddr_l daddr_h daddr_l sport dport netns
     pid metadata fst snd in6_h in6_l fl6_saddr fl6_daddr fl6_sport fl6_dport
     fl4_saddr fl4_daddr fl4_sport fl4_dport negb orb andb].

Ltac split_cond c :=
  lazymatch c with
  | context [Z.eqb ?a ?b] => destruct (Z.eqb a b) eqn:?
  | _ => destruct c eqn:?
  end;
  tuple_norm.

(** Runs the left-hand side one statement at a time: a test is decided
    before the statement that depends on it is entered. *)
Ltac run_step :=
  lazymatch goal with
  | |- (let x := ?v in @?b x) = ?r =>
      lazymatch v with
      | context [if ?c then _ else _] => split_cond c
      | _ => change (b v = r); cbv beta; tuple_norm
      end
  | |- (if ?c then _ else _) = _ => split_cond c
  end.

(** The value of the IPv4 resolution in terms of what each field settles
    on: the ports are only looked at once both addresses are known. *)
Lemma flowi4_unfold (t : conn_tuple_t) (fl4 : flowi4) (pid_tgid type : Z) :
  read_conn_tuple_partial_from_flowi4 t fl4 pid_tgid type =
  let t1 :=
    mk_conn_tuple (saddr_h t) (flow4_saddr t fl4) (daddr_h t) (flow4_daddr t fl4)
      (sport t) (dport t) (netns t) (u32 (Z.shiftr pid_tgid 32)) type in
  if (flow4_saddr t fl4 =? 0) || (flow4_daddr t fl4 =? 0) then (0, t1)
  else
    let t2 := set_dport (flow4_dport t fl4) (set_sport (flow4_sport t fl4) t1) in
    if (flow4_sport t fl4 =? 0) || (flow4_dport t fl4 =? 0)
    then (0, t2) else (1, t2).
Proof.
  destruct t as [sh sl dh dl sp dp ns p md].
  cbv zeta.
  unfold flow4_saddr, flow4_daddr, flow4_sport, flow4_dport, or_else.
  cbv delta [read_conn_tuple_partial_from_flowi4]; cbv beta.
  tuple_norm.
  repeat run_step; reflexivity.
Qed.

Section Flowi6Facts.

Variables CONN_V4 CONN_V6 : Z.
Variable is_ipv4_mapped_ipv6 : Z -> Z -> Z -> Z -> bool.

(** The same for the IPv6 resolution: addresses first, then the
    collapse or the IPv6 mark, then the ports. *)
Lemma flowi6_unfold (t : conn_tuple_t) (fl6 : flowi6) (pid_tgid type : Z) :
  read_conn_tuple_partial_from_flowi6 CONN_V4 CONN_V6 is_ipv4_mapped_ipv6
    t fl6 pid_tgid type =
  let s := flow6_saddr t fl6 in
  let d := flow6_daddr t fl6 in
  let t1 :=
    mk_conn_tuple (fst s) (snd s) (fst d) (snd d) (sport t) (dport t)
      (netns t) (u32 (Z.shiftr pid_tgid 32)) type in
  if (fst s =? 0) && (snd s =? 0) then (0, t1)
  else if (fst d =? 0) && (snd d =? 0) then (0, t1)
  else
    let t2 :=
      if flow6_mapped is_ipv4_mapped_ipv6 t fl6
      then mk_conn_tuple 0 (u32 (Z.shiftr (snd s) 32)) 0
             (u32 (Z.shiftr (snd d) 32)) (sport t) (dport t) (netns t)
             (u32 (Z.shiftr pid_tgid 32)) (Z.lor type CONN_V4)
      else set_metadata (Z.lor type CONN_V6) t1 in
    let t3 := set_dport (flow6_dport t fl6) (set_sport (flow6_sport t fl6) t2) in
    if (flow6_sport t fl6 =? 0) || (flow6_dport t fl6 =? 0)
    then (0, t3) else (1, t3).
Proof.
  destruct t as [sh sl dh dl sp dp ns p md].
  cbv zeta.
  unfold flow6_mapped, flow6_saddr, flow6_daddr, flow6_sport, flow6_dport,
    addr6_or_else, addr6_unset, or_else, read_in6_addr.
  cbv delta [read_conn_tuple_partial_from_flowi6 read_in6_addr]; cbv beta.
  tuple_norm.
  repeat run_step; reflexivity.
Qed.

End Flowi6Facts.

(** ** Invalid tuples are rejected *)

Lemma eqb_zero_andb (a b : Z) : (a =? 0) && (b =? 0) = true <-> (a, b) = (0, 0).
Proof.
  rewrite andb_true_iff, !Z.eqb_eq. split.
  - intros [-> ->]. reflexivity.
  - intros H. injection H. auto.
Qed.

Lemma ret_of_test (b : bool) :
  ((if b then 0 else 1) = 0 <-> b = true) /\
  ((if b then 0 else 1) = 1 <-> b <> true).
Proof. destruct b; split; split; intros; congruence || lia. Qed.

Lemma flowi4_result (t : conn_tuple_t) (fl4 : flowi4) (pid_tgid type : Z) :
  fst (read_conn_tuple_partial_from_flowi4 t fl4 pid_tgid type) =
  if (flow4_saddr t fl4 =? 0) || (flow4_daddr t fl4 =? 0)
     || ((flow4_sport t fl4 =? 0) || (flow4_dport t fl4 =? 0))
  then 0 else 1.
Proof.
  rewrite flowi4_unfold. cbv zeta.
  destruct ((flow4_saddr t fl4 =? 0) || (flow4_daddr t fl4 =? 0)); [reflexivity|].
  destruct ((flow4_sport t fl4 =? 0) || (flow4_dport t fl4 =? 0)); reflexivity.
Qed.

Lemma flowi6_result (CONN_V4 CONN_V6 : Z)
    (is_ipv4_mapped_ipv6 : Z -> Z -> Z -> Z -> bool)
    (t : conn_tuple_t) (fl6 : flowi6) (pid_tgid type : Z) :
  fst (read_conn_tuple_partial_from_flowi6 CONN_V4 CONN_V6 is_ipv4_mapped_ipv6
         t fl6 pid_tgid type) =
  if ((fst (flow6_saddr t fl6) =? 0) && (snd (flow6_saddr t fl6) =? 0))
     || ((fst (flow6_daddr t fl6) =? 0) && (snd (flow6_daddr t fl6) =? 0))
     || ((flow6_sport t fl6 =? 0) || (flow6_dport t fl6 =? 0))
  then 0 else 1.
Proof.
  rewrite flowi6_unfold. cbv zeta.
  destruct ((fst (flow6_saddr t fl6) =? 0) && (snd (flow6_saddr t fl6) =? 0));
    [reflexivity|].
  destruct ((fst (flow6_daddr t fl6) =? 0) && (snd (flow6_daddr t fl6) =? 0));
    [reflexivity|].
  destruct ((flow6_sport t fl6 =? 0) || (flow6_dport t fl6 =? 0)); reflexivity.
Qed.

(** C3. Partial resolution from a flow descriptor returns 0 exactly when,
    once the fallback reads from the flow descriptor are applied, the
    source address, the destination address, the source port or the
    destination port of the tuple is still zero, and returns 1 in every
    other case. This holds for the IPv4 and for the IPv6 flow
    descriptor. *)
Theorem partial_flow_rejects_incomplete_tuple
    (CONN_V4 CONN_V6 : Z) (is_ipv4_mapped_ipv6 : Z -> Z -> Z -> Z -> bool)
    (t : conn_tuple_t) (fl4 : flowi4) (fl6 : flowi6) (pid_tgid type : Z) :
  let r4 := fst (read_conn_tuple_partial_from_flowi4 t fl4 pid_tgid type) in
  let r6 :=
    fst (read_conn_tuple_partial_from_flowi6 CONN_V4 CONN_V6
           is_ipv4_mapped_ipv6 t fl6 pid_tgid type) in
  (r4 = 0 <-> flow4_incomplete t fl4) /\
  (r4 = 1 <-> ~ flow4_incomplete t fl4) /\
  (r6 = 0 <-> flow6_incomplete t fl6) /\
  (r6 = 1 <-> ~ flow6_incomplete t fl6).
Proof.
  cbv zeta. rewrite flowi4_result, flowi6_result.
  assert (H4 : flow4_incomplete t fl4 <->
               (flow4_saddr t fl4 =? 0) || (flow4_daddr t fl4 =? 0)
               || ((flow4_sport t fl4 =? 0) || (flow4_dport t fl4 =? 0)) = true).
  { unfold flow4_incomplete. rewrite !orb_true_iff, !Z.eqb_eq. tauto. }
  assert (H6 : flow6_incomplete t fl6 <->
               ((fst (flow6_saddr t fl6) =? 0) && (snd (flow6_saddr t fl6) =? 0))
               || ((fst (flow6_daddr t fl6) =? 0)
                   && (snd (flow6_daddr t fl6) =? 0))
               || ((flow6_sport t fl6 =? 0) || (flow6_dport t fl6 =? 0)) = true).
  { unfold flow6_incomplete.
    rewrite !orb_true_iff, !eqb_zero_andb, !Z.eqb_eq, <- !surjective_pairing.
    tauto. }
  rewrite H4, H6.
  split; [|split; [|split]]; apply ret_of_test.
Qed.

(** The unset tuple resolves against a complete IPv4 flow, and does not
    against a flow that has no source port. *)
Lemma partial_flow_rejects_incomplete_tuple_witness :
  fst (read_conn_tuple_partial_from_flowi4 conn_tuple_zero flow4_example
         pid_tgid_example example_CONN_TYPE_UDP) = 1 /\
  fst (read_conn_tuple_partial_from_flowi4 conn_tuple_zero
         (mk_flowi4 ipv4_10_0_0_1 ipv4_10_0_0_2 0 (be16 53))
         pid_tgid_example example_CONN_TYPE_UDP) = 0.
Proof.
  split.
  - apply (partial_flow_rejects_incomplete_tuple example_CONN_V4 example_CONN_V6
             is_ipv4_mapped_ipv6_spec conn_tuple_zero flow4_example
             flow6_mapped_example pid_tgid_example example_CONN_TYPE_UDP).
    intros [H | [H | [H | H]]]; vm_compute in H; discriminate.
  - apply (partial_flow_rejects_incomplete_tuple example_CONN_V4 example_CONN_V6
             is_ipv4_mapped_ipv6_spec conn_tuple_zero
             (mk_flowi4 ipv4_10_0_0_1 ipv4_10_0_0_2 0 (be16 53))
             flow6_mapped_example pid_tgid_example example_CONN_TYPE_UDP).
    right. right. left. reflexivity.
Defined.

(** ** IPv4-mapped addresses collapse to IPv4 *)

(** Bits of a little-endian word: the first byte supplies bits 0..7, the
    remaining bytes the bits above. *)
Lemma le_word_testbit_cons (b : Z) (bs : list Z) (n : Z) :
  0 <= n ->
  Z.testbit (le_word (b :: bs)) n =
  if n <? 8 then Z.testbit b n else Z.testbit (le_word bs) (n - 8).
Proof.
  intros Hn. cbn [le_word]. rewrite Z.lor_spec, Z.land_spec.
  change 255 with (Z.ones 8).
  rewrite Z.testbit_ones_nonneg, Z.shiftl_spec by lia.
  destruct (Z.ltb_spec n 8).
  - rewrite andb_true_r, (Z.testbit_neg_r _ (n - 8)) by lia.
    apply orb_false_r.
  - rewrite andb_false_r. reflexivity.
Qed.

Lemma le_word_high (bs : list Z) (n : Z) :
  8 * Z.of_nat (length bs) <= n -> Z.testbit (le_word bs) n = false.
Proof.
  revert n. induction bs as [|b bs IH]; intros n Hn.
  - apply Z.testbit_0_l.
  - cbn [length] in Hn. rewrite le_word_testbit_cons by lia.
    destruct (Z.ltb_spec n 8); [lia|]. apply IH. lia.
Qed.

Lemma le_word_skip (pre bs : list Z) (n : Z) :
  0 <= n ->
  Z.testbit (le_word (pre ++ bs)) (n + 8 * Z.of_nat (length pre)) =
  Z.testbit (le_word bs) n.
Proof.
  intros Hn. induction pre as [|b pre IH].
  - cbn [app length]. f_equal. lia.
  - cbn [app length]. rewrite le_word_testbit_cons by lia.
    destruct (Z.ltb_spec (n + 8 * Z.of_nat (S (length pre))) 8); [lia|].
    rewrite <- IH. f_equal. lia.
Qed.

(** The low 32 bits of an address written byte by byte are its last four
    bytes, in the byte order an IPv4 address is kept in. *)
Lemma in6_low32_bytes (b0 b1 b2 b3 b4 b5 b6 b7 b8 b9 b10 b11 b12 b13 b14 b15 : Z) :
  in6_low32
    (in6_l (in6_of_bytes
              (b0 :: b1 :: b2 :: b3 :: b4 :: b5 :: b6 :: b7 :: b8 :: b9 ::
               b10 :: b11 :: b12 :: b13 :: b14 :: b15 :: nil))) =
  le_word (b12 :: b13 :: b14 :: b15 :: nil).
Proof.
  unfold in6_low32, in6_of_bytes, u32. cbn [in6_l firstn skipn].
  rewrite <- Z.land_ones by lia.
  apply Z.bits_inj'. intros n Hn.
  rewrite Z.land_spec, Z.shiftr_spec, Z.testbit_ones_nonneg by lia.
  change (b8 :: b9 :: b10 :: b11 :: b12 :: b13 :: b14 :: b15 :: nil)
    with ((b8 :: b9 :: b10 :: b11 :: nil) ++ b12 :: b13 :: b14 :: b15 :: nil).
  change 32 with (8 * Z.of_nat (length (b8 :: b9 :: b10 :: b11 :: nil))) at 1.
  rewrite le_word_skip by lia.
  destruct (Z.ltb_spec n 32).
  - apply andb_true_r.
  - rewrite andb_false_r. symmetry. apply le_word_high. cbn [length]. lia.
Qed.

(** An address that is IPv4-mapped once the flow descriptor has been
    consulted is the address of the flow: an address of the tuple with a
    zero word is read again, and an IPv4-mapped address has a zero high
    word. *)
Lemma addr6_or_else_mapped (addr_h addr_l : Z) (fallback : Z * Z) :
  ipv4_mapped (fst (addr6_or_else addr_h addr_l fallback))
    (snd (addr6_or_else addr_h addr_l fallback)) = true ->
  addr6_or_else addr_h addr_l fallback = fallback.
Proof.
  unfold addr6_or_else, addr6_unset, ipv4_mapped.
  destruct (Z.eqb_spec addr_l 0); cbn [orb]; [reflexivity|].
  destruct (Z.eqb_spec addr_h 0) as [Hz | Hnz]; [reflexivity|].
  cbn [fst snd]. apply Z.eqb_neq in Hnz. rewrite Hnz. discriminate.
Qed.

(** C2, as stated, fails. A tuple that itself carries [::ffff:10.0.0.1]
    and [::ffff:10.0.0.2] has a zero high word in both addresses, so the
    resolution reads both again from the flow. Against a flow between
    two global addresses it succeeds and leaves an IPv6 tuple with the
    addresses of the flow, whichever form the helper has. Against a flow
    between the same two hosts in the other direction it collapses to
    IPv4, with the addresses of the flow and not the low 32 bits of the
    addresses the tuple had. *)
Lemma flowi6_mapped_tuple_is_resolved_again :
  let t := tuple_with_mapped_addrs in
  let resolve helper fl6 :=
    read_conn_tuple_partial_from_flowi6 example_CONN_V4 example_CONN_V6
      helper t fl6 pid_tgid_example example_CONN_TYPE_UDP in
  let r := resolve is_ipv4_mapped_ipv6_spec flow6_global_example in
  let r' := resolve is_ipv4_mapped_ipv6_spec flow6_mapped_reverse_example in
  (ipv4_mapped (saddr_h t) (saddr_l t) = true /\
   ipv4_mapped (daddr_h t) (daddr_l t) = true) /\
  (fst r = 1 /\
   metadata (snd r) = Z.lor example_CONN_TYPE_UDP example_CONN_V6 /\
   metadata (snd r) <> Z.lor example_CONN_TYPE_UDP example_CONN_V4 /\
   saddr_h (snd r) <> 0 /\
   daddr_h (snd r) <> 0 /\
   saddr_l (snd r) <> in6_low32 (saddr_l t) /\
   daddr_l (snd r) <> in6_low32 (daddr_l t)) /\
  resolve is_ipv4_mapped_ipv6_either flow6_global_example = r /\
  (fst r' = 1 /\
   in6_low32 (saddr_l t) = ipv4_10_0_0_1 /\
   saddr_l (snd r') = ipv4_10_0_0_2 /\
   saddr_l (snd r') <> in6_low32 (saddr_l t)).
Proof. vm_compute. repeat split; discriminate. Qed.

(** C2, amended. When the source and the destination address of the
    tuple, as they stand once the flow descriptor has been consulted, are
    both IPv4-mapped IPv6 addresses and the IPv6 partial resolution
    succeeds, the resulting tuple carries the IPv4 family mark
    ([CONN_V4] or-ed into the metadata), has both high address words
    zero, and has in each low address word the low 32 bits of that
    address. Both addresses are then the flow descriptor's: whatever the
    tuple carried with a zero word, an IPv4-mapped address included, has
    been read again. The helper that tests for IPv4-mapped addresses is
    only assumed to accept a pair of IPv4-mapped addresses. *)
Theorem flowi6_collapses_ipv4_mapped
    (CONN_V4 CONN_V6 : Z) (is_ipv4_mapped_ipv6 : Z -> Z -> Z -> Z -> bool)
    (Hhelper : forall sh sl dh dl,
        ipv4_mapped sh sl = true -> ipv4_mapped dh dl = true ->
        is_ipv4_mapped_ipv6 sh sl dh dl = true)
    (t : conn_tuple_t) (fl6 : flowi6) (pid_tgid type : Z)
    (Hsrc : ipv4_mapped (fst (flow6_saddr t fl6)) (snd (flow6_saddr t fl6)) = true)
    (Hdst : ipv4_mapped (fst (flow6_daddr t fl6)) (snd (flow6_daddr t fl6)) = true)
    (Hok : fst (read_conn_tuple_partial_from_flowi6 CONN_V4 CONN_V6
                  is_ipv4_mapped_ipv6 t fl6 pid_tgid type) = 1) :
  let t' :=
    snd (read_conn_tuple_partial_from_flowi6 CONN_V4 CONN_V6
           is_ipv4_mapped_ipv6 t fl6 pid_tgid type) in
  metadata t' = Z.lor type CONN_V4 /\
  saddr_h t' = 0 /\
  daddr_h t' = 0 /\
  saddr_l t' = in6_low32 (snd (flow6_saddr t fl6)) /\
  daddr_l t' = in6_low32 (snd (flow6_daddr t fl6)) /\
  flow6_saddr t fl6 = read_in6_addr (fl6_saddr fl6) /\
  flow6_daddr t fl6 = read_in6_addr (fl6_daddr fl6).
Proof.
  cbv zeta. revert Hok. rewrite flowi6_unfold. cbv zeta.
  unfold flow6_mapped. rewrite (Hhelper _ _ _ _ Hsrc Hdst).
  destruct ((fst (flow6_saddr t fl6) =? 0) && (snd (flow6_saddr t fl6) =? 0));
    [cbn [fst]; discriminate|].
  destruct ((fst (flow6_daddr t fl6) =? 0) && (snd (flow6_daddr t fl6) =? 0));
    [cbn [fst]; discriminate|].
  destruct ((flow6_sport t fl6 =? 0) || (flow6_dport t fl6 =? 0));
    cbn [fst snd]; [discriminate|].
  intros _. unfold in6_low32.
  repeat split; apply addr6_or_else_mapped; assumption.
Qed.

(** The scenario of the specification: an unset tuple resolved against a
    flow from [::ffff:10.0.0.1] to [::ffff:10.0.0.2]. *)
Lemma flowi6_collapses_ipv4_mapped_witness :
  let fl6 := mk_flowi6 mapped_10_0_0_1 mapped_10_0_0_2 (be16 5000) (be16 53) in
  let t' :=
    snd (read_conn_tuple_partial_from_flowi6 example_CONN_V4 example_CONN_V6
           is_ipv4_mapped_ipv6_spec conn_tuple_zero fl6
           (Z.shiftl 100 32 + 7) example_CONN_TYPE_UDP) in
  metadata t' = Z.lor example_CONN_TYPE_UDP example_CONN_V4 /\
  saddr_h t' = 0 /\
  daddr_h t' = 0 /\
  saddr_l t' = ipv4_10_0_0_1 /\
  daddr_l t' = ipv4_10_0_0_2 /\
  flow6_saddr conn_tuple_zero fl6 = read_in6_addr mapped_10_0_0_1 /\
  flow6_daddr conn_tuple_zero fl6 = read_in6_addr mapped_10_0_0_2.
Proof.
  apply (flowi6_collapses_ipv4_mapped example_CONN_V4 example_CONN_V6
           is_ipv4_mapped_ipv6_spec
           (fun sh sl dh dl Hs Hd =>
              eq_ind_r (fun b => b && ipv4_mapped dh dl = true)
                (eq_ind_r (fun b => true && b = true) eq_refl Hd) Hs)
           conn_tuple_zero
           (mk_flowi6 mapped_10_0_0_1 mapped_10_0_0_2 (be16 5000) (be16 53))
           (Z.shiftl 100 32 + 7) example_CONN_TYPE_UDP);
    vm_compute; reflexivity.
Defined.

(** ** Merging never loses what the merge rule protects *)

Lemma or_else_idem (v fallback : Z) :
  or_else (or_else v fallback) fallback = or_else v fallback.
Proof.
  unfold or_else. destruct (v =? 0) eqn:Hv.
  - destruct (fallback =? 0); reflexivity.
  - rewrite Hv. reflexivity.
Qed.

Lemma or_else_keep (v fallback : Z) : v <> 0 -> or_else v fallback = v.
Proof.
  intros Hv. unfold or_else. destruct (Z.eqb_spec v 0); [contradiction|reflexivity].
Qed.

Lemma addr6_or_else_idem (addr_h addr_l : Z) (fallback : Z * Z) :
  addr6_or_else (fst (addr6_or_else addr_h addr_l fallback))
    (snd (addr6_or_else addr_h addr_l fallback)) fallback =
  addr6_or_else addr_h addr_l fallback.
Proof.
  unfold addr6_or_else. destruct (addr6_unset addr_h addr_l) eqn:Hu.
  - destruct (addr6_unset (fst fallback) (snd fallback));
      [reflexivity | symmetry; apply surjective_pairing].
  - cbn [fst snd]. rewrite Hu. reflexivity.
Qed.

Lemma addr6_or_else_keep (addr_h addr_l : Z) (fallback : Z * Z) :
  addr_h <> 0 -> addr_l <> 0 ->
  addr6_or_else addr_h addr_l fallback = (addr_h, addr_l).
Proof.
  intros Hh Hl. unfold addr6_or_else, addr6_unset.
  destruct (Z.eqb_spec addr_l 0), (Z.eqb_spec addr_h 0); try contradiction.
  reflexivity.
Qed.

Lemma addr6_or_else_fill (addr_h addr_l : Z) (fallback : Z * Z) :
  addr6_unset addr_h addr_l = true ->
  addr6_or_else addr_h addr_l fallback = fallback.
Proof. intros Hu. unfold addr6_or_else. rewrite Hu. reflexivity. Qed.

Lemma addr6_or_else_unset (addr_l : Z) (fallback : Z * Z) :
  addr6_or_else 0 addr_l fallback = fallback.
Proof.
  unfold addr6_or_else, addr6_unset. rewrite orb_true_r. reflexivity.
Qed.

Ltac fields :=
  cbn [saddr_h saddr_l daddr_h daddr_l sport dport netns pid metadata
       set_sport set_dport set_metadata fst snd].

Lemma flowi4_merged (t : conn_tuple_t) (fl4 : flowi4) (pid_tgid type : Z) :
  flow4_merged t pid_tgid type
    (snd (read_conn_tuple_partial_from_flowi4 t fl4 pid_tgid type)).
Proof.
  rewrite flowi4_unfold. cbv zeta. unfold flow4_merged.
  destruct ((flow4_saddr t fl4 =? 0) || (flow4_daddr t fl4 =? 0));
    [|destruct ((flow4_sport t fl4 =? 0) || (flow4_dport t fl4 =? 0))];
    fields; unfold flow4_saddr, flow4_daddr, flow4_sport, flow4_dport;
    repeat split; try reflexivity; intros; try apply or_else_keep; assumption.
Qed.

Lemma flowi4_idempotent (t : conn_tuple_t) (fl4 : flowi4) (pid_tgid type : Z) :
  read_conn_tuple_partial_from_flowi4
    (snd (read_conn_tuple_partial_from_flowi4 t fl4 pid_tgid type))
    fl4 pid_tgid type =
  read_conn_tuple_partial_from_flowi4 t fl4 pid_tgid type.
Proof.
  rewrite (flowi4_unfold t). cbv zeta.
  destruct ((flow4_saddr t fl4 =? 0) || (flow4_daddr t fl4 =? 0)) eqn:Haddr;
    [|destruct ((flow4_sport t fl4 =? 0) || (flow4_dport t fl4 =? 0)) eqn:Hport];
    fields; rewrite flowi4_unfold; cbv zeta;
    unfold flow4_saddr, flow4_daddr, flow4_sport, flow4_dport in *; fields;
    rewrite ?or_else_idem, ?Haddr, ?Hport; reflexivity.
Qed.

Section Flowi6Merge.

Variables CONN_V4 CONN_V6 : Z.
Variable is_ipv4_mapped_ipv6 : Z -> Z -> Z -> Z -> bool.

Lemma flowi6_merged (t : conn_tuple_t) (fl6 : flowi6) (pid_tgid type : Z) :
  flow6_merged CONN_V4 CONN_V6 is_ipv4_mapped_ipv6 t fl6 pid_tgid type
    (snd (read_conn_tuple_partial_from_flowi6 CONN_V4 CONN_V6
            is_ipv4_mapped_ipv6 t fl6 pid_tgid type)).
Proof.
  rewrite flowi6_unfold. cbv zeta. unfold flow6_merged.
  destruct ((fst (flow6_saddr t fl6) =? 0) && (snd (flow6_saddr t fl6) =? 0));
    [|destruct ((fst (flow6_daddr t fl6) =? 0)
                && (snd (flow6_daddr t fl6) =? 0));
      [|destruct (flow6_mapped is_ipv4_mapped_ipv6 t fl6);
        destruct ((flow6_sport t fl6 =? 0) || (flow6_dport t fl6 =? 0))]];
    fields; unfold flow6_saddr, flow6_daddr, flow6_sport, flow6_dport;
    repeat split; try reflexivity; try discriminate; auto; intros;
    try (apply or_else_keep; assumption);
    rewrite addr6_or_else_keep by assumption; reflexivity.
Qed.

(** A second resolution against the same flow repeats the first when
    the first did not collapse the tuple, or when both addresses came
    from the flow. *)
Lemma flowi6_idempotent (t : conn_tuple_t) (fl6 : flowi6) (pid_tgid type : Z) :
  flow6_mapped is_ipv4_mapped_ipv6 t fl6 = false \/
  (addr6_unset (saddr_h t) (saddr_l t) = true /\
   addr6_unset (daddr_h t) (daddr_l t) = true) ->
  read_conn_tuple_partial_from_flowi6 CONN_V4 CONN_V6 is_ipv4_mapped_ipv6
    (snd (read_conn_tuple_partial_from_flowi6 CONN_V4 CONN_V6
            is_ipv4_mapped_ipv6 t fl6 pid_tgid type)) fl6 pid_tgid type =
  read_conn_tuple_partial_from_flowi6 CONN_V4 CONN_V6 is_ipv4_mapped_ipv6
    t fl6 pid_tgid type.
Proof.
  intros Hcase.
  assert (Hflow : flow6_mapped is_ipv4_mapped_ipv6 t fl6 = true ->
                  flow6_saddr t fl6 = read_in6_addr (fl6_saddr fl6) /\
                  flow6_daddr t fl6 = read_in6_addr (fl6_daddr fl6)).
  { intros Hm. destruct Hcase as [Hno | [Hs Hd]]; [congruence|].
    split; apply addr6_or_else_fill; assumption. }
  clear Hcase. rewrite (flowi6_unfold _ _ _ t). cbv zeta.
  destruct ((fst (flow6_saddr t fl6) =? 0) && (snd (flow6_saddr t fl6) =? 0))
    eqn:Hsrc;
    [|destruct ((fst (flow6_daddr t fl6) =? 0)
                && (snd (flow6_daddr t fl6) =? 0)) eqn:Hdst;
      [|destruct (flow6_mapped is_ipv4_mapped_ipv6 t fl6) eqn:Hmap;
        [destruct (Hflow eq_refl) as [Es Ed];
         unfold flow6_mapped in Hmap;
         rewrite Es in Hsrc, Hmap |- *; rewrite Ed in Hdst, Hmap |- *
        |];
        destruct ((flow6_sport t fl6 =? 0) || (flow6_dport t fl6 =? 0))
          eqn:Hport]];
    fields; rewrite flowi6_unfold; cbv zeta;
    unfold flow6_mapped, flow6_saddr, flow6_daddr, flow6_sport, flow6_dport
      in *; fields;
    rewrite ?addr6_or_else_unset, ?addr6_or_else_idem, ?or_else_idem, ?Hsrc,
      ?Hdst, ?Hmap, ?Hport; reflexivity.
Qed.

End Flowi6Merge.

(** C1, as stated, fails. The IPv4 resolution overwrites a [pid] that is
    already set, and the IPv6 resolution replaces an address whose high
    word is zero (here [::ffff:10.0.0.1]) by the address of the flow, so
    a nonzero [saddr_l] changes. *)
Lemma partial_flow_overwrites_set_fields :
  ~ keeps_set_fields tuple_with_pid
      (snd (read_conn_tuple_partial_from_flowi4 tuple_with_pid flow4_example
              pid_tgid_example example_CONN_TYPE_UDP)) /\
  ~ keeps_set_fields tuple_with_mapped_addrs
      (snd (read_conn_tuple_partial_from_flowi6 example_CONN_V4 example_CONN_V6
              is_ipv4_mapped_ipv6_spec tuple_with_mapped_addrs
              flow6_global_example pid_tgid_example example_CONN_TYPE_UDP)).
Proof.
  split.
  - intros (_ & _ & _ & _ & _ & _ & _ & Hpid & _).
    vm_compute in Hpid. specialize (Hpid ltac:(discriminate)). discriminate.
  - intros (_ & Hsaddr & _).
    vm_compute in Hsaddr. specialize (Hsaddr ltac:(discriminate)). discriminate.
Qed.

(** C1, amended. Partial resolution from a flow descriptor always writes
    [pid] and [metadata] from its arguments (the IPv6 resolution adds at
    most a family bit to the type) and never touches the namespace. The IPv4 resolution keeps a nonzero [saddr_l], [daddr_l],
    [sport] and [dport] and leaves the high address words alone; the IPv6
    resolution keeps a nonzero [sport] and [dport], and keeps an address
    both words of which are nonzero when the tuple is not collapsed to
    IPv4. Resolving the result of the IPv4 resolution again, with the same
    arguments, returns the same result; so does the IPv6 resolution when
    the first pass did not collapse the tuple or took both addresses from
    the flow. *)
Theorem partial_flow_merge_is_additive
    (CONN_V4 CONN_V6 : Z) (is_ipv4_mapped_ipv6 : Z -> Z -> Z -> Z -> bool)
    (t : conn_tuple_t) (fl4 : flowi4) (fl6 : flowi6) (pid_tgid type : Z) :
  let r4 := read_conn_tuple_partial_from_flowi4 t fl4 pid_tgid type in
  let r6 :=
    read_conn_tuple_partial_from_flowi6 CONN_V4 CONN_V6 is_ipv4_mapped_ipv6
      t fl6 pid_tgid type in
  flow4_merged t pid_tgid type (snd r4) /\
  read_conn_tuple_partial_from_flowi4 (snd r4) fl4 pid_tgid type = r4 /\
  flow6_merged CONN_V4 CONN_V6 is_ipv4_mapped_ipv6 t fl6 pid_tgid type
    (snd r6) /\
  (flow6_mapped is_ipv4_mapped_ipv6 t fl6 = false \/
   (addr6_unset (saddr_h t) (saddr_l t) = true /\
    addr6_unset (daddr_h t) (daddr_l t) = true) ->
   read_conn_tuple_partial_from_flowi6 CONN_V4 CONN_V6 is_ipv4_mapped_ipv6
     (snd r6) fl6 pid_tgid type = r6).
Proof.
  cbv zeta. split; [apply flowi4_merged|].
  split; [apply flowi4_idempotent|].
  split; [apply flowi6_merged|].
  apply flowi6_idempotent.
Qed.

(** A tuple that only knows its source port keeps it through the IPv4
    resolution, and the IPv6 resolution of an unset tuple against a flow
    between IPv4-mapped addresses is stable. *)
Lemma partial_flow_merge_is_additive_witness :
  sport (snd (read_conn_tuple_partial_from_flowi4
                (set_sport 4242 conn_tuple_zero) flow4_example
                pid_tgid_example example_CONN_TYPE_UDP)) = 4242 /\
  read_conn_tuple_partial_from_flowi6 example_CONN_V4 example_CONN_V6
    is_ipv4_mapped_ipv6_spec
    (snd (read_conn_tuple_partial_from_flowi6 example_CONN_V4 example_CONN_V6
            is_ipv4_mapped_ipv6_spec (set_sport 4242 conn_tuple_zero)
            flow6_mapped_example pid_tgid_example example_CONN_TYPE_UDP))
    flow6_mapped_example pid_tgid_example example_CONN_TYPE_UDP =
  read_conn_tuple_partial_from_flowi6 example_CONN_V4 example_CONN_V6
    is_ipv4_mapped_ipv6_spec (set_sport 4242 conn_tuple_zero)
    flow6_mapped_example pid_tgid_example example_CONN_TYPE_UDP.
Proof.
  destruct (partial_flow_merge_is_additive example_CONN_V4 example_CONN_V6
              is_ipv4_mapped_ipv6_spec (set_sport 4242 conn_tuple_zero)
              flow4_example flow6_mapped_example pid_tgid_example
              example_CONN_TYPE_UDP) as (H4 & _ & _ & H6).
  split.
  - destruct H4 as (_ & _ & Hsport & _). apply Hsport. discriminate.
  - apply H6. right. split; reflexivity.
Defined.

(** ** Bounded maps *)

Lemma bpf_map_update_room `{Countable K} {V : Type}
    (max_entries : nat) (m : gmap K V) (k : K) (v : V) :
  has_room max_entries m k ->
  bpf_map_update_elem max_entries m k v = <[k := v]> m.
Proof.
  intros [[w Hw] | Hsize]; unfold bpf_map_update_elem.
  - rewrite Hw. reflexivity.
  - destruct (m !! k); [reflexivity|].
    destruct (Nat.ltb_spec (size m) max_entries); [reflexivity | lia].
Qed.

(** ** UDP send: staging and completion *)

Section UdpSend.

Variables CONN_TYPE_UDP CONN_V4 CONN_V6 : Z.
Variable is_ipv4_mapped_ipv6 : Z -> Z -> Z -> Z -> bool.
Variable read_conn_tuple : conn_tuple_t -> Z -> Z -> Z -> Z * conn_tuple_t.

Lemma handle_udp_send_miss (pid_tgid sk sent : Z) (st : tracer_state) :
  udp_send_skb_args st !! pid_tgid = None ->
  handle_udp_send pid_tgid sk sent st = st.
Proof. intros Hmiss. unfold handle_udp_send. rewrite Hmiss. reflexivity. Qed.

Lemma handle_udp_send_hit (pid_tgid sk sent : Z) (st : tracer_state)
    (t : conn_tuple_t) :
  udp_send_skb_args st !! pid_tgid = Some t -> 0 < sent ->
  handle_udp_send pid_tgid sk sent st =
  set_udp_send_skb_args (delete pid_tgid (udp_send_skb_args st))
    (emit (HandleMessage t sent 0 CONN_DIRECTION_UNKNOWN 1 0
             PACKET_COUNT_NONE sk) st).
Proof.
  intros Hhit Hsent. unfold handle_udp_send. rewrite Hhit.
  destruct (Z.ltb_spec 0 sent); [reflexivity | lia].
Qed.

Lemma udp_send_skb_miss (pid_tgid : Z) (skb : sk_buff) (fl4 : flowi4)
    (t0 : conn_tuple_t) (st : tracer_state) :
  let r := read_conn_tuple t0 (skb_sk skb) pid_tgid CONN_TYPE_UDP in
  fst r = 0 ->
  fst (read_conn_tuple_partial_from_flowi4 (snd r) fl4 pid_tgid
         CONN_TYPE_UDP) = 0 ->
  kprobe__udp_send_skb CONN_TYPE_UDP read_conn_tuple pid_tgid skb fl4 t0 st =
  increment_udp_send_missed
    (emit (ReadConnTuple (skb_sk skb) pid_tgid CONN_TYPE_UDP) st).
Proof.
  cbv zeta. intros Hsock Hflow. unfold kprobe__udp_send_skb.
  rewrite Hsock. cbn [Z.eqb]. rewrite Hflow. reflexivity.
Qed.

Lemma udp_v6_send_skb_miss (pid_tgid : Z) (skb : sk_buff) (fl6 : flowi6)
    (t0 : conn_tuple_t) (st : tracer_state) :
  let r := read_conn_tuple t0 (skb_sk skb) pid_tgid CONN_TYPE_UDP in
  fst r = 0 ->
  fst (read_conn_tuple_partial_from_flowi6 CONN_V4 CONN_V6
         is_ipv4_mapped_ipv6 (snd r) fl6 pid_tgid CONN_TYPE_UDP) = 0 ->
  kprobe__udp_v6_send_skb CONN_TYPE_UDP CONN_V4 CONN_V6 is_ipv4_mapped_ipv6
    read_conn_tuple pid_tgid skb fl6 t0 st =
  increment_udp_send_missed
    (emit (ReadConnTuple (skb_sk skb) pid_tgid CONN_TYPE_UDP) st).
Proof.
  cbv zeta. intros Hsock Hflow. unfold kprobe__udp_v6_send_skb.
  rewrite Hsock. cbn [Z.eqb]. rewrite Hflow. reflexivity.
Qed.

End UdpSend.

(** C4, as stated, fails: a send-completed event that finds nothing
    staged for its thread leaves the miss counter where it was. *)
Lemma udp_send_exit_miss_counts_nothing :
  udp_send_skb_args initial_state !! pid_tgid_example = None /\
  udp_send_missed (udp_sendmsg_exit pid_tgid_example 1 100 initial_state)
    <> udp_send_missed initial_state + 1 /\
  udp_send_missed (udpv6_sendmsg_exit pid_tgid_example 1 100 initial_state)
    <> udp_send_missed initial_state + 1.
Proof. repeat split; vm_compute; discriminate. Qed.

(** C4, amended. A UDP send-completed event ([udp_sendmsg_exit],
    [udpv6_sendmsg_exit]) whose thread has no staged entry forwards no
    observation and changes nothing, the miss counter included. With a
    staged entry and a returned byte count above zero it forwards one
    send observation carrying the staged tuple and removes the entry. The
    miss counter [udp_send_missed] is bumped on the staging side, by
    [kprobe__udp_send_skb] and [kprobe__udp_v6_send_skb], when neither
    the socket nor the flow descriptor yields a tuple; nothing is staged
    then. *)
Theorem udp_send_exit_consumes_staged_tuple
    (CONN_TYPE_UDP CONN_V4 CONN_V6 : Z)
    (is_ipv4_mapped_ipv6 : Z -> Z -> Z -> Z -> bool)
    (read_conn_tuple : conn_tuple_t -> Z -> Z -> Z -> Z * conn_tuple_t)
    (st : tracer_state) (pid_tgid sk sent : Z) :
  (udp_send_skb_args st !! pid_tgid = None ->
   udp_sendmsg_exit pid_tgid sk sent st = st /\
   udpv6_sendmsg_exit pid_tgid sk sent st = st) /\
  (forall t : conn_tuple_t,
      udp_send_skb_args st !! pid_tgid = Some t -> 0 < sent ->
      let st' := udp_sendmsg_exit pid_tgid sk sent st in
      udpv6_sendmsg_exit pid_tgid sk sent st = st' /\
      calls st' =
        calls st ++
        HandleMessage t sent 0 CONN_DIRECTION_UNKNOWN 1 0 PACKET_COUNT_NONE sk
        :: nil /\
      udp_send_skb_args st' = delete pid_tgid (udp_send_skb_args st) /\
      udp_send_skb_args st' !! pid_tgid = None /\
      udp_send_missed st' = udp_send_missed st) /\
  (forall (skb : sk_buff) (fl4 : flowi4) (fl6 : flowi6) (t0 : conn_tuple_t),
      let r := read_conn_tuple t0 (skb_sk skb) pid_tgid CONN_TYPE_UDP in
      fst r = 0 ->
      (fst (read_conn_tuple_partial_from_flowi4 (snd r) fl4 pid_tgid
              CONN_TYPE_UDP) = 0 ->
       let st' :=
         kprobe__udp_send_skb CONN_TYPE_UDP read_conn_tuple pid_tgid skb fl4
           t0 st in
       udp_send_missed st' = udp_send_missed st + 1 /\
       udp_send_skb_args st' = udp_send_skb_args st) /\
      (fst (read_conn_tuple_partial_from_flowi6 CONN_V4 CONN_V6
              is_ipv4_mapped_ipv6 (snd r) fl6 pid_tgid CONN_TYPE_UDP) = 0 ->
       let st' :=
         kprobe__udp_v6_send_skb CONN_TYPE_UDP CONN_V4 CONN_V6
           is_ipv4_mapped_ipv6 read_conn_tuple pid_tgid skb fl6 t0 st in
       udp_send_missed st' = udp_send_missed st + 1 /\
       udp_send_skb_args st' = udp_send_skb_args st)).
Proof.
  split; [|split].
  - intros Hmiss. unfold udp_sendmsg_exit, udpv6_sendmsg_exit.
    rewrite handle_udp_send_miss by assumption. split; reflexivity.
  - intros t Hhit Hsent. cbv zeta. unfold udp_sendmsg_exit, udpv6_sendmsg_exit.
    rewrite (handle_udp_send_hit _ _ _ _ t) by assumption.
    cbn [calls udp_send_skb_args udp_send_missed set_udp_send_skb_args emit].
    repeat split. apply lookup_delete_eq.
  - intros skb fl4 fl6 t0. cbv zeta. intros Hsock. split; intros Hflow.
    + rewrite udp_send_skb_miss by assumption. split; reflexivity.
    + rewrite udp_v6_send_skb_miss by assumption. split; reflexivity.
Qed.

(** A staged tuple is forwarded with the byte count of the send and
    leaves the table. *)
Lemma udp_send_exit_consumes_staged_tuple_witness :
  calls (udp_sendmsg_exit pid_tgid_example 1 200 state_with_staged_send) =
    HandleMessage staged_tuple 200 0 CONN_DIRECTION_UNKNOWN 1 0
      PACKET_COUNT_NONE 1 :: nil /\
  udp_send_skb_args (udp_sendmsg_exit pid_tgid_example 1 200
                       state_with_staged_send) !! pid_tgid_example = None.
Proof.
  destruct (udp_send_exit_consumes_staged_tuple example_CONN_TYPE_UDP
              example_CONN_V4 example_CONN_V6 is_ipv4_mapped_ipv6_spec
              example_read_conn_tuple state_with_staged_send pid_tgid_example
              1 200) as (_ & Hhit & _).
  destruct (Hhit staged_tuple) as (_ & Hcalls & _ & Hgone & _).
  - reflexivity.
  - reflexivity.
  - split; [exact Hcalls | exact Hgone].
Defined.

(** ** The descriptor identity index *)

Section DescriptorIndex.

Variables sock_by_pid_fd_entries pid_fd_by_sock_entries : nat.

Lemma sockfd_lookup_known (pid_tgid fd : Z) (s : socket) (st : tracer_state) :
  is_Some (sock_by_pid_fd st !! mk_pid_fd (u32 (Z.shiftr pid_tgid 32)) fd) ->
  sockfd_lookup_light_exit sock_by_pid_fd_entries pid_fd_by_sock_entries
    pid_tgid fd s st = st.
Proof.
  intros [sk Hsk]. unfold sockfd_lookup_light_exit. rewrite Hsk. reflexivity.
Qed.

Lemma sockfd_lookup_rejected (pid_tgid fd : Z) (s : socket)
    (st : tracer_state) :
  ~ indexable s -> sockfd_lookup_light_exit sock_by_pid_fd_entries pid_fd_by_sock_entries
    pid_tgid fd s st = st.
Proof.
  intros Hno. unfold sockfd_lookup_light_exit.
  destruct (sock_by_pid_fd st !! _); [reflexivity|].
  destruct (socket_ops s) as [ops|] eqn:Hops; [|reflexivity].
  destruct (Z.eqb_spec (socket_type s) SOCK_STREAM) as [Htype|];
    [|reflexivity].
  destruct (Z.eqb_spec (ops_family ops) AF_INET) as [Hfam|].
  - exfalso. apply Hno. exists ops. auto.
  - destruct (Z.eqb_spec (ops_family ops) AF_INET6) as [Hfam|];
      [|reflexivity].
    exfalso. apply Hno. exists ops. auto.
Qed.

Lemma sockfd_lookup_registers (pid_tgid fd : Z) (s : socket)
    (st : tracer_state) :
  let key := mk_pid_fd (u32 (Z.shiftr pid_tgid 32)) fd in
  sock_by_pid_fd st !! key = None -> indexable s ->
  sockfd_lookup_light_exit sock_by_pid_fd_entries pid_fd_by_sock_entries
    pid_tgid fd s st =
  set_sock_by_pid_fd
    (bpf_map_update_with_telemetry sock_by_pid_fd_entries
       (sock_by_pid_fd st) key (socket_sk s))
    (set_pid_fd_by_sock
       (bpf_map_update_with_telemetry pid_fd_by_sock_entries
          (pid_fd_by_sock st) (socket_sk s) key) st).
Proof.
  cbv zeta. intros Hnew (ops & Hops & Htype & Hfam).
  unfold sockfd_lookup_light_exit. rewrite Hnew, Hops, Htype.
  destruct Hfam as [-> | ->]; reflexivity.
Qed.

End DescriptorIndex.

(** C5, as stated, fails: the pairing is not kept at all times. Process
    100 resolves descriptor 3 and then descriptor 4 to the same stream
    socket; afterwards descriptor 3 still names the socket, and the
    socket names descriptor 4. *)
Lemma descriptor_index_pairing_breaks :
  let st :=
    sockfd_lookup_light_exit 16 16 pid_tgid_example 4 (tcp_stream_socket 1)
      (sockfd_lookup_light_exit 16 16 pid_tgid_example 3 (tcp_stream_socket 1)
         initial_state) in
  index_paired initial_state /\
  sock_by_pid_fd st !! mk_pid_fd 100 3 = Some 1 /\
  pid_fd_by_sock st !! 1 = Some (mk_pid_fd 100 4) /\
  ~ index_paired st.
Proof.
  cbv zeta. split; [|split; [|split]].
  - intros pid_fd sk. cbn. rewrite !lookup_empty. split; discriminate.
  - reflexivity.
  - reflexivity.
  - intros Hpaired.
    assert (H : pid_fd_by_sock
                  (sockfd_lookup_light_exit 16 16 pid_tgid_example 4
                     (tcp_stream_socket 1)
                     (sockfd_lookup_light_exit 16 16 pid_tgid_example 3
                        (tcp_stream_socket 1) initial_state)) !! 1 =
                Some (mk_pid_fd 100 3)).
    { apply Hpaired. reflexivity. }
    vm_compute in H. discriminate.
Qed.

(** C5, amended. A registration by [sockfd_lookup_light_exit] in which
    both map updates find room leaves both directions in place for the
    registered process, descriptor and socket: the descriptor names the
    socket and the socket names the descriptor. Entries under other
    descriptors are not touched, so the pairing holds for what was just
    registered and is not an invariant of the whole index. *)
Theorem descriptor_registration_writes_both_directions
    (sock_by_pid_fd_entries pid_fd_by_sock_entries : nat)
    (st : tracer_state) (pid_tgid fd : Z) (s : socket)
    (Hnew : sock_by_pid_fd st !! mk_pid_fd (u32 (Z.shiftr pid_tgid 32)) fd = None)
    (Hsock : indexable s)
    (Hroom1 : has_room pid_fd_by_sock_entries (pid_fd_by_sock st) (socket_sk s))
    (Hroom2 : has_room sock_by_pid_fd_entries (sock_by_pid_fd st)
                (mk_pid_fd (u32 (Z.shiftr pid_tgid 32)) fd)) :
  let key := mk_pid_fd (u32 (Z.shiftr pid_tgid 32)) fd in
  let st' :=
    sockfd_lookup_light_exit sock_by_pid_fd_entries pid_fd_by_sock_entries
      pid_tgid fd s st in
  sock_by_pid_fd st' !! key = Some (socket_sk s) /\
  pid_fd_by_sock st' !! socket_sk s = Some key /\
  (forall key', key' <> key -> sock_by_pid_fd st' !! key' = sock_by_pid_fd st !! key') /\
  (forall sk', sk' <> socket_sk s -> pid_fd_by_sock st' !! sk' = pid_fd_by_sock st !! sk').
Proof.
  cbv zeta. rewrite sockfd_lookup_registers by assumption.
  cbn [sock_by_pid_fd pid_fd_by_sock set_sock_by_pid_fd set_pid_fd_by_sock].
  unfold bpf_map_update_with_telemetry.
  rewrite !bpf_map_update_room by assumption.
  split; [apply lookup_insert_eq|].
  split; [apply lookup_insert_eq|].
  split; intros k Hk; apply lookup_insert_ne; congruence.
Qed.

Lemma descriptor_registration_writes_both_directions_witness :
  let st' :=
    sockfd_lookup_light_exit 16 16 pid_tgid_example 3 (tcp_stream_socket 1)
      initial_state in
  sock_by_pid_fd st' !! mk_pid_fd 100 3 = Some 1 /\
  pid_fd_by_sock st' !! 1 = Some (mk_pid_fd 100 3).
Proof.
  cbv zeta.
  destruct (descriptor_registration_writes_both_directions 16 16 initial_state
              pid_tgid_example 3 (tcp_stream_socket 1)) as (H1 & H2 & _).
  - reflexivity.
  - exists (mk_proto_ops AF_INET). repeat split. left. reflexivity.
  - right. cbn. rewrite map_size_empty. lia.
  - right. cbn. rewrite map_size_empty. lia.
  - split; [exact H1 | exact H2].
Defined.

(** C9. On a descriptor-resolved event, [sockfd_lookup_light_exit] writes
    nothing when the (process, descriptor) key already has an entry;
    writes nothing when the socket is not a stream socket of family IPv4
    or IPv6; and otherwise performs exactly the two index updates, socket
    to descriptor and descriptor to socket. *)
Theorem descriptor_index_registers_only_tcp
    (sock_by_pid_fd_entries pid_fd_by_sock_entries : nat)
    (st : tracer_state) (pid_tgid fd : Z) (s : socket) :
  let key := mk_pid_fd (u32 (Z.shiftr pid_tgid 32)) fd in
  let st' :=
    sockfd_lookup_light_exit sock_by_pid_fd_entries pid_fd_by_sock_entries
      pid_tgid fd s st in
  (is_Some (sock_by_pid_fd st !! key) -> st' = st) /\
  (~ indexable s -> st' = st) /\
  (sock_by_pid_fd st !! key = None -> indexable s ->
   st' =
   set_sock_by_pid_fd
     (bpf_map_update_with_telemetry sock_by_pid_fd_entries
        (sock_by_pid_fd st) key (socket_sk s))
     (set_pid_fd_by_sock
        (bpf_map_update_with_telemetry pid_fd_by_sock_entries
           (pid_fd_by_sock st) (socket_sk s) key) st)) /\
  (st' <> st -> sock_by_pid_fd st !! key = None /\ indexable s).
Proof.
  cbv zeta. split; [apply sockfd_lookup_known|].
  split; [apply sockfd_lookup_rejected|].
  split; [apply sockfd_lookup_registers|].
  intros Hchanged. split.
  - destruct (sock_by_pid_fd st !! _) eqn:Hkey; [|reflexivity].
    exfalso. apply Hchanged. apply sockfd_lookup_known. rewrite Hkey. eauto.
  - destruct (socket_ops s) as [ops|] eqn:Hops.
    + destruct (Z.eq_dec (socket_type s) SOCK_STREAM) as [Htype|Htype].
      * destruct (Z.eq_dec (ops_family ops) AF_INET) as [Hf|Hf];
          [exists ops; auto|].
        destruct (Z.eq_dec (ops_family ops) AF_INET6) as [Hf6|Hf6];
          [exists ops; auto|].
        exfalso. apply Hchanged. apply sockfd_lookup_rejected.
        intros (ops' & Hops' & _ & Hfam). rewrite Hops in Hops'.
        injection Hops' as <-. tauto.
      * exfalso. apply Hchanged. apply sockfd_lookup_rejected.
        intros (_ & _ & Htype' & _). contradiction.
    + exfalso. apply Hchanged. apply sockfd_lookup_rejected.
      intros (ops' & Hops' & _). congruence.
Qed.

(** A datagram socket is not indexed; a stream socket is, once. *)
Lemma descriptor_index_registers_only_tcp_witness :
  sockfd_lookup_light_exit 16 16 pid_tgid_example 3 (udp_socket 1)
    initial_state = initial_state /\
  sockfd_lookup_light_exit 16 16 pid_tgid_example 3 (tcp_stream_socket 2)
    (sockfd_lookup_light_exit 16 16 pid_tgid_example 3 (tcp_stream_socket 1)
       initial_state) =
  sockfd_lookup_light_exit 16 16 pid_tgid_example 3 (tcp_stream_socket 1)
    initial_state.
Proof.
  split.
  - destruct (descriptor_index_registers_only_tcp 16 16 initial_state
                pid_tgid_example 3 (udp_socket 1)) as (_ & Hrejected & _).
    apply Hrejected. intros (ops & _ & Htype & _). discriminate Htype.
  - destruct (descriptor_index_registers_only_tcp 16 16
                (sockfd_lookup_light_exit 16 16 pid_tgid_example 3
                   (tcp_stream_socket 1) initial_state)
                pid_tgid_example 3 (tcp_stream_socket 2)) as (Hknown & _).
    apply Hknown. exists 1. reflexivity.
Defined.

(** ** Binding sets *)

(** A binding that is in the set, or finds room in it, is in the set
    afterwards, and nothing else changes. *)
Lemma add_port_bind_room (max_entries : nat) (pb : port_binding_t)
    (s : gset port_binding_t) :
  pb ∈ s \/ (size s < max_entries)%nat ->
  add_port_bind max_entries pb s = {[ pb ]} ∪ s.
Proof.
  intros Hroom. unfold add_port_bind.
  destruct (decide (pb ∈ s)) as [Hin | Hnew].
  { apply set_eq. intros q. rewrite elem_of_union, elem_of_singleton.
    split; [auto | intros [-> | Hq]; assumption]. }
  destruct Hroom as [Hin | Hlt]; [contradiction|].
  destruct (Nat.ltb_spec (size s) max_entries); [reflexivity | lia].
Qed.

(** A new binding is dropped by a full set. *)
Lemma add_port_bind_full (max_entries : nat) (pb : port_binding_t)
    (s : gset port_binding_t) :
  pb ∉ s -> (max_entries <= size s)%nat ->
  add_port_bind max_entries pb s = s.
Proof.
  intros Hnew Hfull. unfold add_port_bind.
  destruct (decide (pb ∈ s)) as [Hin | _]; [reflexivity|].
  destruct (Nat.ltb_spec (size s) max_entries); [lia | reflexivity].
Qed.

(** ** Bind exit *)

Lemma sys_exit_bind_unfold (udp_port_bindings_entries : nat)
    (read_sport : Z -> Z) (sock : socket) (a : sockaddr) (st : tracer_state) :
  Z.land (u16 (socket_type sock)) SOCK_DGRAM <> 0 ->
  sys_exit_bind udp_port_bindings_entries read_sport sock (Some a) 0 st =
  let port := bind_port a (read_sport (socket_sk sock)) in
  if port =? 0 then st
  else
    set_udp_port_bindings
      (add_port_bind udp_port_bindings_entries (mk_port_binding 0 port)
         (udp_port_bindings st)) st.
Proof.
  intros Hdgram. unfold sys_exit_bind, bind_port. cbn [Z.eqb negb].
  destruct (Z.eqb_spec (Z.land (u16 (socket_type sock)) SOCK_DGRAM) 0);
    [contradiction|].
  cbv zeta.
  destruct (sa_family a =? AF_INET); [reflexivity|].
  destruct (sa_family a =? AF_INET6); reflexivity.
Qed.

(** C6, as stated, fails: a bind that leaves no port to record (zero in
    the supplied address, zero on the socket) changes nothing at all, so
    no counter moves; and a bind reported without an address structure is
    dropped although the socket has a port. *)
Lemma bind_exit_zero_port_counts_nothing :
  inet_bind_exit 16 example_read_sport (udp_socket 2)
    (Some (sockaddr_in_any 0)) 0 initial_state = initial_state /\
  udp_send_missed
    (inet_bind_exit 16 example_read_sport (udp_socket 2)
       (Some (sockaddr_in_any 0)) 0 initial_state)
    <> udp_send_missed initial_state + 1 /\
  example_read_sport 1 = 5000 /\
  inet_bind_exit 16 example_read_sport (udp_socket 1) None 0 initial_state
    = initial_state.
Proof. repeat split. vm_compute. discriminate. Qed.

(** C6, amended. On a bind-completed event ([inet_bind_exit],
    [inet6_bind_exit]) with return code 0, a socket type that has the
    datagram bit and an address structure that is present, the port is
    taken from the address structure by family (zero for any other
    family) and converted to host order, and read off the socket when
    that is zero. When both are zero the event changes nothing, no
    counter included. Otherwise the port, under namespace 0, is handed to
    the UDP binding set, which holds at most [udp_port_bindings_entries]
    bindings: when the binding is in the set already or the set has room,
    it is in the set afterwards and nothing else changes; when the
    binding is new and the set is full, the bind is dropped and the state
    stays as it was. *)
Theorem bind_exit_records_udp_port
    (udp_port_bindings_entries : nat)
    (read_sport : Z -> Z) (st : tracer_state) (sock : socket) (a : sockaddr)
    (Hdgram : Z.land (u16 (socket_type sock)) SOCK_DGRAM <> 0) :
  let port := bind_port a (read_sport (socket_sk sock)) in
  let pb := mk_port_binding 0 port in
  let st' :=
    inet_bind_exit udp_port_bindings_entries read_sport sock (Some a) 0 st in
  inet6_bind_exit udp_port_bindings_entries read_sport sock (Some a) 0 st
    = st' /\
  (port = 0 -> st' = st) /\
  (port <> 0 ->
   pb ∈ udp_port_bindings st \/
   (size (udp_port_bindings st) < udp_port_bindings_entries)%nat ->
   st' = set_udp_port_bindings ({[ pb ]} ∪ udp_port_bindings st) st /\
   pb ∈ udp_port_bindings st') /\
  (port <> 0 ->
   pb ∉ udp_port_bindings st ->
   (udp_port_bindings_entries <= size (udp_port_bindings st))%nat ->
   st' = st).
Proof.
  cbv zeta. unfold inet_bind_exit, inet6_bind_exit.
  rewrite sys_exit_bind_unfold by assumption. cbv zeta.
  split; [reflexivity|].
  destruct (Z.eqb_spec (bind_port a (read_sport (socket_sk sock))) 0) as [Hz|Hnz].
  - split; [reflexivity|]. split; intros; contradiction.
  - split; [contradiction|]. split.
    + intros _ Hroom. rewrite (add_port_bind_room _ _ _ Hroom).
      split; [reflexivity|].
      cbn [udp_port_bindings set_udp_port_bindings].
      apply elem_of_union_l, elem_of_singleton. reflexivity.
    + intros _ Hnew Hfull. rewrite (add_port_bind_full _ _ _ Hnew Hfull).
      destruct st; reflexivity.
Qed.

(** With room for 16 bindings, binding a UDP socket to port 8125 records
    (0, 8125) and binding to port 0 records the port the socket was
    given; a set of one binding that holds (0, 53) drops the bind to
    8125. *)
Lemma bind_exit_records_udp_port_witness :
  mk_port_binding 0 8125 ∈
    udp_port_bindings
      (inet_bind_exit 16 example_read_sport (udp_socket 2)
         (Some (sockaddr_in_any 8125)) 0 initial_state) /\
  mk_port_binding 0 5000 ∈
    udp_port_bindings
      (inet_bind_exit 16 example_read_sport (udp_socket 1)
         (Some (sockaddr_in_any 0)) 0 initial_state) /\
  inet_bind_exit 1 example_read_sport (udp_socket 2)
    (Some (sockaddr_in_any 8125)) 0
    (set_udp_port_bindings {[ mk_port_binding 0 53 ]} initial_state) =
  set_udp_port_bindings {[ mk_port_binding 0 53 ]} initial_state.
Proof.
  split; [|split].
  - destruct (bind_exit_records_udp_port 16 example_read_sport initial_state
                (udp_socket 2) (sockaddr_in_any 8125))
      as (_ & _ & Hport & _).
    + vm_compute. discriminate.
    + apply Hport.
      * vm_compute. discriminate.
      * right. cbn [udp_port_bindings initial_state].
        rewrite size_empty. lia.
  - destruct (bind_exit_records_udp_port 16 example_read_sport initial_state
                (udp_socket 1) (sockaddr_in_any 0)) as (_ & _ & Hport & _).
    + vm_compute. discriminate.
    + apply Hport.
      * vm_compute. discriminate.
      * right. cbn [udp_port_bindings initial_state].
        rewrite size_empty. lia.
  - destruct (bind_exit_records_udp_port 1 example_read_sport
                (set_udp_port_bindings {[ mk_port_binding 0 53 ]}
                   initial_state)
                (udp_socket 2) (sockaddr_in_any 8125))
      as (_ & _ & _ & Hfull).
    + vm_compute. discriminate.
    + apply Hfull.
      * vm_compute. discriminate.
      * cbn [udp_port_bindings set_udp_port_bindings].
        rewrite elem_of_singleton. discriminate.
      * cbn [udp_port_bindings set_udp_port_bindings].
        rewrite size_singleton. lia.
Defined.

(** ** Early exits *)

(** C7. A UDP receive-completed event ([udp_recvmsg_exit],
    [udpv6_recvmsg_exit]) whose flags include [MSG_PEEK] leaves the state
    as it was: nothing is forwarded, no resolution is attempted and no
    map changes, whatever the byte count, the message header, and
    whatever the resolver would have returned. *)
Theorem udp_recv_peek_is_ignored
    (CONN_TYPE_UDP : Z)
    (read_conn_tuple_partial : conn_tuple_t -> Z -> Z -> Z -> Z * conn_tuple_t)
    (sockaddr_to_addr : sockaddr -> conn_tuple_t -> conn_tuple_t)
    (st : tracer_state) (pid_tgid sk : Z) (msg : option msghdr)
    (flags copied : Z)
    (Hpeek : Z.land flags MSG_PEEK <> 0) :
  udp_recvmsg_exit CONN_TYPE_UDP read_conn_tuple_partial sockaddr_to_addr
    pid_tgid sk msg flags copied st = st /\
  udpv6_recvmsg_exit CONN_TYPE_UDP read_conn_tuple_partial sockaddr_to_addr
    pid_tgid sk msg flags copied st = st.
Proof.
  unfold udp_recvmsg_exit, udpv6_recvmsg_exit, handle_ret_udp_recvmsg.
  destruct (copied <? 0); [split; reflexivity|].
  destruct (Z.eqb_spec (Z.land flags MSG_PEEK) 0); [contradiction|].
  split; reflexivity.
Qed.

(** A peek of 512 bytes on the socket the resolver knows. *)
Lemma udp_recv_peek_is_ignored_witness :
  udp_recvmsg_exit example_CONN_TYPE_UDP example_read_conn_tuple
    example_sockaddr_to_addr pid_tgid_example 1
    (Some (mk_msghdr (Some (sockaddr_in_any 53)))) MSG_PEEK 512
    state_with_staged_send = state_with_staged_send.
Proof.
  apply (udp_recv_peek_is_ignored example_CONN_TYPE_UDP example_read_conn_tuple
           example_sockaddr_to_addr state_with_staged_send pid_tgid_example 1
           (Some (mk_msghdr (Some (sockaddr_in_any 53)))) MSG_PEEK 512).
  vm_compute. discriminate.
Defined.

(** C8. When the traced operation returned a negative value, the TCP
    send-exit, the TCP receive-exit and both UDP receive-exit handlers
    leave the state as it was: no resolution is attempted (the trace of
    outbound calls does not grow), nothing is forwarded and no map
    changes. *)
Theorem negative_return_is_skipped
    (CONN_TYPE_UDP CONN_TYPE_TCP : Z)
    (read_conn_tuple read_conn_tuple_partial :
       conn_tuple_t -> Z -> Z -> Z -> Z * conn_tuple_t)
    (get_tcp_segment_counts : Z -> Z * Z)
    (sockaddr_to_addr : sockaddr -> conn_tuple_t -> conn_tuple_t)
    (st : tracer_state) (pid_tgid sk : Z) (msg : option msghdr)
    (flags ret : Z)
    (Hret : ret < 0) :
  tcp_sendmsg_exit CONN_TYPE_TCP read_conn_tuple get_tcp_segment_counts
    pid_tgid sk ret st = st /\
  tcp_recvmsg_exit pid_tgid sk ret st = st /\
  udp_recvmsg_exit CONN_TYPE_UDP read_conn_tuple_partial sockaddr_to_addr
    pid_tgid sk msg flags ret st = st /\
  udpv6_recvmsg_exit CONN_TYPE_UDP read_conn_tuple_partial sockaddr_to_addr
    pid_tgid sk msg flags ret st = st.
Proof.
  unfold tcp_sendmsg_exit, tcp_recvmsg_exit, udp_recvmsg_exit,
    udpv6_recvmsg_exit, handle_ret_udp_recvmsg.
  destruct (Z.ltb_spec ret 0); [|lia].
  repeat split.
Qed.

(** A send that failed with -32 on the socket the resolver knows. *)
Lemma negative_return_is_skipped_witness :
  tcp_sendmsg_exit example_CONN_TYPE_TCP example_read_conn_tuple
    example_get_tcp_segment_counts pid_tgid_example 1 (-32)
    state_with_staged_send = state_with_staged_send.
Proof.
  apply (negative_return_is_skipped example_CONN_TYPE_UDP example_CONN_TYPE_TCP
           example_read_conn_tuple example_read_conn_tuple
           example_get_tcp_segment_counts example_sockaddr_to_addr
           state_with_staged_send pid_tgid_example 1 None 0 (-32)).
  reflexivity.
Defined.

(** ** Close *)

Lemma clear_sockfd_maps_cleared (sk : Z) (st : tracer_state) :
  pid_fd_by_sock (clear_sockfd_maps sk st) !! sk = None /\
  (forall pid_fd : pid_fd_t,
      pid_fd_by_sock st !! sk = Some pid_fd ->
      sock_by_pid_fd (clear_sockfd_maps sk st) !! pid_fd = None) /\
  tcp_ongoing_connect_pid (clear_sockfd_maps sk st) = tcp_ongoing_connect_pid st /\
  calls (clear_sockfd_maps sk st) = calls st.
Proof.
  unfold clear_sockfd_maps.
  destruct (pid_fd_by_sock st !! sk) as [pid_fd|] eqn:Hsk.
  - cbn. split; [apply lookup_delete_eq|].
    split; [|split; reflexivity].
    intros pid_fd' [= <-]. apply lookup_delete_eq.
  - rewrite Hsk. split; [reflexivity|].
    split; [discriminate | split; reflexivity].
Qed.

(** C10. [tcp_close] removes the staged connect mapping of the socket and
    the descriptor index entries of the socket whatever tuple resolution
    then returns. When resolution fails, the state it leaves is the state
    with exactly those removals and the one resolution attempt in the
    trace: no close finalization is triggered and the removals stay. When
    resolution succeeds, the close finalization follows the attempt. *)
Theorem tcp_close_clears_before_resolving
    (CONN_TYPE_TCP : Z)
    (read_conn_tuple : conn_tuple_t -> Z -> Z -> Z -> Z * conn_tuple_t)
    (st : tracer_state) (pid_tgid sk : Z) :
  let st' := tcp_close CONN_TYPE_TCP read_conn_tuple pid_tgid sk st in
  let cleared :=
    clear_sockfd_maps sk
      (set_tcp_ongoing_connect_pid (delete sk (tcp_ongoing_connect_pid st)) st) in
  let r := read_conn_tuple conn_tuple_zero sk pid_tgid CONN_TYPE_TCP in
  tcp_ongoing_connect_pid st' !! sk = None /\
  pid_fd_by_sock st' !! sk = None /\
  (forall pid_fd : pid_fd_t,
      pid_fd_by_sock st !! sk = Some pid_fd ->
      sock_by_pid_fd st' !! pid_fd = None) /\
  (fst r = 0 ->
   st' = emit (ReadConnTuple sk pid_tgid CONN_TYPE_TCP) cleared /\
   calls st' = calls st ++ ReadConnTuple sk pid_tgid CONN_TYPE_TCP :: nil) /\
  (fst r <> 0 ->
   st' =
   emit (CleanupConn (snd r) sk)
     (emit (ReadConnTuple sk pid_tgid CONN_TYPE_TCP) cleared)).
Proof.
  cbv zeta. unfold tcp_close.
  set (st1 := set_tcp_ongoing_connect_pid _ st).
  destruct (clear_sockfd_maps_cleared sk st1) as (Hsk & Hfd & Hongoing & Hcalls).
  assert (Hdel : tcp_ongoing_connect_pid (clear_sockfd_maps sk st1) !! sk = None).
  { rewrite Hongoing. apply lookup_delete_eq. }
  destruct (Z.eqb_spec
              (fst (read_conn_tuple conn_tuple_zero sk pid_tgid CONN_TYPE_TCP)) 0)
    as [Hfail | Hok]; cbn [tcp_ongoing_connect_pid pid_fd_by_sock
                           sock_by_pid_fd calls emit];
    (split; [exact Hdel|]); (split; [exact Hsk|]);
    (split; [intros pid_fd Hpf; apply Hfd; exact Hpf|]).
  - split; [|intros; contradiction]. intros _. split; [reflexivity|].
    rewrite Hcalls. reflexivity.
  - split; [intros; contradiction|]. intros _. reflexivity.
Qed.

(** A close on a socket the resolver does not know: the connect mapping
    staged for it is gone and no finalization is triggered. *)
Lemma tcp_close_clears_before_resolving_witness :
  let st := tcp_connect 16 pid_tgid_example 5 initial_state in
  tcp_ongoing_connect_pid st !! 5 = Some pid_tgid_example /\
  tcp_ongoing_connect_pid
    (tcp_close example_CONN_TYPE_TCP example_read_conn_tuple pid_tgid_example 5
       st) !! 5 = None /\
  calls (tcp_close example_CONN_TYPE_TCP example_read_conn_tuple
           pid_tgid_example 5 st) =
  ReadConnTuple 5 pid_tgid_example example_CONN_TYPE_TCP :: nil.
Proof.
  cbv zeta.
  destruct (tcp_close_clears_before_resolving example_CONN_TYPE_TCP
              example_read_conn_tuple
              (tcp_connect 16 pid_tgid_example 5 initial_state)
              pid_tgid_example 5) as (Hgone & _ & _ & Hfail & _).
  split; [reflexivity|]. split; [exact Hgone|].
  destruct Hfail as (_ & Hcalls); [reflexivity | exact Hcalls].
Defined.

(** * Further properties of the resolvers *)

(** ** Byte order of ports *)

Lemma bpf_ntohs_testbit (x n : Z) :
  0 <= n ->
  Z.testbit (bpf_ntohs x) n =
  if n <? 8 then Z.testbit x (n + 8)
  else if n <? 16 then Z.testbit x (n - 8) else false.
Proof.
  intros Hn. unfold bpf_ntohs.
  rewrite Z.lor_spec, Z.shiftl_spec, !Z.land_spec, Z.shiftr_spec by lia.
  change 255 with (Z.ones 8).
  destruct (Z.ltb_spec n 8).
  - rewrite (Z.testbit_neg_r _ (n - 8)), (Z.testbit_neg_r (Z.ones 8) (n - 8))
      by lia.
    rewrite Z.testbit_ones_nonneg by lia.
    destruct (Z.ltb_spec n 8); [|lia].
    rewrite andb_true_r. reflexivity.
  - rewrite (Z.testbit_ones_nonneg 8 n) by lia.
    destruct (Z.ltb_spec n 8); [lia|]. rewrite andb_false_r, orb_false_r.
    rewrite Z.testbit_ones_nonneg by lia.
    destruct (Z.ltb_spec n 16), (Z.ltb_spec (n - 8) 8);
      first [lia | apply andb_true_r | apply andb_false_r].
Qed.

Lemma u16_testbit (x n : Z) :
  0 <= n -> Z.testbit (u16 x) n = Z.testbit x n && (n <? 16).
Proof.
  intros Hn. unfold u16. rewrite <- Z.land_ones by lia.
  rewrite Z.land_spec, Z.testbit_ones_nonneg by lia. reflexivity.
Qed.

(** Swapping the bytes twice gives back the 16-bit word. *)
Lemma bpf_ntohs_involutive (x : Z) : bpf_ntohs (bpf_ntohs x) = u16 x.
Proof.
  apply Z.bits_inj'. intros n Hn.
  rewrite u16_testbit, bpf_ntohs_testbit by lia.
  destruct (Z.ltb_spec n 8).
  - rewrite bpf_ntohs_testbit by lia.
    destruct (Z.ltb_spec (n + 8) 8), (Z.ltb_spec (n + 8) 16),
      (Z.ltb_spec n 16); try lia.
    rewrite andb_true_r. f_equal. lia.
  - destruct (Z.ltb_spec n 16).
    + rewrite bpf_ntohs_testbit by lia.
      destruct (Z.ltb_spec (n - 8) 8); [|lia].
      rewrite andb_true_r. f_equal. lia.
    + rewrite andb_false_r. reflexivity.
Qed.

Lemma bpf_ntohs_u16 (x : Z) : bpf_ntohs (u16 x) = bpf_ntohs x.
Proof.
  apply Z.bits_inj'. intros n Hn. rewrite !bpf_ntohs_testbit by lia.
  destruct (Z.ltb_spec n 8).
  - rewrite u16_testbit by lia.
    destruct (Z.ltb_spec (n + 8) 16); [|lia]. apply andb_true_r.
  - destruct (Z.ltb_spec n 16); [|reflexivity].
    rewrite u16_testbit by lia.
    destruct (Z.ltb_spec (n - 8) 16); [|lia]. apply andb_true_r.
Qed.

Lemma u16_range (x : Z) : 0 <= u16 x < 2 ^ 16.
Proof. unfold u16. apply Z.mod_pos_bound. lia. Qed.

Lemma u32_range (x : Z) : 0 <= u32 x < 2 ^ 32.
Proof. unfold u32. apply Z.mod_pos_bound. lia. Qed.

Lemma u64_range (x : Z) : 0 <= u64 x < 2 ^ 64.
Proof. unfold u64. apply Z.mod_pos_bound. lia. Qed.

Lemma u16_small (x : Z) : 0 <= x < 2 ^ 16 -> u16 x = x.
Proof. intros H. unfold u16. apply Z.mod_small. exact H. Qed.

Lemma bpf_ntohs_range (x : Z) : 0 <= bpf_ntohs x < 2 ^ 16.
Proof.
  assert (Hfits : u16 (bpf_ntohs x) = bpf_ntohs x).
  { apply Z.bits_inj'. intros n Hn.
    rewrite u16_testbit, bpf_ntohs_testbit by lia.
    destruct (Z.ltb_spec n 8), (Z.ltb_spec n 16);
      first [lia | apply andb_true_r | apply andb_false_r]. }
  rewrite <- Hfits. apply u16_range.
Qed.

(** The byte swap neither makes nor hides a zero port. *)
Lemma bpf_ntohs_zero (x : Z) : bpf_ntohs (u16 x) = 0 <-> u16 x = 0.
Proof.
  split; intros H.
  - rewrite <- bpf_ntohs_involutive, <- (bpf_ntohs_u16 x), H. reflexivity.
  - rewrite H. reflexivity.
Qed.

(** ** What a successful resolution guarantees *)

(** X1. A tuple that the IPv4 partial resolution accepts is complete: its
    source and destination address words and both ports are nonzero. *)
Theorem flowi4_success_is_complete
    (t : conn_tuple_t) (fl4 : flowi4) (pid_tgid type : Z)
    (Hok : fst (read_conn_tuple_partial_from_flowi4 t fl4 pid_tgid type) = 1) :
  let t' := snd (read_conn_tuple_partial_from_flowi4 t fl4 pid_tgid type) in
  saddr_l t' <> 0 /\ daddr_l t' <> 0 /\ sport t' <> 0 /\ dport t' <> 0.
Proof.
  cbv zeta. revert Hok. rewrite flowi4_unfold. cbv zeta.
  destruct ((flow4_saddr t fl4 =? 0) || (flow4_daddr t fl4 =? 0)) eqn:Haddr;
    [discriminate|].
  destruct ((flow4_sport t fl4 =? 0) || (flow4_dport t fl4 =? 0)) eqn:Hport;
    [discriminate|].
  intros _. fields.
  apply orb_false_elim in Haddr, Hport.
  destruct Haddr as [Hs Hd], Hport as [Hsp Hdp].
  apply Z.eqb_neq in Hs, Hd, Hsp, Hdp. auto.
Qed.

Lemma flowi4_success_is_complete_witness :
  let t' :=
    snd (read_conn_tuple_partial_from_flowi4 conn_tuple_zero flow4_example
           pid_tgid_example example_CONN_TYPE_UDP) in
  saddr_l t' <> 0 /\ daddr_l t' <> 0 /\ sport t' <> 0 /\ dport t' <> 0.
Proof.
  apply (flowi4_success_is_complete conn_tuple_zero flow4_example
           pid_tgid_example example_CONN_TYPE_UDP).
  reflexivity.
Defined.

(** X2. A tuple that the IPv6 partial resolution accepts has nonzero
    ports; when it was not collapsed to IPv4, each of its addresses has a
    nonzero word and the metadata carries the IPv6 mark. *)
Theorem flowi6_success_is_complete
    (CONN_V4 CONN_V6 : Z) (is_ipv4_mapped_ipv6 : Z -> Z -> Z -> Z -> bool)
    (t : conn_tuple_t) (fl6 : flowi6) (pid_tgid type : Z)
    (Hok : fst (read_conn_tuple_partial_from_flowi6 CONN_V4 CONN_V6
                  is_ipv4_mapped_ipv6 t fl6 pid_tgid type) = 1) :
  let t' :=
    snd (read_conn_tuple_partial_from_flowi6 CONN_V4 CONN_V6
           is_ipv4_mapped_ipv6 t fl6 pid_tgid type) in
  sport t' <> 0 /\ dport t' <> 0 /\
  (flow6_mapped is_ipv4_mapped_ipv6 t fl6 = false ->
   (saddr_h t' <> 0 \/ saddr_l t' <> 0) /\
   (daddr_h t' <> 0 \/ daddr_l t' <> 0) /\
   metadata t' = Z.lor type CONN_V6).
Proof.
  cbv zeta. revert Hok. rewrite flowi6_unfold. cbv zeta.
  destruct ((fst (flow6_saddr t fl6) =? 0) && (snd (flow6_saddr t fl6) =? 0))
    eqn:Hsrc; [discriminate|].
  destruct ((fst (flow6_daddr t fl6) =? 0) && (snd (flow6_daddr t fl6) =? 0))
    eqn:Hdst; [discriminate|].
  destruct ((flow6_sport t fl6 =? 0) || (flow6_dport t fl6 =? 0)) eqn:Hport;
    [discriminate|].
  intros _. apply orb_false_elim in Hport. destruct Hport as [Hsp Hdp].
  apply Z.eqb_neq in Hsp, Hdp.
  destruct (flow6_mapped is_ipv4_mapped_ipv6 t fl6); fields.
  - split; [exact Hsp|]. split; [exact Hdp|]. discriminate.
  - split; [exact Hsp|]. split; [exact Hdp|]. intros _.
    apply andb_false_iff in Hsrc, Hdst. rewrite !Z.eqb_neq in Hsrc, Hdst.
    split; [exact Hsrc|]. split; [exact Hdst | reflexivity].
Qed.

Lemma flowi6_success_is_complete_witness :
  let t' :=
    snd (read_conn_tuple_partial_from_flowi6 example_CONN_V4 example_CONN_V6
           is_ipv4_mapped_ipv6_spec conn_tuple_zero flow6_global_example
           pid_tgid_example example_CONN_TYPE_UDP) in
  sport t' <> 0 /\ dport t' <> 0 /\
  (saddr_h t' <> 0 \/ saddr_l t' <> 0) /\
  metadata t' = Z.lor example_CONN_TYPE_UDP example_CONN_V6.
Proof.
  cbv zeta.
  destruct (flowi6_success_is_complete example_CONN_V4 example_CONN_V6
              is_ipv4_mapped_ipv6_spec conn_tuple_zero flow6_global_example
              pid_tgid_example example_CONN_TYPE_UDP)
    as (Hsp & Hdp & Hrest); [reflexivity|].
  destruct Hrest as (Hs & _ & Hmeta); [reflexivity|].
  repeat split; assumption.
Defined.

(** ** A failed resolution stops where it fails *)

Lemma pair_zero_test (s : Z * Z) :
  (fst s =? 0) && (snd s =? 0) = true <-> s = (0, 0).
Proof. destruct s as [h l]. apply eqb_zero_andb. Qed.

(** X3. When an address is still missing after the fallback read, both
    resolvers return 0 without looking at the ports: [sport] and [dport]
    are as they were, although the addresses, [pid] and [metadata] have
    been written. *)
Theorem partial_flow_address_failure_skips_ports
    (CONN_V4 CONN_V6 : Z) (is_ipv4_mapped_ipv6 : Z -> Z -> Z -> Z -> bool)
    (t : conn_tuple_t) (fl4 : flowi4) (fl6 : flowi6) (pid_tgid type : Z) :
  let r4 := read_conn_tuple_partial_from_flowi4 t fl4 pid_tgid type in
  let r6 :=
    read_conn_tuple_partial_from_flowi6 CONN_V4 CONN_V6 is_ipv4_mapped_ipv6
      t fl6 pid_tgid type in
  (flow4_saddr t fl4 = 0 \/ flow4_daddr t fl4 = 0 ->
   fst r4 = 0 /\ sport (snd r4) = sport t /\ dport (snd r4) = dport t /\
   saddr_l (snd r4) = flow4_saddr t fl4 /\
   daddr_l (snd r4) = flow4_daddr t fl4 /\
   pid (snd r4) = u32 (Z.shiftr pid_tgid 32) /\ metadata (snd r4) = type) /\
  (flow6_saddr t fl6 = (0, 0) \/ flow6_daddr t fl6 = (0, 0) ->
   fst r6 = 0 /\ sport (snd r6) = sport t /\ dport (snd r6) = dport t /\
   (saddr_h (snd r6), saddr_l (snd r6)) = flow6_saddr t fl6 /\
   (daddr_h (snd r6), daddr_l (snd r6)) = flow6_daddr t fl6 /\
   pid (snd r6) = u32 (Z.shiftr pid_tgid 32) /\ metadata (snd r6) = type).
Proof.
  cbv zeta. split.
  - intros Hmiss. rewrite flowi4_unfold. cbv zeta.
    assert (Htest : (flow4_saddr t fl4 =? 0) || (flow4_daddr t fl4 =? 0) = true).
    { rewrite orb_true_iff, !Z.eqb_eq. exact Hmiss. }
    rewrite Htest. fields. repeat split.
  - intros Hmiss. rewrite flowi6_unfold. cbv zeta.
    rewrite <- !pair_zero_test in Hmiss.
    destruct ((fst (flow6_saddr t fl6) =? 0) && (snd (flow6_saddr t fl6) =? 0)).
    + fields. rewrite <- !surjective_pairing. repeat split.
    + destruct Hmiss as [Hmiss | Hmiss]; [discriminate|].
      rewrite Hmiss. fields. rewrite <- !surjective_pairing. repeat split.
Qed.

(** A flow without a source address: the source port the flow carries is
    not taken. *)
Lemma partial_flow_address_failure_skips_ports_witness :
  let r4 :=
    read_conn_tuple_partial_from_flowi4 conn_tuple_zero
      (mk_flowi4 0 ipv4_10_0_0_2 (be16 5000) (be16 53)) pid_tgid_example
      example_CONN_TYPE_UDP in
  fst r4 = 0 /\ sport (snd r4) = 0 /\ pid (snd r4) = 100.
Proof.
  cbv zeta.
  destruct (partial_flow_address_failure_skips_ports example_CONN_V4
              example_CONN_V6 is_ipv4_mapped_ipv6_spec conn_tuple_zero
              (mk_flowi4 0 ipv4_10_0_0_2 (be16 5000) (be16 53))
              flow6_mapped_example pid_tgid_example example_CONN_TYPE_UDP)
    as (H4 & _).
  destruct H4 as (Hret & Hsport & _ & _ & _ & Hpid & _);
    [left; reflexivity|].
  repeat split; assumption.
Defined.

(** ** Ports are stored in host order *)

(** X4. A port the flow descriptor carries in network byte order is
    stored in host byte order: when the tuple has no port of its own and
    both addresses resolve, the IPv4 resolution leaves [sport] = p and
    [dport] = q for a flow carrying the byte-swapped words of p and q;
    and the resolution succeeds exactly when p and q are nonzero. *)
Theorem flowi4_ports_in_host_order
    (t : conn_tuple_t) (fl4 : flowi4) (pid_tgid type p q : Z)
    (Hp : 0 <= p < 2 ^ 16) (Hq : 0 <= q < 2 ^ 16)
    (Hsport : sport t = 0) (Hdport : dport t = 0)
    (Hfs : fl4_sport fl4 = bpf_ntohs p) (Hfd : fl4_dport fl4 = bpf_ntohs q)
    (Hsaddr : flow4_saddr t fl4 <> 0) (Hdaddr : flow4_daddr t fl4 <> 0) :
  let r := read_conn_tuple_partial_from_flowi4 t fl4 pid_tgid type in
  sport (snd r) = p /\ dport (snd r) = q /\
  (fst r = 1 <-> p <> 0 /\ q <> 0).
Proof.
  cbv zeta. rewrite flowi4_unfold. cbv zeta.
  apply Z.eqb_neq in Hsaddr, Hdaddr. rewrite Hsaddr, Hdaddr. cbn [orb].
  assert (Hsp : flow4_sport t fl4 = p).
  { unfold flow4_sport, or_else. rewrite Hsport, Hfs. cbn [Z.eqb].
    rewrite bpf_ntohs_u16, bpf_ntohs_involutive. apply u16_small, Hp. }
  assert (Hdp : flow4_dport t fl4 = q).
  { unfold flow4_dport, or_else. rewrite Hdport, Hfd. cbn [Z.eqb].
    rewrite bpf_ntohs_u16, bpf_ntohs_involutive. apply u16_small, Hq. }
  rewrite Hsp, Hdp.
  destruct (Z.eqb_spec p 0), (Z.eqb_spec q 0); cbn [orb fst snd]; fields;
    (split; [reflexivity|]); (split; [reflexivity|]);
    split; intros; try discriminate; try tauto; reflexivity.
Qed.

Lemma flowi4_ports_in_host_order_witness :
  let r :=
    read_conn_tuple_partial_from_flowi4 conn_tuple_zero flow4_example
      pid_tgid_example example_CONN_TYPE_UDP in
  sport (snd r) = 5000 /\ dport (snd r) = 53 /\ fst r = 1.
Proof.
  cbv zeta.
  destruct (flowi4_ports_in_host_order conn_tuple_zero flow4_example
              pid_tgid_example example_CONN_TYPE_UDP 5000 53)
    as (Hsp & Hdp & Hret).
  - lia.
  - lia.
  - reflexivity.
  - reflexivity.
  - reflexivity.
  - reflexivity.
  - discriminate.
  - discriminate.
  - split; [exact Hsp|]. split; [exact Hdp|].
    apply Hret. split; discriminate.
Defined.

(** ** Fields stay within their C types *)

Lemma lor_range (n a b : Z) :
  0 < n -> 0 <= a < 2 ^ n -> 0 <= b < 2 ^ n -> 0 <= Z.lor a b < 2 ^ n.
Proof.
  intros Hn Ha Hb.
  assert (Hnn : 0 <= Z.lor a b) by (apply Z.lor_nonneg; lia).
  split; [exact Hnn|].
  destruct (Z.eq_dec (Z.lor a b) 0) as [-> | Hnz]; [apply Z.pow_pos_nonneg; lia|].
  apply Z.log2_lt_pow2; [lia|].
  rewrite Z.log2_lor by lia.
  destruct (Z.eq_dec a 0) as [-> | Hane], (Z.eq_dec b 0) as [-> | Hbne];
    try (change (Z.log2 0) with 0);
    repeat match goal with
           | |- context [Z.log2 ?x] =>
               lazymatch goal with
               | H : Z.log2 x < n |- _ => fail
               | _ => assert (Z.log2 x < n) by (apply Z.log2_lt_pow2; lia)
               end
           end; lia.
Qed.

Lemma or_else_range (lo hi v fallback : Z) :
  lo <= v < hi -> lo <= fallback < hi -> lo <= or_else v fallback < hi.
Proof. intros Hv Hf. unfold or_else. destruct (v =? 0); assumption. Qed.

Lemma addr6_or_else_range (addr_h addr_l : Z) (a : in6_addr) :
  0 <= addr_h < 2 ^ 64 -> 0 <= addr_l < 2 ^ 64 ->
  0 <= fst (addr6_or_else addr_h addr_l (read_in6_addr a)) < 2 ^ 64 /\
  0 <= snd (addr6_or_else addr_h addr_l (read_in6_addr a)) < 2 ^ 64.
Proof.
  intros Hh Hl. unfold addr6_or_else, read_in6_addr.
  destruct (addr6_unset addr_h addr_l); cbn [fst snd];
    split; try assumption; apply u64_range.
Qed.

Lemma u32_in_u64 (x : Z) : 0 <= u32 x < 2 ^ 64.
Proof. pose proof (u32_range x). lia. Qed.

(** X5. Both partial resolutions keep a tuple within the widths of its C
    fields (64-bit address words, 16-bit ports, 32-bit namespace, pid and
    metadata), whatever the flow descriptor and the thread identity hold,
    as long as the type and family bits are 32-bit values. *)
Theorem partial_flow_keeps_fields_in_range
    (CONN_V4 CONN_V6 : Z) (is_ipv4_mapped_ipv6 : Z -> Z -> Z -> Z -> bool)
    (t : conn_tuple_t) (fl4 : flowi4) (fl6 : flowi6) (pid_tgid type : Z)
    (Ht : tuple_in_range t)
    (Htype : 0 <= type < 2 ^ 32)
    (Hv4 : 0 <= CONN_V4 < 2 ^ 32) (Hv6 : 0 <= CONN_V6 < 2 ^ 32) :
  tuple_in_range
    (snd (read_conn_tuple_partial_from_flowi4 t fl4 pid_tgid type)) /\
  tuple_in_range
    (snd (read_conn_tuple_partial_from_flowi6 CONN_V4 CONN_V6
            is_ipv4_mapped_ipv6 t fl6 pid_tgid type)).
Proof.
  destruct Ht as (Hsh & Hsl & Hdh & Hdl & Hsp & Hdp & Hns & Hpid & Hmd).
  assert (Hs4 : 0 <= flow4_saddr t fl4 < 2 ^ 64)
    by (apply or_else_range; [assumption | apply u32_in_u64]).
  assert (Hd4 : 0 <= flow4_daddr t fl4 < 2 ^ 64)
    by (apply or_else_range; [assumption | apply u32_in_u64]).
  assert (Hsp4 : 0 <= flow4_sport t fl4 < 2 ^ 16)
    by (apply or_else_range; [assumption | apply bpf_ntohs_range]).
  assert (Hdp4 : 0 <= flow4_dport t fl4 < 2 ^ 16)
    by (apply or_else_range; [assumption | apply bpf_ntohs_range]).
  assert (Hsp6 : 0 <= flow6_sport t fl6 < 2 ^ 16)
    by (apply or_else_range; [assumption | apply bpf_ntohs_range]).
  assert (Hdp6 : 0 <= flow6_dport t fl6 < 2 ^ 16)
    by (apply or_else_range; [assumption | apply bpf_ntohs_range]).
  destruct (addr6_or_else_range (saddr_h t) (saddr_l t) (fl6_saddr fl6) Hsh Hsl)
    as [Hs6h Hs6l].
  destruct (addr6_or_else_range (daddr_h t) (daddr_l t) (fl6_daddr fl6) Hdh Hdl)
    as [Hd6h Hd6l].
  fold (flow6_saddr t fl6) in Hs6h, Hs6l. fold (flow6_daddr t fl6) in Hd6h, Hd6l.
  pose proof (u32_range (Z.shiftr pid_tgid 32)) as Hp.
  pose proof (lor_range 32 type CONN_V4 ltac:(lia) Htype Hv4) as Hm4.
  pose proof (lor_range 32 type CONN_V6 ltac:(lia) Htype Hv6) as Hm6.
  pose proof (u32_in_u64 (Z.shiftr (snd (flow6_saddr t fl6)) 32)) as Hcs.
  pose proof (u32_in_u64 (Z.shiftr (snd (flow6_daddr t fl6)) 32)) as Hcd.
  split.
  - rewrite flowi4_unfold. cbv zeta.
    destruct ((flow4_saddr t fl4 =? 0) || (flow4_daddr t fl4 =? 0));
      [|destruct ((flow4_sport t fl4 =? 0) || (flow4_dport t fl4 =? 0))];
      unfold tuple_in_range; fields; repeat split; lia.
  - rewrite flowi6_unfold. cbv zeta.
    destruct ((fst (flow6_saddr t fl6) =? 0) && (snd (flow6_saddr t fl6) =? 0));
      [|destruct ((fst (flow6_daddr t fl6) =? 0)
                  && (snd (flow6_daddr t fl6) =? 0));
        [|destruct (flow6_mapped is_ipv4_mapped_ipv6 t fl6);
          destruct ((flow6_sport t fl6 =? 0) || (flow6_dport t fl6 =? 0))]];
      unfold tuple_in_range; fields; repeat split; lia.
Qed.

Lemma partial_flow_keeps_fields_in_range_witness :
  tuple_in_range
    (snd (read_conn_tuple_partial_from_flowi4 conn_tuple_zero
            (mk_flowi4 (2 ^ 40 + 1) (-3) (2 ^ 20) 70000) (2 ^ 70)
            example_CONN_TYPE_UDP)).
Proof.
  apply (partial_flow_keeps_fields_in_range example_CONN_V4 example_CONN_V6
           is_ipv4_mapped_ipv6_spec conn_tuple_zero
           (mk_flowi4 (2 ^ 40 + 1) (-3) (2 ^ 20) 70000) flow6_mapped_example
           (2 ^ 70) example_CONN_TYPE_UDP).
  - unfold tuple_in_range. cbn. lia.
  - unfold example_CONN_TYPE_UDP. lia.
  - unfold example_CONN_V4. lia.
  - unfold example_CONN_V6. lia.
Defined.

(** ** IPv4-mapped flows against IPv4 flows *)

Lemma mapped_low_word_facts (a : Z) :
  0 <= a < 2 ^ 32 ->
  u64 (mapped_low_word a) = mapped_low_word a /\
  mapped_low_word a <> 0 /\
  ipv4_mapped 0 (mapped_low_word a) = true /\
  u32 (Z.shiftr (mapped_low_word a) 32) = a.
Proof.
  intros Ha.
  assert (Hdiv : mapped_low_word a / 2 ^ 32 = a).
  { unfold mapped_low_word. rewrite Z.mul_comm, Z.div_add by lia.
    change (0xFFFF0000 / 2 ^ 32) with 0. lia. }
  assert (Hmod : mapped_low_word a mod 2 ^ 32 = 0xFFFF0000).
  { unfold mapped_low_word. rewrite Z.mul_comm, Z.mod_add by lia.
    reflexivity. }
  assert (Hrange : 0 < mapped_low_word a < 2 ^ 64)
    by (unfold mapped_low_word; lia).
  split; [apply Z.mod_small; lia|].
  split; [lia|].
  split.
  - unfold ipv4_mapped, u32. rewrite Hmod. reflexivity.
  - unfold u32. rewrite Z.shiftr_div_pow2, Hdiv by lia.
    apply Z.mod_small. lia.
Qed.

Section MappedFlows.

Variables CONN_V4 CONN_V6 : Z.
Variable is_ipv4_mapped_ipv6 : Z -> Z -> Z -> Z -> bool.
Hypothesis helper_accepts :
  forall sh sl dh dl,
    ipv4_mapped sh sl = true -> ipv4_mapped dh dl = true ->
    is_ipv4_mapped_ipv6 sh sl dh dl = true.

Lemma flowi6_mapped_unfold (t : conn_tuple_t) (fl6 : flowi6)
    (pid_tgid type a b : Z) :
  0 <= a < 2 ^ 32 -> 0 <= b < 2 ^ 32 ->
  saddr_h t = 0 -> daddr_h t = 0 ->
  fl6_saddr fl6 = mk_in6_addr 0 (mapped_low_word a) ->
  fl6_daddr fl6 = mk_in6_addr 0 (mapped_low_word b) ->
  read_conn_tuple_partial_from_flowi6 CONN_V4 CONN_V6 is_ipv4_mapped_ipv6
    t fl6 pid_tgid type =
  (if (flow6_sport t fl6 =? 0) || (flow6_dport t fl6 =? 0) then 0 else 1,
   mk_conn_tuple 0 a 0 b (flow6_sport t fl6) (flow6_dport t fl6) (netns t)
     (u32 (Z.shiftr pid_tgid 32)) (Z.lor type CONN_V4)).
Proof.
  intros Ha Hb Hsh Hdh Hfs Hfd.
  destruct (mapped_low_word_facts a Ha) as (Hau & Hanz & Hamap & Hashift).
  destruct (mapped_low_word_facts b Hb) as (Hbu & Hbnz & Hbmap & Hbshift).
  assert (Hs : flow6_saddr t fl6 = (0, mapped_low_word a)).
  { unfold flow6_saddr. rewrite Hsh, addr6_or_else_unset, Hfs.
    unfold read_in6_addr. cbn [in6_h in6_l]. rewrite Hau. reflexivity. }
  assert (Hd : flow6_daddr t fl6 = (0, mapped_low_word b)).
  { unfold flow6_daddr. rewrite Hdh, addr6_or_else_unset, Hfd.
    unfold read_in6_addr. cbn [in6_h in6_l]. rewrite Hbu. reflexivity. }
  rewrite flowi6_unfold. cbv zeta. unfold flow6_mapped. rewrite Hs, Hd.
  cbn [fst snd]. rewrite (helper_accepts _ _ _ _ Hamap Hbmap).
  apply Z.eqb_neq in Hanz, Hbnz. rewrite Hanz, Hbnz. cbn [Z.eqb andb].
  rewrite Hashift, Hbshift.
  destruct ((flow6_sport t fl6 =? 0) || (flow6_dport t fl6 =? 0)); reflexivity.
Qed.

End MappedFlows.

(** X6. An IPv6 flow between the IPv4-mapped addresses [::ffff:a] and
    [::ffff:b], with a and b nonzero, resolves a tuple without addresses
    exactly as the IPv4 flow between a and b with the same ports does:
    same return value and same tuple, up to the family mark or-ed into
    the metadata. *)
Theorem flowi6_mapped_agrees_with_flowi4
    (CONN_V4 CONN_V6 : Z) (is_ipv4_mapped_ipv6 : Z -> Z -> Z -> Z -> bool)
    (Hhelper : forall sh sl dh dl,
        ipv4_mapped sh sl = true -> ipv4_mapped dh dl = true ->
        is_ipv4_mapped_ipv6 sh sl dh dl = true)
    (t : conn_tuple_t) (fl6 : flowi6) (pid_tgid type a b : Z)
    (Ha : 0 < a < 2 ^ 32) (Hb : 0 < b < 2 ^ 32)
    (Hsh : saddr_h t = 0) (Hsl : saddr_l t = 0)
    (Hdh : daddr_h t = 0) (Hdl : daddr_l t = 0)
    (Hfs : fl6_saddr fl6 = mk_in6_addr 0 (mapped_low_word a))
    (Hfd : fl6_daddr fl6 = mk_in6_addr 0 (mapped_low_word b)) :
  let r4 :=
    read_conn_tuple_partial_from_flowi4 t
      (mk_flowi4 a b (fl6_sport fl6) (fl6_dport fl6)) pid_tgid type in
  read_conn_tuple_partial_from_flowi6 CONN_V4 CONN_V6 is_ipv4_mapped_ipv6
    t fl6 pid_tgid type =
  (fst r4, set_metadata (Z.lor type CONN_V4) (snd r4)).
Proof.
  cbv zeta.
  rewrite (flowi6_mapped_unfold CONN_V4 CONN_V6 is_ipv4_mapped_ipv6 Hhelper
             t fl6 pid_tgid type a b) by (assumption || lia).
  assert (Hs4 : flow4_saddr t (mk_flowi4 a b (fl6_sport fl6) (fl6_dport fl6))
                = a).
  { unfold flow4_saddr, or_else. rewrite Hsl. cbn [Z.eqb fl4_saddr].
    apply Z.mod_small. lia. }
  assert (Hd4 : flow4_daddr t (mk_flowi4 a b (fl6_sport fl6) (fl6_dport fl6))
                = b).
  { unfold flow4_daddr, or_else. rewrite Hdl. cbn [Z.eqb fl4_daddr].
    apply Z.mod_small. lia. }
  rewrite flowi4_unfold. cbv zeta. rewrite Hs4, Hd4, Hsh, Hdh.
  destruct (Z.eqb_spec a 0); [lia|]. destruct (Z.eqb_spec b 0); [lia|].
  cbn [orb].
  change (flow4_sport t (mk_flowi4 a b (fl6_sport fl6) (fl6_dport fl6)))
    with (flow6_sport t fl6).
  change (flow4_dport t (mk_flowi4 a b (fl6_sport fl6) (fl6_dport fl6)))
    with (flow6_dport t fl6).
  destruct ((flow6_sport t fl6 =? 0) || (flow6_dport t fl6 =? 0)); reflexivity.
Qed.

Lemma flowi6_mapped_agrees_with_flowi4_witness :
  read_conn_tuple_partial_from_flowi6 example_CONN_V4 example_CONN_V6
    is_ipv4_mapped_ipv6_spec conn_tuple_zero flow6_mapped_example
    pid_tgid_example example_CONN_TYPE_UDP =
  read_conn_tuple_partial_from_flowi4 conn_tuple_zero flow4_example
    pid_tgid_example example_CONN_TYPE_UDP.
Proof.
  rewrite (flowi6_mapped_agrees_with_flowi4 example_CONN_V4 example_CONN_V6
             is_ipv4_mapped_ipv6_spec
             (fun sh sl dh dl Hs Hd =>
                eq_ind_r (fun b => b && ipv4_mapped dh dl = true)
                  (eq_ind_r (fun b => true && b = true) eq_refl Hd) Hs)
             conn_tuple_zero flow6_mapped_example pid_tgid_example
             example_CONN_TYPE_UDP ipv4_10_0_0_1 ipv4_10_0_0_2).
  - reflexivity.
  - vm_compute. split; reflexivity.
  - vm_compute. split; reflexivity.
  - reflexivity.
  - reflexivity.
  - reflexivity.
  - reflexivity.
  - reflexivity.
  - reflexivity.
Defined.

(** X7. The IPv6 resolution accepts the IPv4-mapped unspecified address:
    when the source address the tuple settles on is [::ffff:0.0.0.0], the
    destination is IPv4-mapped and both ports are known, it returns 1
    with a source address that is zero in both words. *)
Theorem flowi6_accepts_mapped_unspecified_source
    (CONN_V4 CONN_V6 : Z) (is_ipv4_mapped_ipv6 : Z -> Z -> Z -> Z -> bool)
    (Hhelper : forall sh sl dh dl,
        ipv4_mapped sh sl = true -> ipv4_mapped dh dl = true ->
        is_ipv4_mapped_ipv6 sh sl dh dl = true)
    (t : conn_tuple_t) (fl6 : flowi6) (pid_tgid type b : Z)
    (Hb : 0 <= b < 2 ^ 32)
    (Hsh : saddr_h t = 0) (Hdh : daddr_h t = 0)
    (Hfs : fl6_saddr fl6 = mk_in6_addr 0 (mapped_low_word 0))
    (Hfd : fl6_daddr fl6 = mk_in6_addr 0 (mapped_low_word b))
    (Hsp : flow6_sport t fl6 <> 0) (Hdp : flow6_dport t fl6 <> 0) :
  let r :=
    read_conn_tuple_partial_from_flowi6 CONN_V4 CONN_V6 is_ipv4_mapped_ipv6
      t fl6 pid_tgid type in
  fst r = 1 /\ saddr_h (snd r) = 0 /\ saddr_l (snd r) = 0.
Proof.
  cbv zeta.
  rewrite (flowi6_mapped_unfold CONN_V4 CONN_V6 is_ipv4_mapped_ipv6 Hhelper
             t fl6 pid_tgid type 0 b) by (assumption || lia).
  apply Z.eqb_neq in Hsp, Hdp. rewrite Hsp, Hdp. repeat split.
Qed.

Lemma flowi6_accepts_mapped_unspecified_source_witness :
  let r :=
    read_conn_tuple_partial_from_flowi6 example_CONN_V4 example_CONN_V6
      is_ipv4_mapped_ipv6_spec conn_tuple_zero
      (mk_flowi6 (mk_in6_addr 0 (mapped_low_word 0)) mapped_10_0_0_2
         (be16 5000) (be16 53))
      pid_tgid_example example_CONN_TYPE_UDP in
  fst r = 1 /\ saddr_h (snd r) = 0 /\ saddr_l (snd r) = 0.
Proof.
  apply (flowi6_accepts_mapped_unspecified_source example_CONN_V4
           example_CONN_V6 is_ipv4_mapped_ipv6_spec
           (fun sh sl dh dl Hs Hd =>
              eq_ind_r (fun b => b && ipv4_mapped dh dl = true)
                (eq_ind_r (fun b => true && b = true) eq_refl Hd) Hs)
           conn_tuple_zero
           (mk_flowi6 (mk_in6_addr 0 (mapped_low_word 0)) mapped_10_0_0_2
              (be16 5000) (be16 53))
           pid_tgid_example example_CONN_TYPE_UDP ipv4_10_0_0_2).
  - vm_compute. split; [discriminate | reflexivity].
  - reflexivity.
  - reflexivity.
  - reflexivity.
  - reflexivity.
  - vm_compute. discriminate.
  - vm_compute. discriminate.
Defined.

(** * Further properties of the entry points *)

Lemma bpf_map_update_other `{Countable K} {V : Type}
    (max_entries : nat) (m : gmap K V) (k k' : K) (v : V) :
  k <> k' -> bpf_map_update_elem max_entries m k v !! k' = m !! k'.
Proof.
  intros Hne. unfold bpf_map_update_elem.
  destruct (m !! k); [apply lookup_insert_ne; assumption|].
  destruct (size m <? max_entries)%nat;
    [apply lookup_insert_ne; assumption | reflexivity].
Qed.

Lemma bpf_map_update_full `{Countable K} {V : Type}
    (max_entries : nat) (m : gmap K V) (k : K) (v : V) :
  m !! k = None -> (size m <? max_entries)%nat = false ->
  bpf_map_update_elem max_entries m k v = m.
Proof.
  intros Hnew Hfull. unfold bpf_map_update_elem. rewrite Hnew, Hfull.
  reflexivity.
Qed.

(** ** UDP send: from staging to completion *)

Section UdpSendRoundTrip.

Variables CONN_TYPE_UDP CONN_V4 CONN_V6 : Z.
Variable is_ipv4_mapped_ipv6 : Z -> Z -> Z -> Z -> bool.
Variable read_conn_tuple : conn_tuple_t -> Z -> Z -> Z -> Z * conn_tuple_t.

Lemma udp_send_skb_unfold (pid_tgid : Z) (skb : sk_buff) (fl4 : flowi4)
    (t0 : conn_tuple_t) (st : tracer_state) :
  kprobe__udp_send_skb CONN_TYPE_UDP read_conn_tuple pid_tgid skb fl4 t0 st =
  let r :=
    udp_send_resolution4 read_conn_tuple CONN_TYPE_UDP pid_tgid skb fl4 t0 in
  let st := emit (ReadConnTuple (skb_sk skb) pid_tgid CONN_TYPE_UDP) st in
  if fst r =? 0 then increment_udp_send_missed st
  else
    set_udp_send_skb_args
      (bpf_map_update_elem udp_send_skb_args_entries (udp_send_skb_args st)
         pid_tgid (snd r)) st.
Proof. reflexivity. Qed.

Lemma udp_v6_send_skb_unfold (pid_tgid : Z) (skb : sk_buff) (fl6 : flowi6)
    (t0 : conn_tuple_t) (st : tracer_state) :
  kprobe__udp_v6_send_skb CONN_TYPE_UDP CONN_V4 CONN_V6 is_ipv4_mapped_ipv6
    read_conn_tuple pid_tgid skb fl6 t0 st =
  let r :=
    udp_send_resolution6 read_conn_tuple CONN_TYPE_UDP CONN_V4 CONN_V6
      is_ipv4_mapped_ipv6 pid_tgid skb fl6 t0 in
  let st := emit (ReadConnTuple (skb_sk skb) pid_tgid CONN_TYPE_UDP) st in
  if fst r =? 0 then increment_udp_send_missed st
  else
    set_udp_send_skb_args
      (bpf_map_update_elem udp_send_skb_args_entries (udp_send_skb_args st)
         pid_tgid (snd r)) st.
Proof. reflexivity. Qed.

(** Completion after a staging step that stored tuple [t]. *)
Lemma udp_send_exit_after_stage (pid_tgid sk sent : Z) (t : conn_tuple_t)
    (c : call) (st : tracer_state) :
  0 < sent ->
  handle_udp_send pid_tgid sk sent
    (set_udp_send_skb_args (<[pid_tgid := t]> (udp_send_skb_args st))
       (emit c st)) =
  set_udp_send_skb_args (delete pid_tgid (udp_send_skb_args st))
    (emit (HandleMessage t sent 0 CONN_DIRECTION_UNKNOWN 1 0 PACKET_COUNT_NONE
             sk) (emit c st)).
Proof.
  intros Hsent. unfold handle_udp_send.
  cbn [udp_send_skb_args set_udp_send_skb_args emit].
  rewrite lookup_insert_eq.
  destruct (Z.ltb_spec 0 sent); [|lia].
  cbn [udp_send_skb_args set_udp_send_skb_args emit].
  rewrite delete_insert_eq. reflexivity.
Qed.

End UdpSendRoundTrip.

(** X8. A UDP send staged by [kprobe__udp_send_skb] or
    [kprobe__udp_v6_send_skb] (the tuple resolves from the socket or from
    the flow, the table has room for the thread) and completed by
    [udp_sendmsg_exit] with a positive byte count forwards exactly one
    send observation, carrying the staged tuple, the byte count and the
    socket of the completion, and leaves the pending-send table without
    an entry for the thread; the miss counter does not move. *)
Theorem udp_send_stage_then_exit
    (CONN_TYPE_UDP CONN_V4 CONN_V6 : Z)
    (is_ipv4_mapped_ipv6 : Z -> Z -> Z -> Z -> bool)
    (read_conn_tuple : conn_tuple_t -> Z -> Z -> Z -> Z * conn_tuple_t)
    (st : tracer_state) (pid_tgid sk sent : Z) (skb : sk_buff)
    (fl4 : flowi4) (fl6 : flowi6) (t0 : conn_tuple_t)
    (Hroom : has_room udp_send_skb_args_entries (udp_send_skb_args st) pid_tgid)
    (Hsent : 0 < sent) :
  let r4 :=
    udp_send_resolution4 read_conn_tuple CONN_TYPE_UDP pid_tgid skb fl4 t0 in
  let r6 :=
    udp_send_resolution6 read_conn_tuple CONN_TYPE_UDP CONN_V4 CONN_V6
      is_ipv4_mapped_ipv6 pid_tgid skb fl6 t0 in
  (fst r4 <> 0 ->
   udp_sendmsg_exit pid_tgid sk sent
     (kprobe__udp_send_skb CONN_TYPE_UDP read_conn_tuple pid_tgid skb fl4 t0
        st) =
   set_udp_send_skb_args (delete pid_tgid (udp_send_skb_args st))
     (emit (HandleMessage (snd r4) sent 0 CONN_DIRECTION_UNKNOWN 1 0
              PACKET_COUNT_NONE sk)
        (emit (ReadConnTuple (skb_sk skb) pid_tgid CONN_TYPE_UDP) st))) /\
  (fst r6 <> 0 ->
   udpv6_sendmsg_exit pid_tgid sk sent
     (kprobe__udp_v6_send_skb CONN_TYPE_UDP CONN_V4 CONN_V6
        is_ipv4_mapped_ipv6 read_conn_tuple pid_tgid skb fl6 t0 st) =
   set_udp_send_skb_args (delete pid_tgid (udp_send_skb_args st))
     (emit (HandleMessage (snd r6) sent 0 CONN_DIRECTION_UNKNOWN 1 0
              PACKET_COUNT_NONE sk)
        (emit (ReadConnTuple (skb_sk skb) pid_tgid CONN_TYPE_UDP) st))).
Proof.
  cbv zeta. split; intros Hok; apply Z.eqb_neq in Hok.
  - rewrite udp_send_skb_unfold. cbv zeta. rewrite Hok.
    cbn [udp_send_skb_args emit].
    rewrite bpf_map_update_room by assumption.
    unfold udp_sendmsg_exit. apply udp_send_exit_after_stage. exact Hsent.
  - rewrite udp_v6_send_skb_unfold. cbv zeta. rewrite Hok.
    cbn [udp_send_skb_args emit].
    rewrite bpf_map_update_room by assumption.
    unfold udpv6_sendmsg_exit. apply udp_send_exit_after_stage. exact Hsent.
Qed.

(** A send of 200 bytes on a socket the resolver does not know, staged
    from the flow descriptor. *)
Lemma udp_send_stage_then_exit_witness :
  calls
    (udp_sendmsg_exit pid_tgid_example 2 200
       (kprobe__udp_send_skb example_CONN_TYPE_UDP example_read_conn_tuple
          pid_tgid_example (mk_sk_buff 2) flow4_example conn_tuple_zero
          initial_state)) =
  ReadConnTuple 2 pid_tgid_example example_CONN_TYPE_UDP ::
  HandleMessage staged_tuple 200 0 CONN_DIRECTION_UNKNOWN 1 0
    PACKET_COUNT_NONE 2 :: nil.
Proof.
  destruct (udp_send_stage_then_exit example_CONN_TYPE_UDP example_CONN_V4
              example_CONN_V6 is_ipv4_mapped_ipv6_spec example_read_conn_tuple
              initial_state pid_tgid_example 2 200 (mk_sk_buff 2)
              flow4_example flow6_mapped_example conn_tuple_zero)
    as (H4 & _).
  - right. cbn. rewrite map_size_empty. unfold udp_send_skb_args_entries. lia.
  - reflexivity.
  - rewrite H4 by (vm_compute; discriminate). reflexivity.
Defined.

(** X9. Staging is last-writer-wins: when a thread stages a second UDP
    send before the first completes, the second tuple replaces the first
    (an existing key is always updated), and the completion forwards one
    observation, with the second tuple. *)
Theorem udp_send_restage_replaces
    (CONN_TYPE_UDP : Z)
    (read_conn_tuple : conn_tuple_t -> Z -> Z -> Z -> Z * conn_tuple_t)
    (st : tracer_state) (pid_tgid sk sent : Z) (skb1 skb2 : sk_buff)
    (fl1 fl2 : flowi4) (t1 t2 : conn_tuple_t)
    (Hroom : has_room udp_send_skb_args_entries (udp_send_skb_args st) pid_tgid)
    (Hsent : 0 < sent)
    (Hok1 : fst (udp_send_resolution4 read_conn_tuple CONN_TYPE_UDP pid_tgid
                   skb1 fl1 t1) <> 0)
    (Hok2 : fst (udp_send_resolution4 read_conn_tuple CONN_TYPE_UDP pid_tgid
                   skb2 fl2 t2) <> 0) :
  let staged :=
    kprobe__udp_send_skb CONN_TYPE_UDP read_conn_tuple pid_tgid skb2 fl2 t2
      (kprobe__udp_send_skb CONN_TYPE_UDP read_conn_tuple pid_tgid skb1 fl1 t1
         st) in
  udp_send_skb_args staged !! pid_tgid =
    Some (snd (udp_send_resolution4 read_conn_tuple CONN_TYPE_UDP pid_tgid
                 skb2 fl2 t2)) /\
  calls (udp_sendmsg_exit pid_tgid sk sent staged) =
    calls st ++
    ReadConnTuple (skb_sk skb1) pid_tgid CONN_TYPE_UDP ::
    ReadConnTuple (skb_sk skb2) pid_tgid CONN_TYPE_UDP ::
    HandleMessage
      (snd (udp_send_resolution4 read_conn_tuple CONN_TYPE_UDP pid_tgid skb2
              fl2 t2))
      sent 0 CONN_DIRECTION_UNKNOWN 1 0 PACKET_COUNT_NONE sk :: nil /\
  udp_send_skb_args (udp_sendmsg_exit pid_tgid sk sent staged) !! pid_tgid
    = None.
Proof.
  cbv zeta. apply Z.eqb_neq in Hok1, Hok2.
  rewrite !udp_send_skb_unfold. cbv zeta. rewrite Hok1, Hok2.
  cbn [udp_send_skb_args set_udp_send_skb_args emit calls].
  rewrite (bpf_map_update_room _ (udp_send_skb_args st)) by assumption.
  rewrite bpf_map_update_room
    by (left; rewrite lookup_insert_eq; eexists; reflexivity).
  split; [apply lookup_insert_eq|].
  unfold udp_sendmsg_exit, handle_udp_send.
  cbn [udp_send_skb_args set_udp_send_skb_args emit calls].
  rewrite lookup_insert_eq.
  destruct (Z.ltb_spec 0 sent); [|lia].
  cbn [udp_send_skb_args set_udp_send_skb_args emit calls].
  split; [|apply lookup_delete_eq].
  rewrite <- !app_assoc. reflexivity.
Qed.

Lemma udp_send_restage_replaces_witness :
  let staged :=
    kprobe__udp_send_skb example_CONN_TYPE_UDP example_read_conn_tuple
      pid_tgid_example (mk_sk_buff 2) flow4_example conn_tuple_zero
      (kprobe__udp_send_skb example_CONN_TYPE_UDP example_read_conn_tuple
         pid_tgid_example (mk_sk_buff 1) flow4_example conn_tuple_zero
         initial_state) in
  udp_send_skb_args staged !! pid_tgid_example = Some staged_tuple.
Proof.
  cbv zeta.
  destruct (udp_send_restage_replaces example_CONN_TYPE_UDP
              example_read_conn_tuple initial_state pid_tgid_example 2 200
              (mk_sk_buff 1) (mk_sk_buff 2) flow4_example flow4_example
              conn_tuple_zero conn_tuple_zero) as (Hstaged & _).
  - right. cbn. rewrite map_size_empty. unfold udp_send_skb_args_entries. lia.
  - reflexivity.
  - vm_compute. discriminate.
  - vm_compute. discriminate.
  - exact Hstaged.
Defined.

(** X10. When the pending-send table is full and the thread has no entry,
    a send whose tuple resolves is not staged and nothing records the
    loss: the staging hook leaves the table and the miss counter as they
    were, and the completion then forwards nothing. *)
Theorem udp_send_full_table_drops_silently
    (CONN_TYPE_UDP : Z)
    (read_conn_tuple : conn_tuple_t -> Z -> Z -> Z -> Z * conn_tuple_t)
    (st : tracer_state) (pid_tgid sk sent : Z) (skb : sk_buff)
    (fl4 : flowi4) (t0 : conn_tuple_t)
    (Hnew : udp_send_skb_args st !! pid_tgid = None)
    (Hfull : (size (udp_send_skb_args st) <? udp_send_skb_args_entries)%nat
             = false)
    (Hok : fst (udp_send_resolution4 read_conn_tuple CONN_TYPE_UDP pid_tgid
                  skb fl4 t0) <> 0) :
  let staged :=
    kprobe__udp_send_skb CONN_TYPE_UDP read_conn_tuple pid_tgid skb fl4 t0
      st in
  staged = emit (ReadConnTuple (skb_sk skb) pid_tgid CONN_TYPE_UDP) st /\
  udp_send_missed staged = udp_send_missed st /\
  udp_sendmsg_exit pid_tgid sk sent staged = staged.
Proof.
  cbv zeta. apply Z.eqb_neq in Hok.
  rewrite udp_send_skb_unfold. cbv zeta. rewrite Hok.
  cbn [udp_send_skb_args emit].
  rewrite bpf_map_update_full by assumption.
  assert (Hsame :
    set_udp_send_skb_args (udp_send_skb_args st)
      (emit (ReadConnTuple (skb_sk skb) pid_tgid CONN_TYPE_UDP) st) =
    emit (ReadConnTuple (skb_sk skb) pid_tgid CONN_TYPE_UDP) st)
    by (destruct st; reflexivity).
  rewrite Hsame. split; [reflexivity|]. split; [reflexivity|].
  unfold udp_sendmsg_exit. apply handle_udp_send_miss. exact Hnew.
Qed.

(** Thread 5000 sends while threads 0 to 1023 hold every slot. *)
Lemma udp_send_full_table_drops_silently_witness :
  let staged :=
    kprobe__udp_send_skb example_CONN_TYPE_UDP example_read_conn_tuple 5000
      (mk_sk_buff 1) flow4_example conn_tuple_zero state_with_full_send_table in
  udp_send_missed staged = 0 /\
  udp_sendmsg_exit 5000 1 200 staged = staged.
Proof.
  cbv zeta.
  destruct (udp_send_full_table_drops_silently example_CONN_TYPE_UDP
              example_read_conn_tuple state_with_full_send_table 5000 1 200
              (mk_sk_buff 1) flow4_example conn_tuple_zero)
    as (_ & Hcount & Hexit).
  - vm_compute. reflexivity.
  - vm_compute. reflexivity.
  - vm_compute. discriminate.
  - split; [exact Hcount | exact Hexit].
Defined.

(** ** Zero-byte transfers *)

(** X11. Zero bytes are treated differently on the three data paths. A
    UDP send that completes with zero bytes or an error consumes the
    staged tuple and forwards nothing; a UDP receive of zero bytes (not a
    peek) and a TCP send of zero bytes are forwarded like any other, once
    their tuple resolves. *)
Theorem zero_byte_transfers
    (CONN_TYPE_UDP CONN_TYPE_TCP : Z)
    (read_conn_tuple read_conn_tuple_partial :
       conn_tuple_t -> Z -> Z -> Z -> Z * conn_tuple_t)
    (get_tcp_segment_counts : Z -> Z * Z)
    (sockaddr_to_addr : sockaddr -> conn_tuple_t -> conn_tuple_t)
    (st : tracer_state) (pid_tgid sk sent flags : Z) (t : conn_tuple_t)
    (Hstaged : udp_send_skb_args st !! pid_tgid = Some t)
    (Hsent : sent <= 0)
    (Hflags : Z.land flags MSG_PEEK = 0)
    (Hudp : fst (read_conn_tuple_partial conn_tuple_zero sk pid_tgid
                   CONN_TYPE_UDP) <> 0)
    (Htcp : fst (read_conn_tuple conn_tuple_zero sk pid_tgid CONN_TYPE_TCP)
            <> 0) :
  udp_sendmsg_exit pid_tgid sk sent st =
    set_udp_send_skb_args (delete pid_tgid (udp_send_skb_args st)) st /\
  calls (udp_recvmsg_exit CONN_TYPE_UDP read_conn_tuple_partial
           sockaddr_to_addr pid_tgid sk None flags 0 st) =
    calls st ++
    ReadConnTuplePartial conn_tuple_zero sk pid_tgid CONN_TYPE_UDP ::
    HandleMessage
      (snd (read_conn_tuple_partial conn_tuple_zero sk pid_tgid CONN_TYPE_UDP))
      0 0 CONN_DIRECTION_UNKNOWN 0 1 PACKET_COUNT_NONE sk :: nil /\
  calls (tcp_sendmsg_exit CONN_TYPE_TCP read_conn_tuple get_tcp_segment_counts
           pid_tgid sk 0 st) =
    calls st ++
    ReadConnTuple sk pid_tgid CONN_TYPE_TCP ::
    HandleTcpStats
      (snd (read_conn_tuple conn_tuple_zero sk pid_tgid CONN_TYPE_TCP)) sk 0 ::
    HandleMessage
      (snd (read_conn_tuple conn_tuple_zero sk pid_tgid CONN_TYPE_TCP))
      0 0 CONN_DIRECTION_UNKNOWN (snd (get_tcp_segment_counts sk))
      (fst (get_tcp_segment_counts sk)) PACKET_COUNT_ABSOLUTE sk :: nil.
Proof.
  apply Z.eqb_neq in Hudp, Htcp. split; [|split].
  - unfold udp_sendmsg_exit, handle_udp_send. rewrite Hstaged.
    destruct (Z.ltb_spec 0 sent); [lia | reflexivity].
  - unfold udp_recvmsg_exit, handle_ret_udp_recvmsg.
    rewrite Hflags. cbn [Z.ltb Z.compare Z.eqb negb].
    rewrite Hudp. cbn [calls emit]. rewrite <- app_assoc. reflexivity.
  - unfold tcp_sendmsg_exit. cbn [Z.ltb Z.compare]. rewrite Htcp.
    cbn [calls emit]. rewrite <- !app_assoc. reflexivity.
Qed.

Lemma zero_byte_transfers_witness :
  udp_send_skb_args
    (udp_sendmsg_exit pid_tgid_example 1 0 state_with_staged_send)
    !! pid_tgid_example = None /\
  calls (udp_sendmsg_exit pid_tgid_example 1 0 state_with_staged_send) = nil.
Proof.
  destruct (zero_byte_transfers example_CONN_TYPE_UDP example_CONN_TYPE_TCP
              example_read_conn_tuple example_read_conn_tuple
              example_get_tcp_segment_counts example_sockaddr_to_addr
              state_with_staged_send pid_tgid_example 1 0 0 staged_tuple)
    as (Hsend & _).
  - reflexivity.
  - lia.
  - reflexivity.
  - vm_compute. discriminate.
  - vm_compute. discriminate.
  - rewrite Hsend. split; reflexivity.
Defined.

(** ** Active opens *)

Lemma tcp_finish_connect_staged
    (CONN_TYPE_TCP : Z)
    (read_conn_tuple : conn_tuple_t -> Z -> Z -> Z -> Z * conn_tuple_t)
    (st : tracer_state) (pid_tgid sk : Z) :
  tcp_finish_connect CONN_TYPE_TCP read_conn_tuple sk
    (set_tcp_ongoing_connect_pid
       (<[sk := pid_tgid]> (tcp_ongoing_connect_pid st)) st) =
  let r := read_conn_tuple conn_tuple_zero sk pid_tgid CONN_TYPE_TCP in
  let st1 :=
    emit (ReadConnTuple sk pid_tgid CONN_TYPE_TCP)
      (set_tcp_ongoing_connect_pid (delete sk (tcp_ongoing_connect_pid st))
         st) in
  if fst r =? 0 then st1
  else
    emit (HandleMessage (snd r) 0 0 CONN_DIRECTION_OUTGOING 0 0
            PACKET_COUNT_NONE sk)
      (emit (HandleTcpStats (snd r) sk TCP_ESTABLISHED) st1).
Proof.
  unfold tcp_finish_connect.
  cbn [tcp_ongoing_connect_pid set_tcp_ongoing_connect_pid emit].
  rewrite lookup_insert_eq, delete_insert_eq. reflexivity.
Qed.

(** X12. An active open is bridged from [tcp_connect] to
    [tcp_finish_connect] through the socket: the completion resolves the
    tuple with the thread identity that [tcp_connect] stored (the
    callback's own context plays no part), forwards the established state
    and a zero-byte outgoing observation when the tuple resolves, and
    removes the mapping either way, so that a second completion on the
    socket does nothing. *)
Theorem tcp_connect_then_finish
    (CONN_TYPE_TCP : Z) (tcp_ongoing_connect_pid_entries : nat)
    (read_conn_tuple : conn_tuple_t -> Z -> Z -> Z -> Z * conn_tuple_t)
    (st : tracer_state) (pid_tgid sk : Z)
    (Hroom : has_room tcp_ongoing_connect_pid_entries
               (tcp_ongoing_connect_pid st) sk) :
  let r := read_conn_tuple conn_tuple_zero sk pid_tgid CONN_TYPE_TCP in
  let st' :=
    tcp_finish_connect CONN_TYPE_TCP read_conn_tuple sk
      (tcp_connect tcp_ongoing_connect_pid_entries pid_tgid sk st) in
  tcp_ongoing_connect_pid st' = delete sk (tcp_ongoing_connect_pid st) /\
  calls st' =
    calls st ++
    ReadConnTuple sk pid_tgid CONN_TYPE_TCP ::
    (if fst r =? 0 then nil
     else HandleTcpStats (snd r) sk TCP_ESTABLISHED ::
          HandleMessage (snd r) 0 0 CONN_DIRECTION_OUTGOING 0 0
            PACKET_COUNT_NONE sk :: nil) /\
  tcp_finish_connect CONN_TYPE_TCP read_conn_tuple sk st' = st'.
Proof.
  cbv zeta. unfold tcp_connect, bpf_map_update_with_telemetry.
  rewrite bpf_map_update_room by assumption.
  rewrite tcp_finish_connect_staged. cbv zeta.
  destruct (fst (read_conn_tuple conn_tuple_zero sk pid_tgid CONN_TYPE_TCP) =? 0);
    cbn [tcp_ongoing_connect_pid set_tcp_ongoing_connect_pid emit calls];
    (split; [reflexivity|]);
    (split; [rewrite <- ?app_assoc; reflexivity|]);
    unfold tcp_finish_connect;
    cbn [tcp_ongoing_connect_pid set_tcp_ongoing_connect_pid emit calls];
    rewrite lookup_delete_eq; reflexivity.
Qed.

Lemma tcp_connect_then_finish_witness :
  calls
    (tcp_finish_connect example_CONN_TYPE_TCP example_read_conn_tuple 1
       (tcp_connect 16 pid_tgid_example 1 initial_state)) =
  ReadConnTuple 1 pid_tgid_example example_CONN_TYPE_TCP ::
  HandleTcpStats
    (mk_conn_tuple 0 ipv4_10_0_0_1 0 ipv4_10_0_0_2 5000 80 7 100
       example_CONN_TYPE_TCP) 1 TCP_ESTABLISHED ::
  HandleMessage
    (mk_conn_tuple 0 ipv4_10_0_0_1 0 ipv4_10_0_0_2 5000 80 7 100
       example_CONN_TYPE_TCP) 0 0 CONN_DIRECTION_OUTGOING 0 0
    PACKET_COUNT_NONE 1 :: nil.
Proof.
  destruct (tcp_connect_then_finish example_CONN_TYPE_TCP 16
              example_read_conn_tuple initial_state pid_tgid_example 1)
    as (_ & Hcalls & _).
  - right. cbn. rewrite map_size_empty. lia.
  - rewrite Hcalls. reflexivity.
Defined.

(** X13. A handshake completion that arrives after the socket was closed
    is ignored: [tcp_close] has removed the mapping [tcp_connect] stored,
    so [tcp_finish_connect] leaves the state as the close left it. Without
    a mapping for the socket the completion never does anything. *)
Theorem tcp_finish_connect_after_close
    (CONN_TYPE_TCP : Z)
    (read_conn_tuple : conn_tuple_t -> Z -> Z -> Z -> Z * conn_tuple_t)
    (st : tracer_state) (pid_tgid sk : Z) :
  tcp_finish_connect CONN_TYPE_TCP read_conn_tuple sk
    (tcp_close CONN_TYPE_TCP read_conn_tuple pid_tgid sk st) =
  tcp_close CONN_TYPE_TCP read_conn_tuple pid_tgid sk st /\
  (tcp_ongoing_connect_pid st !! sk = None ->
   tcp_finish_connect CONN_TYPE_TCP read_conn_tuple sk st = st).
Proof.
  split.
  - assert (Hgone : tcp_ongoing_connect_pid
                      (tcp_close CONN_TYPE_TCP read_conn_tuple pid_tgid sk st)
                      !! sk = None).
    { unfold tcp_close.
      set (st1 := set_tcp_ongoing_connect_pid _ st).
      destruct (clear_sockfd_maps_cleared sk st1) as (_ & _ & Hongoing & _).
      destruct (fst (read_conn_tuple conn_tuple_zero sk pid_tgid CONN_TYPE_TCP)
                =? 0);
        cbn [tcp_ongoing_connect_pid emit]; rewrite Hongoing;
        apply lookup_delete_eq. }
    unfold tcp_finish_connect at 1. rewrite Hgone. reflexivity.
  - intros Hnone. unfold tcp_finish_connect. rewrite Hnone. reflexivity.
Qed.

Lemma tcp_finish_connect_after_close_witness :
  calls
    (tcp_finish_connect example_CONN_TYPE_TCP example_read_conn_tuple 1
       (tcp_close example_CONN_TYPE_TCP example_read_conn_tuple
          pid_tgid_example 1
          (tcp_connect 16 pid_tgid_example 1 initial_state))) =
  calls
    (tcp_close example_CONN_TYPE_TCP example_read_conn_tuple pid_tgid_example 1
       (tcp_connect 16 pid_tgid_example 1 initial_state)).
Proof.
  destruct (tcp_finish_connect_after_close example_CONN_TYPE_TCP
              example_read_conn_tuple
              (tcp_connect 16 pid_tgid_example 1 initial_state)
              pid_tgid_example 1) as (Hsame & _).
  rewrite Hsame. reflexivity.
Defined.

(** ** Listening ports *)

(** X14. A passive open binds its listening port, and a listen-stop
    releases it by namespace and port. When [inet_csk_accept_exit] is
    handed no socket, or the tuple of the accepted socket does not
    resolve, no port is bound. Otherwise a zero-byte incoming observation
    is forwarded and the pair (namespace, source port) of the tuple is
    handed to the TCP binding set, which holds at most
    [port_bindings_entries] pairs: the pair is in the set afterwards when
    it was there already or the set has room, and the set stays as it was
    when the pair is new and the set is full. A later
    [inet_csk_listen_stop_enter] on a socket with that port and that
    namespace removes the pair; on a socket in another namespace it
    leaves a recorded pair in place. Neither touches the UDP binding
    set. *)
Theorem accept_binds_and_listen_stop_releases
    (port_bindings_entries : nat) (CONN_TYPE_TCP : Z)
    (read_conn_tuple : conn_tuple_t -> Z -> Z -> Z -> Z * conn_tuple_t)
    (read_sport get_netns_from_sock : Z -> Z)
    (st : tracer_state) (pid_tgid sk lsk : Z) :
  let r := read_conn_tuple conn_tuple_zero sk pid_tgid CONN_TYPE_TCP in
  let pb := mk_port_binding (netns (snd r)) (sport (snd r)) in
  let st1 :=
    inet_csk_accept_exit port_bindings_entries CONN_TYPE_TCP read_conn_tuple
      pid_tgid sk st in
  let st2 := inet_csk_listen_stop_enter read_sport get_netns_from_sock lsk st1 in
  (sk = 0 -> st1 = st) /\
  (fst r = 0 -> port_bindings st1 = port_bindings st) /\
  udp_port_bindings st2 = udp_port_bindings st /\
  (sk <> 0 -> fst r <> 0 ->
   (pb ∈ port_bindings st \/
    (size (port_bindings st) < port_bindings_entries)%nat ->
    pb ∈ port_bindings st1) /\
   (pb ∉ port_bindings st ->
    (port_bindings_entries <= size (port_bindings st))%nat ->
    port_bindings st1 = port_bindings st) /\
   calls st1 =
     calls st ++
     ReadConnTuple sk pid_tgid CONN_TYPE_TCP ::
     HandleTcpStats (snd r) sk TCP_ESTABLISHED ::
     HandleMessage (snd r) 0 0 CONN_DIRECTION_INCOMING 0 0 PACKET_COUNT_NONE sk
     :: nil /\
   (u16 (read_sport lsk) = sport (snd r) -> sport (snd r) <> 0 ->
    u32 (get_netns_from_sock lsk) = netns (snd r) ->
    pb ∉ port_bindings st2) /\
   (u32 (get_netns_from_sock lsk) <> netns (snd r) ->
    pb ∈ port_bindings st1 -> pb ∈ port_bindings st2)).
Proof.
  cbv zeta. unfold inet_csk_accept_exit, inet_csk_listen_stop_enter,
    remove_port_bind.
  destruct (Z.eqb_spec sk 0) as [Hnull | Hsk].
  - split; [reflexivity|]. split; [reflexivity|].
    split; [|intros; contradiction].
    destruct (u16 (read_sport lsk) =? 0); reflexivity.
  - split; [intros; contradiction|].
    destruct (Z.eqb_spec
                (fst (read_conn_tuple conn_tuple_zero sk pid_tgid CONN_TYPE_TCP))
                0) as [Hfail | Hok].
    + split; [reflexivity|]. split; [|intros; contradiction].
      destruct (u16 (read_sport lsk) =? 0); reflexivity.
    + split; [intros; contradiction|].
      split; [destruct (u16 (read_sport lsk) =? 0); reflexivity|].
      intros _ _.
      cbn [port_bindings set_port_bindings emit calls].
      split.
      { intros Hroom. rewrite (add_port_bind_room _ _ _ Hroom).
        apply elem_of_union_l, elem_of_singleton. reflexivity. }
      split.
      { intros Hnew Hfull. apply add_port_bind_full; assumption. }
      split; [rewrite <- !app_assoc; reflexivity|].
      split.
      * intros Hport Hnz Hns. apply Z.eqb_neq in Hnz.
        rewrite Hport, Hnz, Hns.
        cbn [port_bindings set_port_bindings].
        rewrite elem_of_difference, elem_of_singleton.
        intros [_ Hne]. apply Hne. reflexivity.
      * intros Hns Hin.
        destruct (u16 (read_sport lsk) =? 0);
          cbn [port_bindings set_port_bindings emit]; [exact Hin|].
        apply elem_of_difference. split; [exact Hin|].
        rewrite elem_of_singleton. intros Heq.
        apply (f_equal pb_netns) in Heq. cbn [pb_netns] in Heq. congruence.
Qed.

Lemma accept_binds_and_listen_stop_releases_witness :
  mk_port_binding 7 5000 ∈
    port_bindings
      (inet_csk_accept_exit 16 example_CONN_TYPE_TCP example_read_conn_tuple
         pid_tgid_example 1 initial_state) /\
  mk_port_binding 7 5000 ∉
    port_bindings
      (inet_csk_listen_stop_enter example_read_sport (fun _ => 7) 1
         (inet_csk_accept_exit 16 example_CONN_TYPE_TCP
            example_read_conn_tuple pid_tgid_example 1 initial_state)).
Proof.
  destruct (accept_binds_and_listen_stop_releases 16 example_CONN_TYPE_TCP
              example_read_conn_tuple example_read_sport (fun _ => 7)
              initial_state pid_tgid_example 1 1) as (_ & _ & _ & Hbound).
  destruct Hbound as (Hin & _ & _ & Hout & _).
  - discriminate.
  - vm_compute. discriminate.
  - split.
    + apply Hin. right. cbn [port_bindings initial_state].
      rewrite size_empty. lia.
    + apply Hout.
      * reflexivity.
      * vm_compute. discriminate.
      * reflexivity.
Defined.

(** ** UDP ports *)

Lemma udp_destroy_sock_unfold
    (CONN_TYPE_UDP : Z)
    (read_conn_tuple : conn_tuple_t -> Z -> Z -> Z -> Z * conn_tuple_t)
    (read_sport : Z -> Z) (pid_tgid sk : Z) (st : tracer_state) :
  let lport :=
    destroyed_port read_conn_tuple read_sport CONN_TYPE_UDP pid_tgid sk in
  exists st' : tracer_state,
    udp_destroy_sock CONN_TYPE_UDP read_conn_tuple read_sport pid_tgid sk st =
    (if lport =? 0 then st'
     else
       set_udp_port_bindings
         (remove_port_bind (mk_port_binding 0 lport) (udp_port_bindings st'))
         st') /\
    port_bindings st' = port_bindings st /\
    udp_port_bindings st' = udp_port_bindings st.
Proof.
  cbv zeta. unfold udp_destroy_sock, destroyed_port.
  destruct (fst (read_conn_tuple conn_tuple_zero sk pid_tgid CONN_TYPE_UDP)
            =? 0); cbn [negb fst snd]; eexists; repeat split.
Qed.

(** X15. A UDP port recorded at bind is released at destroy whatever the
    namespace, both sides using namespace 0: after [inet_bind_exit] has
    recorded port p for a datagram socket, [udp_destroy_sock] on a socket
    whose port (the source port of its tuple, or the port read off the
    socket when the tuple does not resolve) is p leaves no binding for p.
    A destroy that finds port 0 releases nothing. Neither touches the TCP
    binding set. *)
Theorem udp_bind_then_destroy
    (udp_port_bindings_entries : nat) (CONN_TYPE_UDP : Z)
    (read_conn_tuple : conn_tuple_t -> Z -> Z -> Z -> Z * conn_tuple_t)
    (read_sport : Z -> Z)
    (st : tracer_state) (sock : socket) (a : sockaddr) (pid_tgid sk : Z)
    (Hdgram : Z.land (u16 (socket_type sock)) SOCK_DGRAM <> 0) :
  let p := bind_port a (read_sport (socket_sk sock)) in
  let lport :=
    destroyed_port read_conn_tuple read_sport CONN_TYPE_UDP pid_tgid sk in
  let st1 :=
    inet_bind_exit udp_port_bindings_entries read_sport sock (Some a) 0 st in
  let st2 := udp_destroy_sock CONN_TYPE_UDP read_conn_tuple read_sport
               pid_tgid sk st1 in
  port_bindings st2 = port_bindings st /\
  (lport = 0 -> udp_port_bindings st2 = udp_port_bindings st1) /\
  (p <> 0 -> lport = p -> mk_port_binding 0 p ∉ udp_port_bindings st2) /\
  (forall q, q <> lport ->
     mk_port_binding 0 q ∈ udp_port_bindings st1 ->
     mk_port_binding 0 q ∈ udp_port_bindings st2).
Proof.
  cbv zeta.
  destruct (udp_destroy_sock_unfold CONN_TYPE_UDP read_conn_tuple read_sport
              pid_tgid sk
              (inet_bind_exit udp_port_bindings_entries read_sport sock
                 (Some a) 0 st))
    as (st' & Hst2 & Htcp & Hudp).
  rewrite Hst2. clear Hst2.
  set (lport := destroyed_port read_conn_tuple read_sport CONN_TYPE_UDP
                  pid_tgid sk) in *.
  assert (Hbind : port_bindings
                    (inet_bind_exit udp_port_bindings_entries read_sport sock
                       (Some a) 0 st)
                  = port_bindings st).
  { unfold inet_bind_exit. rewrite sys_exit_bind_unfold by assumption.
    cbv zeta. destruct (_ =? 0); reflexivity. }
  destruct (Z.eqb_spec lport 0) as [Hz | Hnz];
    cbn [port_bindings udp_port_bindings set_udp_port_bindings];
    rewrite ?Htcp, ?Hudp, ?Hbind.
  - split; [reflexivity|]. split; [reflexivity|].
    split; [intros Hp Heq; congruence|]. intros q _ Hin. exact Hin.
  - split; [reflexivity|]. split; [intros; contradiction|].
    unfold remove_port_bind. split.
    + intros _ Heq. rewrite Heq.
      rewrite elem_of_difference, elem_of_singleton.
      intros [_ Hne]. apply Hne. reflexivity.
    + intros q Hq Hin. apply elem_of_difference. split; [exact Hin|].
      rewrite elem_of_singleton. intros Heq.
      apply (f_equal pb_port) in Heq. cbn [pb_port] in Heq. congruence.
Qed.

Lemma udp_bind_then_destroy_witness :
  mk_port_binding 0 5000 ∈
    udp_port_bindings
      (inet_bind_exit 16 example_read_sport (udp_socket 1)
         (Some (sockaddr_in_any 5000)) 0 initial_state) /\
  mk_port_binding 0 5000 ∉
    udp_port_bindings
      (udp_destroy_sock example_CONN_TYPE_UDP example_read_conn_tuple
         example_read_sport pid_tgid_example 1
         (inet_bind_exit 16 example_read_sport (udp_socket 1)
            (Some (sockaddr_in_any 5000)) 0 initial_state)).
Proof.
  destruct (udp_bind_then_destroy 16 example_CONN_TYPE_UDP
              example_read_conn_tuple
              example_read_sport initial_state (udp_socket 1)
              (sockaddr_in_any 5000) pid_tgid_example 1)
    as (_ & _ & Hgone & _).
  - vm_compute. discriminate.
  - split.
    + vm_compute. set_solver.
    + apply Hgone; [vm_compute; discriminate | reflexivity].
Defined.

(** ** File transfers and the descriptor index *)

(** X16. [do_sendfile_exit] does nothing when no byte was transferred or
    when the descriptor has no entry in the index: no resolution is
    attempted and nothing is forwarded. *)
Theorem sendfile_without_socket_is_skipped
    (CONN_TYPE_TCP : Z)
    (read_conn_tuple : conn_tuple_t -> Z -> Z -> Z -> Z * conn_tuple_t)
    (st : tracer_state) (pid_tgid out_fd sent : Z)
    (Hskip : sent <= 0 \/
             sock_by_pid_fd st !! mk_pid_fd (u32 (Z.shiftr pid_tgid 32)) out_fd
             = None) :
  do_sendfile_exit CONN_TYPE_TCP read_conn_tuple pid_tgid out_fd sent st = st.
Proof.
  unfold do_sendfile_exit. destruct (Z.leb_spec sent 0); [reflexivity|].
  destruct Hskip as [Hsent | Hnone]; [lia|]. rewrite Hnone. reflexivity.
Qed.

Lemma sendfile_without_socket_is_skipped_witness :
  do_sendfile_exit example_CONN_TYPE_TCP example_read_conn_tuple
    pid_tgid_example 3 4096 initial_state = initial_state.
Proof.
  apply (sendfile_without_socket_is_skipped example_CONN_TYPE_TCP
           example_read_conn_tuple initial_state pid_tgid_example 3 4096).
  right. reflexivity.
Defined.

(** X17. A file transfer finds its socket through the descriptor index,
    by process: once [sockfd_lookup_light_exit] has registered a stream
    socket under (process, descriptor), [do_sendfile_exit] for that
    descriptor, called by any thread of the process with a positive byte
    count, resolves the tuple of that socket with the calling thread's
    identity and, when it resolves, forwards one send observation with
    the byte count; the index is left as the registration left it. *)
Theorem sendfile_after_registration
    (CONN_TYPE_TCP : Z)
    (sock_by_pid_fd_entries pid_fd_by_sock_entries : nat)
    (read_conn_tuple : conn_tuple_t -> Z -> Z -> Z -> Z * conn_tuple_t)
    (st : tracer_state) (pid_tgid pid_tgid' fd sent : Z) (s : socket)
    (Hnew : sock_by_pid_fd st !! mk_pid_fd (u32 (Z.shiftr pid_tgid 32)) fd = None)
    (Hsock : indexable s)
    (Hroom : has_room sock_by_pid_fd_entries (sock_by_pid_fd st)
               (mk_pid_fd (u32 (Z.shiftr pid_tgid 32)) fd))
    (Hproc : u32 (Z.shiftr pid_tgid' 32) = u32 (Z.shiftr pid_tgid 32))
    (Hsent : 0 < sent) :
  let registered :=
    sockfd_lookup_light_exit sock_by_pid_fd_entries pid_fd_by_sock_entries
      pid_tgid fd s st in
  let r :=
    read_conn_tuple conn_tuple_zero (socket_sk s) pid_tgid' CONN_TYPE_TCP in
  let st' :=
    do_sendfile_exit CONN_TYPE_TCP read_conn_tuple pid_tgid' fd sent
      registered in
  same_tables registered st' /\
  calls st' =
    calls st ++
    ReadConnTuple (socket_sk s) pid_tgid' CONN_TYPE_TCP ::
    (if fst r =? 0 then nil
     else HandleMessage (snd r) sent 0 CONN_DIRECTION_UNKNOWN 0 0
            PACKET_COUNT_NONE (socket_sk s) :: nil).
Proof.
  cbv zeta. rewrite sockfd_lookup_registers by assumption.
  unfold bpf_map_update_with_telemetry.
  rewrite (bpf_map_update_room sock_by_pid_fd_entries) by assumption.
  unfold do_sendfile_exit. destruct (Z.leb_spec sent 0); [lia|].
  cbn [sock_by_pid_fd set_sock_by_pid_fd set_pid_fd_by_sock].
  rewrite Hproc, lookup_insert_eq.
  destruct (fst (read_conn_tuple conn_tuple_zero (socket_sk s) pid_tgid'
                   CONN_TYPE_TCP) =? 0);
    unfold same_tables; cbn; rewrite <- ?app_assoc; repeat split.
Qed.

(** Thread 9 of process 100 sends a file on the descriptor thread 7
    resolved. *)
Lemma sendfile_after_registration_witness :
  calls
    (do_sendfile_exit example_CONN_TYPE_TCP example_read_conn_tuple
       (Z.shiftl 100 32 + 9) 3 4096
       (sockfd_lookup_light_exit 16 16 pid_tgid_example 3 (tcp_stream_socket 1)
          initial_state)) =
  ReadConnTuple 1 (Z.shiftl 100 32 + 9) example_CONN_TYPE_TCP ::
  HandleMessage
    (mk_conn_tuple 0 ipv4_10_0_0_1 0 ipv4_10_0_0_2 5000 80 7 100
       example_CONN_TYPE_TCP)
    4096 0 CONN_DIRECTION_UNKNOWN 0 0 PACKET_COUNT_NONE 1 :: nil.
Proof.
  destruct (sendfile_after_registration example_CONN_TYPE_TCP 16 16
              example_read_conn_tuple initial_state pid_tgid_example
              (Z.shiftl 100 32 + 9) 3 4096 (tcp_stream_socket 1))
    as (_ & Hcalls).
  - reflexivity.
  - exists (mk_proto_ops AF_INET). repeat split. left. reflexivity.
  - right. cbn. rewrite map_size_empty. lia.
  - reflexivity.
  - reflexivity.
  - rewrite Hcalls. reflexivity.
Defined.

(** X18. The descriptor index is first-writer-wins: an entry of the
    descriptor-to-socket map is never changed by
    [sockfd_lookup_light_exit], whatever descriptor and socket the lookup
    reports. In particular, when the kernel reports another socket for a
    descriptor that already has an entry, the entry keeps naming the old
    socket. *)
Theorem descriptor_entry_is_never_repointed
    (sock_by_pid_fd_entries pid_fd_by_sock_entries : nat)
    (st : tracer_state) (key : pid_fd_t) (sk pid_tgid fd : Z) (s : socket)
    (Hentry : sock_by_pid_fd st !! key = Some sk) :
  sock_by_pid_fd
    (sockfd_lookup_light_exit sock_by_pid_fd_entries pid_fd_by_sock_entries
       pid_tgid fd s st) !! key = Some sk.
Proof.
  unfold sockfd_lookup_light_exit.
  destruct (sock_by_pid_fd st !! mk_pid_fd (u32 (Z.shiftr pid_tgid 32)) fd)
    eqn:Hkey; [exact Hentry|].
  destruct (socket_ops s); [|exact Hentry].
  destruct (negb (socket_type s =? SOCK_STREAM) || _); [exact Hentry|].
  cbn [sock_by_pid_fd set_sock_by_pid_fd set_pid_fd_by_sock].
  unfold bpf_map_update_with_telemetry.
  rewrite bpf_map_update_other; [exact Hentry|].
  intros Heq. rewrite Heq in Hkey. congruence.
Qed.

(** Descriptor 3 of process 100 was resolved to socket 1; a later lookup
    that reports socket 2 for it changes nothing. *)
Lemma descriptor_entry_is_never_repointed_witness :
  sock_by_pid_fd
    (sockfd_lookup_light_exit 16 16 pid_tgid_example 3 (tcp_stream_socket 2)
       (sockfd_lookup_light_exit 16 16 pid_tgid_example 3 (tcp_stream_socket 1)
          initial_state)) !! mk_pid_fd 100 3 = Some 1.
Proof.
  apply (descriptor_entry_is_never_repointed 16 16
           (sockfd_lookup_light_exit 16 16 pid_tgid_example 3
              (tcp_stream_socket 1) initial_state)
           (mk_pid_fd 100 3) 1 pid_tgid_example 3 (tcp_stream_socket 2)).
  reflexivity.
Defined.

(** ** Handlers that only observe *)

(** X19. The data-path handlers only forward: [tcp_sendmsg_exit],
    [tcp_recvmsg_exit], [udp_recvmsg_exit], [udpv6_recvmsg_exit] and
    [do_sendfile_exit] never change a map, a binding set or the miss
    counter, whatever their arguments and whatever the resolvers
    return. *)
Theorem data_path_handlers_keep_tables
    (CONN_TYPE_UDP CONN_TYPE_TCP : Z)
    (read_conn_tuple read_conn_tuple_partial :
       conn_tuple_t -> Z -> Z -> Z -> Z * conn_tuple_t)
    (get_tcp_segment_counts : Z -> Z * Z)
    (sockaddr_to_addr : sockaddr -> conn_tuple_t -> conn_tuple_t)
    (st : tracer_state) (pid_tgid sk fd n flags : Z) (msg : option msghdr) :
  same_tables st
    (tcp_sendmsg_exit CONN_TYPE_TCP read_conn_tuple get_tcp_segment_counts
       pid_tgid sk n st) /\
  same_tables st (tcp_recvmsg_exit pid_tgid sk n st) /\
  same_tables st
    (udp_recvmsg_exit CONN_TYPE_UDP read_conn_tuple_partial sockaddr_to_addr
       pid_tgid sk msg flags n st) /\
  same_tables st
    (udpv6_recvmsg_exit CONN_TYPE_UDP read_conn_tuple_partial sockaddr_to_addr
       pid_tgid sk msg flags n st) /\
  same_tables st
    (do_sendfile_exit CONN_TYPE_TCP read_conn_tuple pid_tgid fd n st).
Proof.
  unfold tcp_sendmsg_exit, tcp_recvmsg_exit, udp_recvmsg_exit,
    udpv6_recvmsg_exit, handle_ret_udp_recvmsg, do_sendfile_exit, same_tables.
  repeat split;
    repeat match goal with
           | |- context [if ?c then _ else _] => destruct c
           | |- context [match ?o with Some _ => _ | None => _ end] =>
               destruct o
           end; reflexivity.
Qed.

(** ** Bind exit: which events are looked at *)

(** X20. [sys_exit_bind] skips a failed bind, a socket whose type has the
    datagram bit clear and a missing address structure; the type test is
    a test of one bit, so a stream socket (type 1) is never recorded and
    a raw socket (type 3) is handled like a datagram socket: its nonzero
    port is in the UDP binding set afterwards when it was there already
    or the set, of at most [udp_port_bindings_entries] bindings, has
    room. *)
Theorem bind_exit_guards
    (udp_port_bindings_entries : nat)
    (read_sport : Z -> Z) (st : tracer_state) (sock : socket)
    (addr : option sockaddr) (a : sockaddr) (rc : Z) :
  let bind_exit := inet_bind_exit udp_port_bindings_entries read_sport in
  let pb := mk_port_binding 0 (bind_port a (read_sport (socket_sk sock))) in
  (rc <> 0 \/ Z.land (u16 (socket_type sock)) SOCK_DGRAM = 0 \/ addr = None ->
   bind_exit sock addr rc st = st /\
   inet6_bind_exit udp_port_bindings_entries read_sport sock addr rc st = st) /\
  (socket_type sock = SOCK_STREAM -> bind_exit sock addr rc st = st) /\
  (socket_type sock = 3 ->
   bind_exit sock addr rc st =
   bind_exit (mk_socket SOCK_DGRAM (socket_ops sock) (socket_sk sock)) addr rc
     st) /\
  (socket_type sock = 3 ->
   bind_port a (read_sport (socket_sk sock)) <> 0 ->
   pb ∈ udp_port_bindings st \/
   (size (udp_port_bindings st) < udp_port_bindings_entries)%nat ->
   pb ∈ udp_port_bindings (bind_exit sock (Some a) 0 st)).
Proof.
  cbv zeta. split; [|split; [|split]].
  - intros Hskip. unfold inet_bind_exit, inet6_bind_exit, sys_exit_bind.
    destruct (Z.eqb_spec rc 0) as [Hrc | Hrc]; cbn [negb];
      [|split; reflexivity].
    destruct (Z.eqb_spec (Z.land (u16 (socket_type sock)) SOCK_DGRAM) 0)
      as [Hbit | Hbit]; [split; reflexivity|].
    destruct Hskip as [Hskip | [Hskip | Hskip]]; try contradiction.
    rewrite Hskip. split; reflexivity.
  - intros Htype. unfold inet_bind_exit, sys_exit_bind. rewrite Htype.
    destruct (negb (rc =? 0)); reflexivity.
  - intros Htype. unfold inet_bind_exit, sys_exit_bind.
    cbn [socket_type socket_sk]. rewrite Htype.
    destruct (negb (rc =? 0)); reflexivity.
  - intros Htype Hport Hroom. unfold inet_bind_exit.
    rewrite sys_exit_bind_unfold by (rewrite Htype; vm_compute; discriminate).
    cbv zeta. apply Z.eqb_neq in Hport. rewrite Hport.
    cbn [udp_port_bindings set_udp_port_bindings].
    rewrite (add_port_bind_room _ _ _ Hroom).
    apply elem_of_union_l, elem_of_singleton. reflexivity.
Qed.

Lemma bind_exit_guards_witness :
  inet_bind_exit 16 example_read_sport (tcp_stream_socket 1)
    (Some (sockaddr_in_any 8080)) 0 initial_state = initial_state /\
  mk_port_binding 0 8125 ∈
    udp_port_bindings
      (inet_bind_exit 16 example_read_sport
         (mk_socket 3 (Some (mk_proto_ops AF_INET)) 2)
         (Some (sockaddr_in_any 8125)) 0 initial_state).
Proof.
  split.
  - destruct (bind_exit_guards 16 example_read_sport initial_state
                (tcp_stream_socket 1) (Some (sockaddr_in_any 8080))
                (sockaddr_in_any 8080) 0) as (_ & Hstream & _).
    apply Hstream. reflexivity.
  - destruct (bind_exit_guards 16 example_read_sport initial_state
                (mk_socket 3 (Some (mk_proto_ops AF_INET)) 2)
                (Some (sockaddr_in_any 8125)) (sockaddr_in_any 8125) 0)
      as (_ & _ & _ & Hraw).
    apply Hraw; [reflexivity | vm_compute; discriminate |].
    right. cbn [udp_port_bindings initial_state]. rewrite size_empty. lia.
Defined.

(** ** Threads do not share staged sends *)

(** X21. The pending-send table is keyed by thread: a completion on one
    thread neither consumes nor forwards what another thread staged. After
    thread A has staged a send, a completion on a different thread B
    leaves A's entry in place; when B has staged nothing, it changes
    nothing at all. *)
Theorem udp_send_exit_ignores_other_threads
    (CONN_TYPE_UDP : Z)
    (read_conn_tuple : conn_tuple_t -> Z -> Z -> Z -> Z * conn_tuple_t)
    (st : tracer_state) (pid_tgid_a pid_tgid_b sk sent : Z) (skb : sk_buff)
    (fl4 : flowi4) (t0 : conn_tuple_t)
    (Hother : pid_tgid_b <> pid_tgid_a)
    (Hroom : has_room udp_send_skb_args_entries (udp_send_skb_args st)
               pid_tgid_a)
    (Hok : fst (udp_send_resolution4 read_conn_tuple CONN_TYPE_UDP pid_tgid_a
                  skb fl4 t0) <> 0) :
  let staged :=
    kprobe__udp_send_skb CONN_TYPE_UDP read_conn_tuple pid_tgid_a skb fl4 t0
      st in
  udp_send_skb_args (udp_sendmsg_exit pid_tgid_b sk sent staged) !! pid_tgid_a
    = Some (snd (udp_send_resolution4 read_conn_tuple CONN_TYPE_UDP pid_tgid_a
                   skb fl4 t0)) /\
  (udp_send_skb_args st !! pid_tgid_b = None ->
   udp_sendmsg_exit pid_tgid_b sk sent staged = staged).
Proof.
  cbv zeta. apply Z.eqb_neq in Hok.
  rewrite udp_send_skb_unfold. cbv zeta. rewrite Hok.
  cbn [udp_send_skb_args emit].
  rewrite bpf_map_update_room by assumption.
  unfold udp_sendmsg_exit, handle_udp_send.
  cbn [udp_send_skb_args set_udp_send_skb_args emit].
  rewrite lookup_insert_ne by congruence.
  destruct (udp_send_skb_args st !! pid_tgid_b) as [tb|] eqn:Hb.
  - split; [|discriminate].
    destruct (0 <? sent);
      cbn [udp_send_skb_args set_udp_send_skb_args emit];
      rewrite lookup_delete_ne by congruence; apply lookup_insert_eq.
  - split; [|reflexivity].
    cbn [udp_send_skb_args set_udp_send_skb_args]. apply lookup_insert_eq.
Qed.

Lemma udp_send_exit_ignores_other_threads_witness :
  let staged :=
    kprobe__udp_send_skb example_CONN_TYPE_UDP example_read_conn_tuple
      pid_tgid_example (mk_sk_buff 2) flow4_example conn_tuple_zero
      initial_state in
  udp_sendmsg_exit (pid_tgid_example + 1) 2 200 staged = staged.
Proof.
  cbv zeta.
  destruct (udp_send_exit_ignores_other_threads example_CONN_TYPE_UDP
              example_read_conn_tuple initial_state pid_tgid_example
              (pid_tgid_example + 1) 2 200 (mk_sk_buff 2) flow4_example
              conn_tuple_zero) as (_ & Hsame).
  - vm_compute. discriminate.
  - right. cbn. rewrite map_size_empty. unfold udp_send_skb_args_entries. lia.
  - vm_compute. discriminate.
  - apply Hsame. reflexivity.
Defined.
